(** * Payslip automation: a shallow embedding of the run pipeline

    The development follows the Python sources module by module:

    - [PyBase]        strings as sequences of code points, exceptions, results;
    - [SafeFilename]  [safe_filename] of [src/main.py];
    - [Period]        [resolve_period] of [src/main.py] and
                      [resolve_pay_period] of [src/utils/date_resolver.py];
    - [LoadData]      [load_employees] of [src/data_io/load_data.py];
    - [Effects]       the trace-and-exception monad used for the code that
                      talks to Excel, Outlook and the file system;
    - [OutlookSender] [OutlookEmailSender] of [src/email/outlook_sender.py];
    - [PdfExporter]   the session and the recalculation wait of
                      [src/pdf/excel_pdf_exporter.py];
    - [Main]          the employee loop of [main] and the [__main__] guard;
    - [Config]        [cfg_get] and [cfg_bool] of [src/main.py];
    - [Preflight]     the checks of [src/preflight.py];
    - [TemplateWriter] [write_employee_to_template] of
                      [src/data_io/template_writer.py];
    - [ExportSteps]   [ExcelPdfExporter.export], step by step.

    The definitions come first. The properties follow, one module per
    source module ([SafeFilenameSpec], [PeriodSpec], [LoadDataSpec],
    [OutlookSenderSpec], [PdfExporterSpec], [MainSpec], and further
    properties in the modules named [...Extra]), with the equations of
    the effect monad in [EffectsFacts] and the reading of traces in
    [Observations] and [TraceFacts]. *)

From Stdlib Require Import List NArith ZArith String Ascii Bool Arith Lia.
Import ListNotations.

Set Implicit Arguments.

(* ===================================================================== *)
(** ** Python values shared by all modules *)
(* ===================================================================== *)

Module PyBase.
Local Open Scope N_scope.

(** A Python [str] is a sequence of Unicode code points. *)
Definition pychar := N.
Definition pystr := list pychar.

(** ASCII literals of the source, written as Rocq strings. *)
Definition py (s : string) : pystr :=
  List.map N_of_ascii (list_ascii_of_string s).

(** [a == b] on strings. *)
Fixpoint pystr_eqb (a b : pystr) : bool :=
  match a, b with
  | [], [] => true
  | x :: a', y :: b' => (x =? y) && pystr_eqb a' b'
  | _, _ => false
  end.

(** [not s] on a string: true exactly for the empty string. *)
Definition is_empty (s : pystr) : bool :=
  match s with [] => true | _ :: _ => false end.

(** [ch.isspace()], which is also what [\s] matches in a [str] pattern
    and what [str.strip()] removes: CPython's [_PyUnicode_IsWhitespace]. *)
Definition isspace (c : pychar) : bool :=
  ((0x09 <=? c) && (c <=? 0x0D)) || ((0x1C <=? c) && (c <=? 0x20))
  || (c =? 0x85) || (c =? 0xA0) || (c =? 0x1680)
  || ((0x2000 <=? c) && (c <=? 0x200A))
  || (c =? 0x2028) || (c =? 0x2029) || (c =? 0x202F)
  || (c =? 0x205F) || (c =? 0x3000).

Fixpoint lstrip (s : pystr) : pystr :=
  match s with
  | [] => []
  | c :: t => if isspace c then lstrip t else s
  end.

Definition rstrip (s : pystr) : pystr := rev (lstrip (rev s)).

(** [s.strip()] *)
Definition strip (s : pystr) : pystr := rstrip (lstrip s).

(** [s[:n]] for a Python integer [n]; a negative [n] counts from the end. *)
Definition slice_to (s : pystr) (n : Z) : pystr :=
  if (0 <=? n)%Z then firstn (Z.to_nat n) s
  else firstn (List.length s - Z.to_nat (- n))%nat s.

(** The exception classes the sources raise or can meet. [SystemExit] is
    the only one that is not a subclass of [Exception]. *)
Inductive exn_class :=
| ValueError | FileNotFoundError | RuntimeError | TimeoutError
| AttributeError | KeyError | IndexError | TypeError
| ComError                       (* pywintypes.com_error and the like *)
| OtherException
| SystemExit.

(** An exception message is the f-string of the source with the values
    that were interpolated kept as they are. *)
Inductive msg_part :=
| Lit (s : string)
| Str (v : pystr)
| StrList (vs : list pystr)
| Int (z : Z).

Record exn := Exn { exn_cls : exn_class; exn_msg : list msg_part }.

(** The outcome of a Python call: it returns or it raises. *)
Inductive Py (A : Type) :=
| Return (a : A)
| Raise (e : exn).
Arguments Return {A} a.
Arguments Raise {A} e.

Definition is_Return {A} (r : Py A) : bool :=
  match r with Return _ => true | Raise _ => false end.

(** [except Exception] catches everything but [SystemExit]. *)
Definition is_Exception (e : exn) : bool :=
  match exn_cls e with SystemExit => false | _ => true end.

Definition py_bind {A B} (m : Py A) (k : A -> Py B) : Py B :=
  match m with
  | Return a => k a
  | Raise e => Raise e
  end.

(** [x or default] for an optional string: [None] and the empty string
    are both falsy. *)
Definition or_str (x : option pystr) (default : pystr) : pystr :=
  match x with
  | Some ((_ :: _) as s) => s
  | _ => default
  end.

(** Keyword arguments of [str.format]. *)
Inductive fval :=
| FInt (z : Z)
| FStr (s : pystr).

(** The parts of Python's [str] the sources use and this development
    takes as given: case folding and the format mini-language, which
    raises on a placeholder it cannot fill. *)
Record StrLib := {
  str_lower : pystr -> pystr;
  str_format : pystr -> list (string * fval) -> Py pystr
}.

End PyBase.
Import PyBase.

(* ===================================================================== *)
(** ** [safe_filename] (src/main.py) *)
(* ===================================================================== *)

Module SafeFilename.
Local Open Scope N_scope.

(** The character class of the first pattern: backslash, slash, colon,
    asterisk, question mark, double quote, less-than, greater-than,
    vertical bar, line feed, carriage return and tab. *)
Definition illegal_char (c : pychar) : bool :=
  (c =? 0x5C) || (c =? 0x2F) || (c =? 0x3A) || (c =? 0x2A) || (c =? 0x3F)
  || (c =? 0x22) || (c =? 0x3C) || (c =? 0x3E) || (c =? 0x7C)
  || (c =? 0x0A) || (c =? 0x0D) || (c =? 0x09).

(** [re.sub] with a pattern [[cls]+]: every maximal run of characters of the
    class is replaced by one copy of [repl]. [in_run] tells whether the
    previous character belonged to the class. *)
Fixpoint re_sub_runs (cls : pychar -> bool) (repl : pystr) (in_run : bool)
    (s : pystr) : pystr :=
  match s with
  | [] => []
  | c :: t =>
      if cls c then
        if in_run then re_sub_runs cls repl true t
        else repl ++ re_sub_runs cls repl true t
      else c :: re_sub_runs cls repl false t
  end.

Definition re_sub (cls : pychar -> bool) (repl : pystr) (s : pystr) : pystr :=
  re_sub_runs cls repl false s.

(** [s.replace] of the space by the underscore. *)
Definition replace_space (s : pystr) : pystr :=
  List.map (fun c => if c =? 0x20 then 0x5F else c) s.

Definition default_max_len : Z := 80.

Definition safe_filename (s : pystr) (max_len : Z) : pystr :=
  let s := re_sub illegal_char (py "_") s in
  let s := strip (re_sub isspace (py " ") s) in
  let s := replace_space s in
  if (Z.of_nat (List.length s) >? max_len)%Z then slice_to s max_len else s.

End SafeFilename.

(* ===================================================================== *)
(** ** Period resolution (src/main.py, src/utils/date_resolver.py) *)
(* ===================================================================== *)

Module Period.
Local Open Scope Z_scope.

Notation "x <- m ;; k" := (py_bind m (fun x => k))
  (at level 61, m at next level, right associativity).

(** [datetime.date] *)
Record date := mkdate { d_year : Z; d_month : Z; d_day : Z }.

Definition MINYEAR : Z := 1.
Definition MAXYEAR : Z := 9999.

Definition isleap (y : Z) : bool :=
  (y mod 4 =? 0) && (negb (y mod 100 =? 0) || (y mod 400 =? 0)).

(** Second component of [calendar.monthrange] for a month in 1..12. *)
Definition days_in_month (y m : Z) : Z :=
  if m =? 2 then (if isleap y then 29 else 28)
  else if (m =? 4) || (m =? 6) || (m =? 9) || (m =? 11) then 30
  else 31.

(** The constructor [date(year, month, day)] with its range checks. *)
Definition make_date (y m d : Z) : Py date :=
  if negb ((MINYEAR <=? y) && (y <=? MAXYEAR)) then
    Raise (Exn ValueError [Lit "year "; Int y; Lit " is out of range"])
  else if negb ((1 <=? m) && (m <=? 12)) then
    Raise (Exn ValueError [Lit "month must be in 1..12"])
  else if negb ((1 <=? d) && (d <=? days_in_month y m)) then
    Raise (Exn ValueError [Lit "day is out of range for month"])
  else Return (mkdate y m d).

(** What a value of type [date] satisfies. *)
Definition valid_date (d : date) : Prop :=
  MINYEAR <= d_year d <= MAXYEAR /\ 1 <= d_month d <= 12
  /\ 1 <= d_day d <= days_in_month (d_year d) (d_month d).

(** The date and calendar services taken as given: the wall clock,
    [datetime.strptime] with the pattern year-month-day ([None] when the
    text does not parse), [date.strftime] and the month names of
    [calendar.month_name] (index 0 is the empty name). *)
Record DateLib := {
  today : date;
  strptime_ymd : pystr -> option date;
  strftime : date -> pystr -> pystr;
  calendar_month_name : Z -> pystr
}.

(** The [run] and [period] sections of the configuration; [None] is an
    absent key. *)
Record PeriodConfig := {
  period_mode : option pystr;
  reference_date : option pystr;
  manual_year : option Z;
  manual_month : option Z;
  id_format : option pystr;
  display_format : option pystr;
  payslip_date_format : option pystr
}.

Definition get_default {A} (x : option A) (default : A) : A :=
  match x with Some v => v | None => default end.

(** *** [resolve_period] of src/main.py *)

Record PeriodInfo := {
  year : Z;
  month : Z;
  period_id : pystr;
  period_display : pystr;
  payslip_date_str : pystr
}.

(** The first lines of [resolve_period]: the normalised mode and the
    reference date. *)
Definition main_mode (sl : StrLib) (cfg : PeriodConfig) : pystr :=
  str_lower sl (strip (get_default (period_mode cfg) (py "manual"))).

Definition main_ref_dt (dl : DateLib) (cfg : PeriodConfig) : Py date :=
  let ref_str := strip (get_default (reference_date cfg) []) in
  if negb (is_empty ref_str) then
    match strptime_ymd dl ref_str with
    | Some d => Return d
    | None =>
        Raise (Exn SystemExit
          [Lit "Invalid run.reference_date. Expected YYYY-MM-DD (e.g. 2026-01-25)."])
    end
  else Return (today dl).

Definition resolve_period (sl : StrLib) (dl : DateLib) (cfg : PeriodConfig)
  : Py PeriodInfo :=
  let mode := main_mode sl cfg in
  ref_dt <- main_ref_dt dl cfg ;;
  ym <-
    (if pystr_eqb mode (py "manual") then
       Return (get_default (manual_year cfg) (d_year ref_dt),
               get_default (manual_month cfg) (d_month ref_dt))
     else if pystr_eqb mode (py "auto_current_month") then
       Return (d_year ref_dt, d_month ref_dt)
     else if pystr_eqb mode (py "auto_previous_month") then
       if d_month ref_dt =? 1 then Return (d_year ref_dt - 1, 12)
       else Return (d_year ref_dt, d_month ref_dt - 1)
     else
       Raise (Exn SystemExit
         [Lit "Invalid run.period_mode.";
          Lit "Allowed values: auto_previous_month, auto_current_month, manual"])) ;;
  let '(year, month) := ym in
  let id_format := get_default (id_format cfg) (py "{year}-{month:02d}") in
  let display_format :=
    get_default (display_format cfg) (py "{month_name} {year}") in
  let payslip_date_format :=
    get_default (payslip_date_format cfg) (py "%d %B %Y") in
  first_day <- make_date year month 1 ;;
  let month_name := strftime dl first_day (py "%B") in
  let kwargs :=
    [("year"%string, FInt year); ("month"%string, FInt month);
     ("month_name"%string, FStr month_name)] in
  period_id <- str_format sl id_format kwargs ;;
  period_display <- str_format sl display_format kwargs ;;
  payslip_dt <- make_date year month 1 ;;
  let payslip_date_str := strftime dl payslip_dt payslip_date_format in
  Return {| year := year; month := month; period_id := period_id;
            period_display := period_display;
            payslip_date_str := payslip_date_str |}.

(** *** [resolve_pay_period] of src/utils/date_resolver.py *)

Record PayPeriod := {
  pp_year : Z;
  pp_month : Z;
  pp_month_name : pystr;
  pp_period_id : pystr;
  pp_period_display : pystr;
  pp_start_date : date;
  pp_end_date : date
}.

(** [d[key]] on a dict: an absent key raises [KeyError]. *)
Definition subscript {A} (x : option A) (key : string) : Py A :=
  match x with
  | Some v => Return v
  | None => Raise (Exn KeyError [Lit key])
  end.

(** [calendar.month_name[month]]: a list of 13 names indexed the Python
    way, negative indices counting from the end. *)
Definition month_name_at (dl : DateLib) (m : Z) : Py pystr :=
  if (0 <=? m) && (m <=? 12) then Return (calendar_month_name dl m)
  else if (-13 <=? m) && (m <? 0) then Return (calendar_month_name dl (m + 13))
  else Raise (Exn IndexError [Lit "list index out of range"]).

(** The first lines of [resolve_pay_period]. *)
Definition util_ref_date (dl : DateLib) (cfg : PeriodConfig) : Py date :=
  match reference_date cfg with
  | Some ((_ :: _) as reference_date_str) =>
      match strptime_ymd dl reference_date_str with
      | Some d => Return d
      | None =>
          Raise (Exn ValueError
            [Lit "reference_date must be in YYYY-MM-DD format"])
      end
  | _ => Return (today dl)
  end.

Definition util_mode (cfg : PeriodConfig) : pystr :=
  get_default (period_mode cfg) (py "auto_previous_month").

Definition resolve_pay_period (sl : StrLib) (dl : DateLib) (cfg : PeriodConfig)
  : Py PayPeriod :=
  ref_date <- util_ref_date dl cfg ;;
  let mode := util_mode cfg in
  ym <-
    (if pystr_eqb mode (py "manual") then
       y <- subscript (manual_year cfg) "year" ;;
       m <- subscript (manual_month cfg) "month" ;;
       Return (y, m)
     else if pystr_eqb mode (py "auto_current_month") then
       Return (d_year ref_date, d_month ref_date)
     else if pystr_eqb mode (py "auto_previous_month") then
       let year := d_year ref_date in
       let month := d_month ref_date - 1 in
       if month =? 0 then Return (year - 1, 12) else Return (year, month)
     else
       Raise (Exn ValueError [Lit "Unknown period_mode: "; Str mode])) ;;
  let '(year, month) := ym in
  month_name <- month_name_at dl month ;;
  start_date <- make_date year month 1 ;;
  let last_day := days_in_month year month in
  end_date <- make_date year month last_day ;;
  id_fmt <- subscript (id_format cfg) "id_format" ;;
  period_id <-
    str_format sl id_fmt
      [("year"%string, FInt year); ("month"%string, FInt month)] ;;
  display_fmt <- subscript (display_format cfg) "display_format" ;;
  period_display <-
    str_format sl display_fmt
      [("year"%string, FInt year); ("month"%string, FInt month);
       ("month_name"%string, FStr month_name)] ;;
  Return {| pp_year := year; pp_month := month; pp_month_name := month_name;
            pp_period_id := period_id; pp_period_display := period_display;
            pp_start_date := start_date; pp_end_date := end_date |}.

End Period.

(* ===================================================================== *)
(** ** [load_employees] (src/data_io/load_data.py) *)
(* ===================================================================== *)

Module LoadData.

Notation "x <- m ;; k" := (py_bind m (fun x => k))
  (at level 61, m at next level, right associativity).

(** A cell read with [dtype=str]: text, or [None] for the missing value
    (NaN) the reader puts where the sheet has nothing. *)
Definition Cell := option pystr.

(** The frame [pd.read_excel] returns: the header and the rows in sheet
    order. A row shorter than the header is missing its last cells. *)
Record DataFrame := {
  columns : list pystr;
  rows : list (list Cell)
}.

(** [col in df.columns] *)
Definition has_column (cols : list pystr) (col : pystr) : bool :=
  existsb (pystr_eqb col) cols.

Fixpoint index_of (col : pystr) (cols : list pystr) : option nat :=
  match cols with
  | [] => None
  | c :: t => if pystr_eqb col c then Some 0
              else option_map S (index_of col t)
  end.

(** [row[col]]: the cell under the label, [KeyError] without the label. *)
Definition row_get (cols : list pystr) (row : list Cell) (col : pystr)
  : Py Cell :=
  match index_of col cols with
  | Some i => Return (nth i row None)
  | None => Raise (Exn KeyError [Str col])
  end.

Definition notna (c : Cell) : bool :=
  match c with Some _ => true | None => false end.

(** A row survives [dropna(subset=...)] when none of the cells under the
    labels of the subset is missing. *)
Definition row_complete (cols : list pystr) (subset : list pystr)
    (row : list Cell) : bool :=
  forallb (fun col =>
             match row_get cols row col with
             | Return c => notna c
             | Raise _ => false
             end) subset.

(** [df.dropna(subset=subset)]; a label of the subset that is not a
    column raises [KeyError]. *)
Definition dropna (df : DataFrame) (subset : list pystr) : Py DataFrame :=
  match filter (fun col => negb (has_column (columns df) col)) subset with
  | [] =>
      Return {| columns := columns df;
                rows := filter (row_complete (columns df) subset) (rows df) |}
  | absent => Raise (Exn KeyError [StrList absent])
  end.

(** [value.strip()] on a cell: the missing value is a float and has no
    such method. *)
Definition cell_strip (c : Cell) : Py pystr :=
  match c with
  | Some s => Return (strip s)
  | None =>
      Raise (Exn AttributeError
        [Lit "'float' object has no attribute 'strip'"])
  end.

(** An employee record is a dict with string keys. *)
Definition Employee := list (string * pystr).

Fixpoint dict_get (d : Employee) (key : string) : option pystr :=
  match d with
  | [] => None
  | (k, v) :: t => if String.eqb k key then Some v else dict_get t key
  end.

(** The body of the loop over [df_clean.iterrows()]. *)
Definition employee_of_row (cols : list pystr)
    (reference_col name_col email_col : pystr) (row : list Cell)
  : Py Employee :=
  ref_cell <- row_get cols row reference_col ;;
  ref <- cell_strip ref_cell ;;
  name_cell <- row_get cols row name_col ;;
  name <- cell_strip name_cell ;;
  email_cell <- row_get cols row email_col ;;
  email <- cell_strip email_cell ;;
  Return [("ref"%string, ref); ("name"%string, name); ("email"%string, email)].

Fixpoint build_employees (cols : list pystr)
    (reference_col name_col email_col : pystr) (rows : list (list Cell))
    (employees : list Employee) : Py (list Employee) :=
  match rows with
  | [] => Return employees
  | row :: rest =>
      e <- employee_of_row cols reference_col name_col email_col row ;;
      build_employees cols reference_col name_col email_col rest
        (employees ++ [e])
  end.

(** [load_employees]; [read_excel] is the outcome of [pd.read_excel] on
    the workbook path and sheet name. *)
Definition load_employees (read_excel : Py DataFrame)
    (reference_col name_col email_col : pystr)
    (required_non_null_columns : list pystr) : Py (list Employee) :=
  df <- read_excel ;;
  let missing_cols :=
    filter (fun col => negb (has_column (columns df) col))
           required_non_null_columns in
  match missing_cols with
  | _ :: _ =>
      Raise (Exn ValueError
        [Lit "Missing required columns in Data Source: "; StrList missing_cols])
  | [] =>
      df_clean <- dropna df required_non_null_columns ;;
      build_employees (columns df_clean) reference_col name_col email_col
        (rows df_clean) []
  end.

End LoadData.

(* ===================================================================== *)
(** ** Effects: calls on the outside world, their trace, exceptions *)
(* ===================================================================== *)

Module Effects.

(** The calls that leave the program. A call either returns or raises;
    what it does is decided by the [World]. Information-level logging
    is left out; warnings are kept. *)
Inductive Session := ExcelSession | OutlookSession.

Inductive Call :=
(* src/data_io/template_writer.py: the whole of write_employee_to_template,
   which loads the template, writes the reference and saves the copy *)
| WriteEmployeeToTemplate
    (template_path output_path employee_ref employee_ref_named_range : pystr)
(* ExcelPdfExporter: session *)
| XlCoInitialize
| XlDispatch (fresh_instance : bool)
| XlConfigure                      (* Visible, DisplayAlerts, AskToUpdateLinks, EnableEvents *)
| XlSetCalculationAutomatic
| XlQuit
| XlCoUninitialize
(* ExcelPdfExporter: one export, after the check of the session *)
| XlExport (workbook_path output_pdf_path : pystr) (sheet_name : option pystr)
    (quality : pystr) (open_after_publish ignore_print_areas : bool)
| XlCalculateFullRebuild
| XlCalculate
| Sleep (milliseconds : Z)
(* OutlookEmailSender: session *)
| OlCoInitialize
| OlDispatch
| OlCoUninitialize
(* OutlookEmailSender: the mail item *)
| OlCreateItem (kind : Z)
| OlSetTo (v : pystr)
| OlSetSubject (v : pystr)
| OlSetBody (v : pystr)
| OlSetSentOnBehalfOfName (v : pystr)
| OlAttachmentsAdd (path : pystr)
| OlDisplay
| OlSend
(* method calls inside the program that the trace keeps as marks *)
| Enter (s : Session)              (* __enter__ of the session object *)
| Exit (s : Session)               (* __exit__ of the session object *)
| SendEmailCalled (to_address subject body : pystr)
    (attachment_path sender_mailbox : option pystr)
| LogWarning (msg : list msg_part).

(** A trace lists the calls in the order they were made, each with the
    exception it raised, if any. *)
Definition Event := (Call * option exn)%type.
Definition Trace := list Event.

(** The outside world. Every answer may depend on all that happened
    before. Times are in milliseconds. *)
Record World := {
  win32com_available : bool;
  outcome : Trace -> Call -> option exn;
  path_exists : Trace -> pystr -> bool;
  calculation_state : Trace -> Z;
  time_ms : Trace -> Z;
  abspath : pystr -> pystr;
  path_join : pystr -> pystr -> pystr;
  strlib : StrLib
}.

(** The state a run threads: the trace and the two fields the session
    objects mutate, [ExcelPdfExporter.excel] and
    [OutlookEmailSender.outlook] (set or [None]). *)
Record St := {
  trace : Trace;
  excel : bool;
  outlook : bool
}.

Definition initial : St := {| trace := []; excel := false; outlook := false |}.

Definition M (A : Type) := St -> St * Py A.

Definition ret {A} (a : A) : M A := fun st => (st, Return a).

Definition raise {A} (e : exn) : M A := fun st => (st, Raise e).

Definition bind {A B} (m : M A) (k : A -> M B) : M B :=
  fun st =>
    match m st with
    | (st', Return a) => k a st'
    | (st', Raise e) => (st', Raise e)
    end.

Definition lift {A} (r : Py A) : M A := fun st => (st, r).

Definition get : M St := fun st => (st, Return st).

Definition record (c : Call) (r : option exn) (st : St) : St :=
  {| trace := trace st ++ [(c, r)]; excel := excel st; outlook := outlook st |}.

Definition set_excel (b : bool) : M unit :=
  fun st => ({| trace := trace st; excel := b; outlook := outlook st |}, Return tt).

Definition set_outlook (b : bool) : M unit :=
  fun st => ({| trace := trace st; excel := excel st; outlook := b |}, Return tt).

(** An outside call: recorded, then returns or raises as the world says. *)
Definition call (w : World) (c : Call) : M unit :=
  fun st =>
    let r := outcome w (trace st) c in
    (record c r st, match r with None => Return tt | Some e => Raise e end).

(** [try: c except Exception: pass] *)
Definition call_quietly (w : World) (c : Call) : M unit :=
  fun st =>
    let r := outcome w (trace st) c in
    (record c r st,
     match r with
     | Some e => if is_Exception e then Return tt else Raise e
     | None => Return tt
     end).

(** A mark in the trace: never raises. *)
Definition mark (c : Call) : M unit :=
  fun st => (record c None st, Return tt).

(** [with cm: body] for a context manager whose [__exit__] returns
    [None]: [__exit__] runs whenever [__enter__] returned, the outcome of
    the body stands unless [__exit__] itself raises. The trace keeps how
    [__enter__] and [__exit__] ended. *)
Definition with_ {A} (s : Session) (enter exit : M unit) (body : M A) : M A :=
  fun st =>
    match enter st with
    | (st1, Raise e) => (record (Enter s) (Some e) st1, Raise e)
    | (st1, Return _) =>
        let (st2, r) := body (record (Enter s) None st1) in
        match exit st2 with
        | (st3, Return _) => (record (Exit s) None st3, r)
        | (st3, Raise e) => (record (Exit s) (Some e) st3, Raise e)
        end
    end.

(** [try: body finally: cleanup]: the cleanup runs however the body
    ended; the outcome of the body stands unless the cleanup raises. *)
Definition finally_ {A} (body : M A) (cleanup : M unit) : M A :=
  fun st =>
    let (st1, r) := body st in
    match cleanup st1 with
    | (st2, Return _) => (st2, r)
    | (st2, Raise e) => (st2, Raise e)
    end.

Declare Scope eff_scope.
Delimit Scope eff_scope with eff.
Notation "x <- m ;; k" := (bind m (fun x => k))
  (at level 61, m at next level, right associativity) : eff_scope.
Notation "m ;; k" := (bind m (fun _ => k))
  (at level 61, right associativity) : eff_scope.

End Effects.

(* ===================================================================== *)
(** ** [OutlookEmailSender] (src/email/outlook_sender.py) *)
(* ===================================================================== *)

Module OutlookSender.
Import Effects.
Local Open Scope eff_scope.

Record OutlookEmailSender := { send_mode : pystr }.

(** [__init__] *)
Definition new (send_mode : pystr) : Py OutlookEmailSender :=
  if negb (pystr_eqb send_mode (py "send") || pystr_eqb send_mode (py "display"))
  then Raise (Exn ValueError [Lit "send_mode must be 'send' or 'display'"])
  else Return {| send_mode := send_mode |}.

(** [__enter__]: a failure of [Dispatch] is re-raised as [RuntimeError]. *)
Definition enter (w : World) : M unit :=
  call w OlCoInitialize ;;
  (fun st =>
     match outcome w (trace st) OlDispatch with
     | None => set_outlook true (record OlDispatch None st)
     | Some e =>
         (record OlDispatch (Some e) st,
          if is_Exception e then
            Raise (Exn RuntimeError
              [Lit "Failed to start Outlook COM automation. ";
               Lit "Ensure Outlook desktop is installed, opened at least once, ";
               Lit "and you are running under the same Windows user profile."])
          else Raise e)
     end).

(** [__exit__] *)
Definition exit (w : World) : M unit :=
  set_outlook false ;;
  call w OlCoUninitialize.

Definition send_email (w : World) (self : OutlookEmailSender)
    (to_address subject body : pystr)
    (attachment_path sender_mailbox : option pystr) : M unit :=
  if is_empty to_address then
    raise (Exn ValueError [Lit "Recipient email address is missing or invalid"])
  else if is_empty subject then
    raise (Exn ValueError [Lit "Email subject cannot be empty"])
  else if is_empty body then
    raise (Exn ValueError [Lit "Email body cannot be empty"])
  else
    st <- get ;;
    (if negb (outlook st) then
       raise (Exn AttributeError
         [Lit "'NoneType' object has no attribute 'CreateItem'"])
     else ret tt) ;;
    call w (OlCreateItem 0) ;;
    call w (OlSetTo to_address) ;;
    call w (OlSetSubject subject) ;;
    call w (OlSetBody body) ;;
    (match sender_mailbox with
     | Some ((_ :: _) as mailbox) => call w (OlSetSentOnBehalfOfName mailbox)
     | _ => ret tt
     end) ;;
    (match attachment_path with
     | Some ((_ :: _) as p) =>
         let attachment_path := abspath w p in
         st <- get ;;
         if negb (path_exists w (trace st) attachment_path) then
           raise (Exn FileNotFoundError
             [Lit "Attachment not found: "; Str attachment_path])
         else call w (OlAttachmentsAdd attachment_path)
     | _ => ret tt
     end) ;;
    if pystr_eqb (send_mode self) (py "display") then call w OlDisplay
    else call w OlSend.

End OutlookSender.

(* ===================================================================== *)
(** ** [ExcelPdfExporter] (src/pdf/excel_pdf_exporter.py) *)
(* ===================================================================== *)

Module PdfExporter.
Import Effects.
Local Open Scope eff_scope.
Local Open Scope Z_scope.

Record ExcelPdfExporter := {
  visible : bool;
  timeout_seconds : Z;
  force_full_recalc : bool;
  save_before_export : bool;
  use_fresh_instance : bool
}.

(** [ExcelPdfExporter()] with the defaults of [__init__]. *)
Definition default : ExcelPdfExporter :=
  {| visible := false; timeout_seconds := 30; force_full_recalc := true;
     save_before_export := true; use_fresh_instance := true |}.

(** [__enter__] *)
Definition enter (w : World) (self : ExcelPdfExporter) : M unit :=
  if negb (win32com_available w) then
    raise (Exn RuntimeError
      [Lit "ExcelPdfExporter requires Windows + Microsoft Excel + pywin32."])
  else
    call w XlCoInitialize ;;
    call w (XlDispatch (use_fresh_instance self)) ;;
    set_excel true ;;
    call w XlConfigure ;;
    call_quietly w XlSetCalculationAutomatic.

(** [__exit__]: an [Exception] of [Quit] or of [CoUninitialize] is
    passed over; the field is cleared and [CoUninitialize] is called in
    the [finally], so also when [Quit] raised something else. *)
Definition exit (w : World) : M unit :=
  finally_
    (st <- get ;;
     if excel st then call_quietly w XlQuit else ret tt)
    (set_excel false ;;
     call_quietly w XlCoUninitialize).

(** [export]: the check of the session, then the work on the workbook.
    That work (opening the workbook, the recalculation wait below, the
    save, the export proper, the check that the file exists, closing the
    workbook) is one outside call here, [XlExport]: it returns or it
    raises, as the world decides. *)
Definition export (w : World) (workbook_path output_pdf_path : pystr)
    (sheet_name : option pystr) (quality : pystr)
    (open_after_publish ignore_print_areas : bool) : M pystr :=
  st <- get ;;
  if negb (excel st) then
    raise (Exn RuntimeError
      [Lit "ExcelPdfExporter not initialized. Use within a 'with' block."])
  else
    let workbook_path := abspath w workbook_path in
    let output_pdf_path := abspath w output_pdf_path in
    call w (XlExport workbook_path output_pdf_path sheet_name quality
              open_after_publish ignore_print_areas) ;;
    ret output_pdf_path.

(** The [while] loop of [_force_recalc_and_wait]. Each iteration reads
    the calculation state, then the clock, then sleeps 0.2 s. [fuel]
    bounds the number of iterations the model follows; [None] means the
    loop was still running when the fuel ran out. *)
Fixpoint wait_loop (w : World) (timeout_seconds start : Z) (fuel : nat)
    (st : St) : option (St * Py unit) :=
  match fuel with
  | O => None
  | S fuel' =>
      if calculation_state w (trace st) =? 0 then Some (st, Return tt)
      else if time_ms w (trace st) - start >? 1000 * timeout_seconds then
        Some (st, Raise (Exn TimeoutError
                [Lit "Excel calculation did not complete within ";
                 Int timeout_seconds; Lit "s"]))
      else wait_loop w timeout_seconds start fuel' (record (Sleep 200) None st)
  end.

Definition _force_recalc_and_wait (w : World) (self : ExcelPdfExporter)
    (fuel : nat) (st : St) : option (St * Py unit) :=
  match (if force_full_recalc self then call w XlCalculateFullRebuild
         else call w XlCalculate) st with
  | (st1, Raise e) => Some (st1, Raise e)
  | (st1, Return _) =>
      let start := time_ms w (trace st1) in
      wait_loop w (timeout_seconds self) start fuel st1
  end.

End PdfExporter.

(* ===================================================================== *)
(** ** The employee loop of [main] and the [__main__] guard (src/main.py) *)
(* ===================================================================== *)

Module Main.
Import Effects LoadData.
Local Open Scope eff_scope.

(** What [main] has read from the configuration and resolved by the
    time the loop starts. *)
Record RunContext := {
  pdf_enabled : bool;
  email_enabled : bool;
  template_path : pystr;
  run_dir : pystr;
  xlsx_dir : pystr;
  pdf_dir : pystr;
  employee_ref_named_range : pystr;
  filename_pattern : pystr;
  period : Period.PeriodInfo;
  pdf_sheet_name : option pystr;
  pdf_quality : pystr;
  pdf_open_after : bool;
  pdf_ignore_print_areas : bool;
  sender_mailbox : option pystr;
  send_mode : pystr;
  subject_tmpl : pystr;
  body_tmpl : pystr
}.

(** Keyword arguments of the subject and body templates. *)
Definition message_kwargs (ctx : RunContext) (emp_name emp_ref : pystr)
  : list (string * fval) :=
  [("name"%string, FStr emp_name); ("ref"%string, FStr emp_ref);
   ("period_display"%string, FStr (Period.period_display (period ctx)));
   ("period_id"%string, FStr (Period.period_id (period ctx)));
   ("payslip_date"%string, FStr (Period.payslip_date_str (period ctx)))].

(** The body of the [for emp in employees] loop. The result tells
    whether the iteration reached [processed += 1]; [false] is the
    [continue] of an employee without a reference. *)
Definition process_employee (w : World) (ctx : RunContext)
    (excel_exporter : option PdfExporter.ExcelPdfExporter)
    (outlook_sender : option OutlookSender.OutlookEmailSender)
    (emp : Employee) : M bool :=
  let emp_ref := strip (or_str (dict_get emp "ref") []) in
  let emp_name := strip (or_str (dict_get emp "name") []) in
  let emp_email := strip (or_str (dict_get emp "email") []) in
  if is_empty emp_ref then
    mark (LogWarning [Lit "Skipping employee with missing ref."]) ;;
    ret false
  else
    let date_token := Period.period_id (period ctx) in
    raw_filename <-
      lift (str_format (strlib w) (filename_pattern ctx)
              [("ref"%string, FStr emp_ref); ("name"%string, FStr emp_name);
               ("date"%string, FStr date_token)]) ;;
    let file_stem :=
      SafeFilename.safe_filename raw_filename SafeFilename.default_max_len in
    let xlsx_path := path_join w (xlsx_dir ctx) (file_stem ++ py ".xlsx") in
    let pdf_path := path_join w (pdf_dir ctx) (file_stem ++ py ".pdf") in
    call w (WriteEmployeeToTemplate (template_path ctx) xlsx_path emp_ref
              (employee_ref_named_range ctx)) ;;
    (match pdf_enabled ctx, excel_exporter with
     | true, Some exporter =>
         with_ ExcelSession (PdfExporter.enter w exporter) (PdfExporter.exit w)
           (PdfExporter.export w xlsx_path pdf_path (pdf_sheet_name ctx)
              (pdf_quality ctx) (pdf_open_after ctx)
              (pdf_ignore_print_areas ctx)) ;;
         ret tt
     | _, _ => ret tt
     end) ;;
    (match email_enabled ctx, outlook_sender with
     | true, Some sender =>
         if is_empty emp_email then
           mark (LogWarning
                   [Lit "No email for ref="; Str emp_ref; Lit "; skipping email."])
         else
           subject <-
             lift (str_format (strlib w) (subject_tmpl ctx)
                     (message_kwargs ctx emp_name emp_ref)) ;;
           body <-
             lift (str_format (strlib w) (body_tmpl ctx)
                     (message_kwargs ctx emp_name emp_ref)) ;;
           let attachment := if pdf_enabled ctx then pdf_path else xlsx_path in
           with_ OutlookSession (OutlookSender.enter w) (OutlookSender.exit w)
             (mark (SendEmailCalled emp_email subject body (Some attachment)
                      (sender_mailbox ctx)) ;;
              OutlookSender.send_email w sender emp_email subject body
                (Some attachment) (sender_mailbox ctx))
     | _, _ => ret tt
     end) ;;
    ret true.

Fixpoint employee_loop (w : World) (ctx : RunContext)
    (excel_exporter : option PdfExporter.ExcelPdfExporter)
    (outlook_sender : option OutlookSender.OutlookEmailSender)
    (employees : list Employee) (processed : nat) : M nat :=
  match employees with
  | [] => ret processed
  | emp :: rest =>
      counted <- process_employee w ctx excel_exporter outlook_sender emp ;;
      employee_loop w ctx excel_exporter outlook_sender rest
        (if counted then S processed else processed)
  end.

(** The two session objects [main] constructs before the loop, [None]
    for a capability that is off. *)
Definition make_exporter (ctx : RunContext)
  : option PdfExporter.ExcelPdfExporter :=
  if pdf_enabled ctx then Some PdfExporter.default else None.

Definition make_sender (ctx : RunContext)
  : Py (option OutlookSender.OutlookEmailSender) :=
  if email_enabled ctx then
    py_bind (OutlookSender.new (send_mode ctx)) (fun sender => Return (Some sender))
  else Return None.

(** [main] from the call of [load_employees] on; [loaded] is the outcome
    of that call. The result is the count it prints at the end. *)
Definition main (w : World) (ctx : RunContext)
    (loaded : Py (list Employee)) : M nat :=
  employees <- lift loaded ;;
  match employees with
  | [] =>
      raise (Exn SystemExit
        [Lit "No employees found after filtering required columns."])
  | _ :: _ =>
      let excel_exporter := make_exporter ctx in
      outlook_sender <- lift (make_sender ctx) ;;
      employee_loop w ctx excel_exporter outlook_sender employees 0
  end.

Definition class_name (c : exn_class) : string :=
  match c with
  | ValueError => "ValueError" | FileNotFoundError => "FileNotFoundError"
  | RuntimeError => "RuntimeError" | TimeoutError => "TimeoutError"
  | AttributeError => "AttributeError" | KeyError => "KeyError"
  | IndexError => "IndexError" | TypeError => "TypeError"
  | ComError => "com_error" | OtherException => "Exception"
  | SystemExit => "SystemExit"
  end.

(** The exit status of the interpreter when [SystemExit] reaches the top:
    0 without an argument, 1 with a message (which is printed). *)
Definition exit_status (e : exn) : Z :=
  match exn_msg e with
  | [] => 0%Z
  | _ :: _ => 1%Z
  end.

(** The [__main__] guard around [main()]: the process exit status. *)
Definition dunder_main {A} (m : M A) (st : St) : St * Z :=
  match m st with
  | (st', Return _) => (st', 0%Z)
  | (st', Raise exc) =>
      if is_Exception exc then
        (st', exit_status
                (Exn SystemExit
                   ([Lit "An unexpected error occurred.";
                     Lit (class_name (exn_cls exc)); Lit ": "]
                    ++ exn_msg exc
                    ++ [Lit "";
                        Lit "Review the configuration, input workbook, and logs for details."])))
      else (st', exit_status exc)
  end.

End Main.

(* ===================================================================== *)
(** ** Configuration lookup: [cfg_get], [cfg_bool] (src/main.py) *)
(* ===================================================================== *)

Module Config.

(** A value loaded from the settings file: null, a boolean, an integer,
    a string, a list or a dict with string keys. Floats and dates, which
    the parser can also return, are not followed. *)
#[warnings="-register-all"]
Inductive yaml :=
| YNull
| YBool (b : bool)
| YInt (z : Z)
| YStr (s : pystr)
| YList (items : list yaml)
| YDict (entries : list (string * yaml)).

(** [d[key]] for a key that is in the dict, [None] for one that is not. *)
Fixpoint entry (entries : list (string * yaml)) (key : string) : option yaml :=
  match entries with
  | [] => None
  | (k, v) :: t => if String.eqb k key then Some v else entry t key
  end.

(** [cfg_get(cfg, *keys, default=default)] *)
Fixpoint cfg_get (cur : yaml) (keys : list string) (default : yaml) : yaml :=
  match keys with
  | [] => cur
  | key :: rest =>
      match cur with
      | YDict entries =>
          match entry entries key with
          | Some v => cfg_get v rest default
          | None => default
          end
      | _ => default
      end
  end.

(** [bool(v)] *)
Definition truthy (v : yaml) : bool :=
  match v with
  | YNull => false
  | YBool b => b
  | YInt z => negb (Z.eqb z 0)
  | YStr s => negb (is_empty s)
  | YList items => match items with [] => false | _ :: _ => true end
  | YDict entries => match entries with [] => false | _ :: _ => true end
  end.

(** [cfg_bool(cfg, *keys, default=default)] *)
Definition cfg_bool (cfg : yaml) (keys : list string) (default : bool) : bool :=
  truthy (cfg_get cfg keys (YBool default)).

(** [str(v)] for the scalars; [decimal] writes an integer, and the text
    of a list or dict is left to [repr]. *)
Definition py_str (decimal : Z -> pystr) (repr : yaml -> pystr) (v : yaml)
  : pystr :=
  match v with
  | YNull => py "None"
  | YBool true => py "True"
  | YBool false => py "False"
  | YInt z => decimal z
  | YStr s => s
  | other => repr other
  end.

(** The text [resolve_period] reads as the reference date:
    [str(cfg_get(cfg, "run", "reference_date", default=""))]. *)
Definition run_reference_date (decimal : Z -> pystr) (repr : yaml -> pystr)
    (cfg : yaml) : pystr :=
  py_str decimal repr
    (cfg_get cfg ["run"; "reference_date"]%string (YStr [])).

(** The two capability intentions [main] reads:
    [cfg_bool(config, "email", "enabled", default=False)] and whether
    the pdf engine, trimmed and lower-cased, is [excel]. *)
Definition intended_email (cfg : yaml) : bool :=
  cfg_bool cfg ["email"; "enabled"]%string false.

Definition intended_pdf (sl : StrLib) (decimal : Z -> pystr)
    (repr : yaml -> pystr) (cfg : yaml) : bool :=
  pystr_eqb
    (str_lower sl
       (strip (py_str decimal repr
                 (cfg_get cfg ["pdf"; "engine"]%string (YStr (py "excel"))))))
    (py "excel").

End Config.

(* ===================================================================== *)
(** ** Preflight checks (src/preflight.py) *)
(* ===================================================================== *)

Module Preflight.

(** What the checks ask the interpreter: the name of the system, the
    version, and whether a module can be imported (an import that fails
    raises an [Exception]). *)
Record Platform := {
  system : pystr;                    (* platform.system() *)
  version_info : Z * Z * Z;          (* major, minor, micro *)
  importable : string -> bool        (* import_module returns *)
}.

Definition is_windows (sl : StrLib) (p : Platform) : bool :=
  pystr_eqb (str_lower sl (system p)) (py "windows").

(** [(a, b) < (c, d)] on pairs of integers. *)
Definition pair_ltb (x y : Z * Z) : bool :=
  (Z.ltb (fst x) (fst y) || (Z.eqb (fst x) (fst y) && Z.ltb (snd x) (snd y)))%bool.

Definition check_python (p : Platform) (min_major min_minor : Z) : Py unit :=
  let '(major, minor, micro) := version_info p in
  if pair_ltb (major, minor) (min_major, min_minor) then
    Raise (Exn SystemExit
      [Lit "Unsupported Python version.";
       Lit "Found: "; Int major; Lit "."; Int minor; Lit "."; Int micro;
       Lit "Required: "; Int min_major; Lit "."; Int min_minor; Lit "+"])
  else Return tt.

(** One line of the message for a module that is missing. *)
Definition missing_line (m : string * string) : list msg_part :=
  [Lit "  - "; Lit (fst m); Lit " (pip package: "; Lit (snd m); Lit ")"].

(** [check_required_modules]; each entry is (import name, pip name). *)
Definition check_required_modules (sl : StrLib) (p : Platform)
    (required : list (string * string)) : Py unit :=
  let missing := filter (fun m => negb (importable p (fst m))) required in
  match missing with
  | [] => Return tt
  | _ :: _ =>
      Raise (Exn SystemExit
        ([Lit "Missing Python dependencies."; Lit "";
          Lit "Install requirements and try again:"]
         ++ [if is_windows sl p
             then Lit "  py -m pip install -r requirements.txt"
             else Lit "  python3 -m pip install -r requirements.txt"]
         ++ [Lit ""; Lit "Missing modules:"]
         ++ flat_map missing_line missing))
  end.

Definition fallback_notice : list string :=
  ["Running on a non-Windows OS.";
   "PDF export and email sending are Windows-only and will be skipped.";
   "XLSX generation will still run."; ""]%string.

(** [resolve_capabilities]: the lines printed and the pair returned. *)
Definition resolve_capabilities (sl : StrLib) (p : Platform)
    (pdf_enabled email_enabled allow_dev_fallback : bool)
  : list string * (bool * bool) :=
  if is_windows sl p then ([], (pdf_enabled, email_enabled))
  else if negb allow_dev_fallback then ([], (pdf_enabled, email_enabled))
  else
    ((if (pdf_enabled || email_enabled)%bool then fallback_notice else []),
     (false, false)).

Definition check_windows_com_deps (sl : StrLib) (p : Platform)
    (pdf_enabled email_enabled : bool) : Py unit :=
  if negb (is_windows sl p) then Return tt
  else if negb (pdf_enabled || email_enabled)%bool then Return tt
  else if importable p "win32com.client" then Return tt
  else
    Raise (Exn SystemExit
      [Lit "Missing Windows COM dependency: pywin32"; Lit "";
       Lit "Install it and try again:"; Lit "  py -m pip install pywin32"]).

(** The capabilities [main] works with, from the intentions read in the
    configuration: [resolve_capabilities] with the fallback allowed,
    then [check_windows_com_deps] on what it returned. *)
Definition effective_capabilities (sl : StrLib) (p : Platform)
    (intended_pdf intended_email : bool) : Py (bool * bool) :=
  let '(_, (pdf_enabled, email_enabled)) :=
    resolve_capabilities sl p intended_pdf intended_email true in
  py_bind (check_windows_com_deps sl p pdf_enabled email_enabled)
    (fun _ => Return (pdf_enabled, email_enabled)).

End Preflight.

(* ===================================================================== *)
(** ** [write_employee_to_template] (src/data_io/template_writer.py) *)
(* ===================================================================== *)

Module TemplateWriter.

(** A worksheet as far as the writer is concerned: its cells, taken as
    the library keeps them. *)
Definition Cells := list (pystr * pystr).

(** A workbook: the defined names, each with its destinations (sheet
    title and cell reference), and the sheets by title. *)
Record Workbook := {
  defined_names : list (pystr * list (pystr * pystr));
  sheets : list (pystr * Cells)
}.

Fixpoint lookup {V} (entries : list (pystr * V)) (key : pystr) : option V :=
  match entries with
  | [] => None
  | (k, v) :: t => if pystr_eqb k key then Some v else lookup t key
  end.

(** The sheet under [title] replaced, the others as they are. *)
Fixpoint replace_sheet (sheets : list (pystr * Cells)) (title : pystr)
    (cells : Cells) : list (pystr * Cells) :=
  match sheets with
  | [] => []
  | (k, v) :: t =>
      if pystr_eqb k title then (k, cells) :: t
      else (k, v) :: replace_sheet t title cells
  end.

(** What the writer needs of openpyxl and the file system:
    [load_workbook], assignment to a cell of a sheet ([ws[ref] = v],
    which can raise, for instance on a reference that is a range), and
    whether [wb.save] to a path raises. *)
Record Library := {
  load_workbook : pystr -> Py Workbook;
  set_cell : Cells -> pystr -> pystr -> Py Cells;
  save_fails : pystr -> Workbook -> option exn
}.

(** What was handed to [wb.save]: the path and the workbook. *)
Definition Saved := list (pystr * Workbook).

(** [write_employee_to_template]: the saves attempted and the outcome. *)
Definition write_employee_to_template (lib : Library)
    (template_path output_path employee_ref employee_ref_named_range : pystr)
  : Saved * Py unit :=
  match load_workbook lib template_path with
  | Raise e => ([], Raise e)
  | Return wb =>
      match lookup (defined_names wb) employee_ref_named_range with
      | None =>
          ([], Raise (Exn ValueError
                 [Lit "Named range '"; Str employee_ref_named_range;
                  Lit "' not found in workbook"]))
      | Some [] =>
          ([], Raise (Exn ValueError
                 [Lit "Named range '"; Str employee_ref_named_range;
                  Lit "' has no destinations"]))
      | Some ((sheet_name, cell_ref) :: _) =>
          match lookup (sheets wb) sheet_name with
          | None =>
              ([], Raise (Exn KeyError
                     [Lit "Worksheet "; Str sheet_name; Lit " does not exist."]))
          | Some ws =>
              match set_cell lib ws cell_ref employee_ref with
              | Raise e => ([], Raise e)
              | Return ws' =>
                  let wb' :=
                    {| defined_names := defined_names wb;
                       sheets := replace_sheet (sheets wb) sheet_name ws' |} in
                  match save_fails lib output_path wb' with
                  | Some e => ([(output_path, wb')], Raise e)
                  | None => ([(output_path, wb')], Return tt)
                  end
              end
          end
      end
  end.

End TemplateWriter.

(* ===================================================================== *)
(** ** [ExcelPdfExporter.export], step by step
       (src/pdf/excel_pdf_exporter.py) *)
(* ===================================================================== *)

(** [PdfExporter.export] above takes the work on the workbook as one
    outside call. Here that work is followed step by step; the wait for
    the recalculation, [PdfExporter._force_recalc_and_wait], is one step
    of it. *)
Module ExportSteps.

Inductive Step :=
| Makedirs (out_dir : pystr)          (* os.makedirs(out_dir, exist_ok=True) *)
| WorkbooksOpen (workbook_path : pystr)
| ForceRecalcAndWait                  (* self._force_recalc_and_wait() *)
| WbSave
| LogSaveWarning (e : exn)            (* the warning after a failed save *)
| Worksheets (sheet_name : pystr)     (* wb.Worksheets(sheet_name) *)
| ExportAsFixedFormat (whole_workbook : bool) (filename : pystr)
    (quality : Z) (ignore_print_areas open_after_publish : bool)
| WbClose.                            (* wb.Close(SaveChanges=False) *)

Definition Event := (Step * option exn)%type.
Definition Trace := list Event.

(** The file system and Excel: how a step ends, and whether a path
    exists, both after what has happened so far. *)
Record Host := {
  abspath : pystr -> pystr;
  dirname : pystr -> pystr;
  path_exists : Trace -> pystr -> bool;
  outcome : Trace -> Step -> option exn
}.

Definition M (A : Type) := Trace -> Trace * Py A.

Definition ret {A} (a : A) : M A := fun t => (t, Return a).
Definition raise {A} (e : exn) : M A := fun t => (t, Raise e).
Definition bind {A B} (m : M A) (k : A -> M B) : M B :=
  fun t =>
    match m t with
    | (t1, Return a) => k a t1
    | (t1, Raise e) => (t1, Raise e)
    end.

Definition step (h : Host) (s : Step) : M unit :=
  fun t =>
    let r := outcome h t s in
    (t ++ [(s, r)],
     match r with Some e => Raise e | None => Return tt end).

Definition exists_ (h : Host) (p : pystr) : M bool :=
  fun t => (t, Return (path_exists h t p)).

(** [try: wb.Save() except Exception as e: logger.warning(...)] *)
Definition save_quietly (h : Host) : M unit :=
  fun t =>
    let r := outcome h t WbSave in
    let t1 := t ++ [(WbSave, r)] in
    match r with
    | None => (t1, Return tt)
    | Some e =>
        if is_Exception e then (t1 ++ [(LogSaveWarning e, None)], Return tt)
        else (t1, Raise e)
    end.

(** [try: body finally: try: wb.Close(SaveChanges=False) except
    Exception: pass], for a workbook that was opened. *)
Definition finally_close {A} (h : Host) (body : M A) : M A :=
  fun t =>
    let (t1, r) := body t in
    let c := outcome h t1 WbClose in
    (t1 ++ [(WbClose, c)],
     match c with
     | Some e => if is_Exception e then r else Raise e
     | None => r
     end).

Definition xlQualityStandard : Z := 0.
Definition xlQualityMinimum : Z := 1.

(** [quality_map.get(quality, xlQualityStandard)] *)
Definition quality_of (quality : pystr) : Z :=
  if pystr_eqb quality (py "standard") then xlQualityStandard
  else if pystr_eqb quality (py "minimum") then xlQualityMinimum
  else xlQualityStandard.

Declare Scope export_scope.
Delimit Scope export_scope with export.
Notation "x <- m ;; k" := (bind m (fun x => k))
  (at level 61, m at next level, right associativity) : export_scope.
Notation "m ;; k" := (bind m (fun _ => k))
  (at level 61, right associativity) : export_scope.
Local Open Scope export_scope.

(** [export]; [excel] tells whether [self.excel] is set. *)
Definition export (h : Host) (excel save_before_export : bool)
    (workbook_path output_pdf_path : pystr) (sheet_name : option pystr)
    (quality : pystr) (open_after_publish ignore_print_areas : bool)
  : M pystr :=
  if negb excel then
    raise (Exn RuntimeError
      [Lit "ExcelPdfExporter not initialized. Use within a 'with' block."])
  else
    let workbook_path := abspath h workbook_path in
    let output_pdf_path := abspath h output_pdf_path in
    found <- exists_ h workbook_path ;;
    if negb found then
      raise (Exn FileNotFoundError
        [Lit "Workbook not found: "; Str workbook_path])
    else
      let out_dir := dirname h output_pdf_path in
      (if is_empty out_dir then ret tt
       else
         there <- exists_ h out_dir ;;
         if negb there then step h (Makedirs out_dir) else ret tt) ;;
      step h (WorkbooksOpen workbook_path) ;;
      finally_close h
        (step h ForceRecalcAndWait ;;
         (if save_before_export then save_quietly h else ret tt) ;;
         match sheet_name with
         | Some ((_ :: _) as name) =>
             step h (Worksheets name) ;;
             step h (ExportAsFixedFormat false output_pdf_path
                       (quality_of quality) ignore_print_areas
                       open_after_publish)
         | _ =>
             step h (ExportAsFixedFormat true output_pdf_path
                       (quality_of quality) ignore_print_areas
                       open_after_publish)
         end ;;
         made <- exists_ h output_pdf_path ;;
         if negb made then
           raise (Exn RuntimeError
             [Lit "PDF export failed (no file created): ";
              Str output_pdf_path])
         else ret output_pdf_path).

(** The steps a computation adds to the trace it starts from. *)
Definition added {A} (m : M A) (t : Trace) : list Event :=
  skipn (List.length t) (fst (m t)).

End ExportSteps.

(* ===================================================================== *)
(** ** Facts about strings *)
(* ===================================================================== *)

Module PyBaseFacts.

Lemma pystr_eqb_eq a b : pystr_eqb a b = true <-> a = b.
Proof.
  revert b. induction a as [|x a IH]; intros [|y b]; simpl;
    try (split; congruence).
  rewrite andb_true_iff, N.eqb_eq, IH. split.
  - intros [-> ->]. reflexivity.
  - intros H. injection H. auto.
Qed.

Lemma pystr_eqb_refl a : pystr_eqb a a = true.
Proof. apply pystr_eqb_eq. reflexivity. Qed.

Lemma lstrip_Forall (P : pychar -> Prop) s : Forall P s -> Forall P (lstrip s).
Proof.
  induction 1 as [|c t Hc Ht IH]; simpl; [constructor|].
  destruct (isspace c); [exact IH | constructor; assumption].
Qed.

Lemma strip_Forall (P : pychar -> Prop) s : Forall P s -> Forall P (strip s).
Proof.
  intros H. unfold strip, rstrip.
  apply Forall_rev, lstrip_Forall, Forall_rev, lstrip_Forall, H.
Qed.

Lemma lstrip_no_space s :
  Forall (fun c => isspace c = false) s -> lstrip s = s.
Proof.
  destruct 1 as [|c t Hc Ht]; simpl; [reflexivity|].
  rewrite Hc. reflexivity.
Qed.

Lemma strip_no_space s :
  Forall (fun c => isspace c = false) s -> strip s = s.
Proof.
  intros H. unfold strip, rstrip.
  rewrite (lstrip_no_space H).
  rewrite lstrip_no_space by (apply Forall_rev, H).
  apply rev_involutive.
Qed.

(** Stripping is the identity exactly when neither end is whitespace;
    a string of whitespace only strips to the empty string. *)
Lemma lstrip_all_space s :
  Forall (fun c => isspace c = true) s -> lstrip s = [].
Proof.
  induction 1 as [|c t Hc Ht IH]; simpl; [reflexivity|].
  rewrite Hc. exact IH.
Qed.

Lemma strip_all_space s :
  Forall (fun c => isspace c = true) s -> strip s = [].
Proof.
  intros H. unfold strip, rstrip. rewrite (lstrip_all_space H). reflexivity.
Qed.

Lemma lstrip_nil_all_space s :
  lstrip s = [] -> Forall (fun c => isspace c = true) s.
Proof.
  induction s as [|c t IH]; simpl; [constructor|].
  destruct (isspace c) eqn:E; [|discriminate].
  intros H. constructor; auto.
Qed.

Lemma lstrip_suffix s : exists p, s = p ++ lstrip s /\ Forall (fun c => isspace c = true) p.
Proof.
  induction s as [|c t [p [IH1 IH2]]]; simpl.
  - exists []. split; [reflexivity | constructor].
  - destruct (isspace c) eqn:E.
    + exists (c :: p). split; [simpl; congruence | constructor; assumption].
    + exists []. split; [reflexivity | constructor].
Qed.

Lemma strip_nil_all_space s :
  strip s = [] -> Forall (fun c => isspace c = true) s.
Proof.
  unfold strip, rstrip. intros H.
  assert (Hr : lstrip (rev (lstrip s)) = []).
  { rewrite <- (rev_involutive (lstrip (rev (lstrip s)))), H. reflexivity. }
  apply lstrip_nil_all_space in Hr.
  apply Forall_rev in Hr. rewrite rev_involutive in Hr.
  destruct (lstrip_suffix s) as [p [Hp1 Hp2]].
  rewrite Hp1. apply Forall_app. split; assumption.
Qed.

Lemma slice_to_length s n :
  (0 <= n)%Z -> (Z.of_nat (List.length (slice_to s n)) <= n)%Z.
Proof.
  intros H. unfold slice_to.
  destruct (Z.leb_spec 0 n); [|lia].
  rewrite length_firstn. lia.
Qed.

Lemma firstn_Forall (P : pychar -> Prop) k s :
  Forall P s -> Forall P (firstn k s).
Proof.
  intros H. revert k. induction H as [|c t Hc Ht IH]; intros [|k]; simpl;
    try constructor; auto.
Qed.

Lemma slice_to_Forall (P : pychar -> Prop) s n :
  Forall P s -> Forall P (slice_to s n).
Proof.
  intros H. unfold slice_to.
  destruct (0 <=? n)%Z; apply firstn_Forall, H.
Qed.

End PyBaseFacts.

(* ===================================================================== *)
(** ** [safe_filename]: idempotence, character set, length *)
(* ===================================================================== *)

Module SafeFilenameSpec.
Import SafeFilename PyBaseFacts.
Local Open Scope N_scope.

Example safe_filename_ex1 :
  safe_filename (py "A1_John  Smith_2026-01") 80 = py "A1_John_Smith_2026-01".
Proof. reflexivity. Qed.

Example safe_filename_ex2 :
  safe_filename (py " a/b?c : d ") 80 = py "a_b_c___d".
Proof. vm_compute. reflexivity. Qed.

Example safe_filename_ex3 :
  safe_filename (py "abcdef") 3 = py "abc".
Proof. reflexivity. Qed.

(** A negative [max_len] makes the slice drop characters from the end. *)
Example safe_filename_negative_cap :
  safe_filename (py "abc") (-1) = py "ab".
Proof. reflexivity. Qed.

(** Characters outside the class and outside whitespace are kept as they
    are, the code point 0 included. *)
Example safe_filename_keeps_other_controls :
  safe_filename [0x61; 0x00; 0x01; 0x62] 80 = [0x61; 0x00; 0x01; 0x62].
Proof. reflexivity. Qed.

(** The code point 0 is in no file name on any file system, yet it is
    neither in the class the pattern replaces nor whitespace: a name
    that holds it comes back as it was. *)
Example safe_filename_lets_nul_through :
  safe_filename [0x61; 0x00; 0x62] 80 = [0x61; 0x00; 0x62]
  /\ In 0x00 (safe_filename [0x61; 0x00; 0x62] 80)
  /\ illegal_char 0x00 = false /\ isspace 0x00 = false.
Proof. repeat split; try reflexivity. right. left. reflexivity. Qed.

Section Runs.
Variable cls : pychar -> bool.
Variable repl : pystr.

Lemma re_sub_runs_cls_or_repl b s :
  Forall (fun c => cls c = false \/ In c repl) (re_sub_runs cls repl b s).
Proof.
  revert b. induction s as [|c t IH]; intros b; simpl; [constructor|].
  destruct (cls c) eqn:E.
  - destruct b; [apply IH|].
    apply Forall_app. split; [|apply IH].
    apply Forall_forall. intros x Hx. right. exact Hx.
  - constructor; [left; exact E | apply IH].
Qed.

Lemma re_sub_runs_Forall (P : pychar -> Prop) b s :
  Forall P repl -> Forall P s -> Forall P (re_sub_runs cls repl b s).
Proof.
  intros Hr Hs. revert b.
  induction Hs as [|c t Hc Ht IH]; intros b; simpl; [constructor|].
  destruct (cls c).
  - destruct b; [apply IH|]. apply Forall_app. split; [exact Hr | apply IH].
  - constructor; [exact Hc | apply IH].
Qed.

Lemma re_sub_runs_id b s :
  Forall (fun c => cls c = false) s -> re_sub_runs cls repl b s = s.
Proof.
  intros Hs. revert b.
  induction Hs as [|c t Hc Ht IH]; intros b; simpl; [reflexivity|].
  rewrite Hc, IH. reflexivity.
Qed.
End Runs.

(** The characters a sanitized name is made of. *)
Definition clean_char (c : pychar) : Prop :=
  illegal_char c = false /\ isspace c = false.

Lemma replace_space_clean s :
  Forall (fun c => illegal_char c = false) s ->
  Forall (fun c => isspace c = false \/ In c (py " ")) s ->
  Forall clean_char (replace_space s).
Proof.
  intros H1 H2. unfold replace_space. apply Forall_map.
  rewrite Forall_forall in *. intros c Hc.
  specialize (H1 c Hc). specialize (H2 c Hc).
  destruct (N.eqb_spec c 0x20) as [->|Hne].
  - split; reflexivity.
  - split; [exact H1|].
    destruct H2 as [H2|[H2|[]]]; [exact H2|].
    simpl in H2. congruence.
Qed.

Lemma replace_space_id s :
  Forall (fun c => isspace c = false) s -> replace_space s = s.
Proof.
  induction 1 as [|c t Hc Ht IH]; simpl; [reflexivity|].
  fold (replace_space t). rewrite IH.
  destruct (N.eqb_spec c 0x20) as [->|Hne]; [discriminate Hc | reflexivity].
Qed.

Lemma safe_filename_clean s max_len :
  Forall clean_char (safe_filename s max_len).
Proof.
  unfold safe_filename.
  set (s1 := re_sub illegal_char (py "_") s).
  set (s2 := strip (re_sub isspace (py " ") s1)).
  assert (H1 : Forall (fun c => illegal_char c = false) s1).
  { eapply Forall_impl; [|apply re_sub_runs_cls_or_repl].
    intros c [Hc|[<-|[]]]; [exact Hc | reflexivity]. }
  assert (H2 : Forall (fun c => illegal_char c = false) s2).
  { apply strip_Forall, re_sub_runs_Forall; [|exact H1].
    repeat constructor. }
  assert (H3 : Forall (fun c => isspace c = false \/ In c (py " ")) s2).
  { apply strip_Forall, re_sub_runs_cls_or_repl. }
  pose proof (replace_space_clean H2 H3) as H4.
  destruct (_ >? _)%Z; [apply slice_to_Forall|]; exact H4.
Qed.

Lemma safe_filename_length s max_len :
  (0 <= max_len)%Z ->
  (Z.of_nat (List.length (safe_filename s max_len)) <= max_len)%Z.
Proof.
  intros H. unfold safe_filename.
  match goal with |- context [(?a >? ?b)%Z] => destruct (Z.gtb_spec a b) end.
  - apply slice_to_length, H.
  - assumption.
Qed.

Lemma safe_filename_fixes_clean s max_len :
  Forall clean_char s ->
  (Z.of_nat (List.length s) <= max_len)%Z ->
  safe_filename s max_len = s.
Proof.
  intros Hc Hl.
  assert (Hi : Forall (fun c => illegal_char c = false) s).
  { eapply Forall_impl; [|exact Hc]. intros c [H _]; exact H. }
  assert (Hs : Forall (fun c => isspace c = false) s).
  { eapply Forall_impl; [|exact Hc]. intros c [_ H]; exact H. }
  unfold safe_filename, re_sub.
  rewrite (@re_sub_runs_id illegal_char (py "_") false s Hi).
  rewrite (@re_sub_runs_id isspace (py " ") false s Hs).
  rewrite (strip_no_space Hs), (replace_space_id Hs).
  destruct (Z.gtb_spec (Z.of_nat (List.length s)) max_len); [lia | reflexivity].
Qed.

(** C6 (amended). For a cap [max_len >= 0], [safe_filename] is
    idempotent, its output holds no character of the class it replaces
    (the two path separators, colon, asterisk, question mark, double
    quote, angle brackets, bar, line feed, carriage return and tab) and
    no whitespace, and its output is at most [max_len] characters long.
    Other control characters, the code point 0 among them, are not
    removed. *)
Theorem safe_filename_idempotent_clean_capped (s : pystr) (max_len : Z) :
  (0 <= max_len)%Z ->
  safe_filename (safe_filename s max_len) max_len = safe_filename s max_len
  /\ Forall (fun c => illegal_char c = false /\ isspace c = false)
            (safe_filename s max_len)
  /\ (Z.of_nat (List.length (safe_filename s max_len)) <= max_len)%Z.
Proof.
  intros H. split; [|split].
  - apply safe_filename_fixes_clean.
    + apply safe_filename_clean.
    + apply safe_filename_length, H.
  - apply safe_filename_clean.
  - apply safe_filename_length, H.
Qed.

Lemma safe_filename_idempotent_clean_capped_witness :
  (0 <= 80)%Z /\
  (safe_filename (safe_filename (py " A1_Ann / Lee ") 80) 80
     = safe_filename (py " A1_Ann / Lee ") 80
   /\ Forall (fun c => illegal_char c = false /\ isspace c = false)
             (safe_filename (py " A1_Ann / Lee ") 80)
   /\ (Z.of_nat (List.length (safe_filename (py " A1_Ann / Lee ") 80)) <= 80)%Z).
Proof.
  split; [lia|].
  apply (@safe_filename_idempotent_clean_capped (py " A1_Ann / Lee ") 80). lia.
Defined.

End SafeFilenameSpec.

(* ===================================================================== *)
(** ** Period resolution: the previous month *)
(* ===================================================================== *)

Module PeriodSpec.
Import Period.
Local Open Scope Z_scope.

(** A library double for the runs below: the format mini-language is
    replaced by a function that always returns the template, and the
    parser knows two texts. *)
Definition demo_strlib : StrLib :=
  {| str_lower := fun s => s;
     str_format := fun fmt _ => Return fmt |}.

Definition demo_datelib : DateLib :=
  {| today := mkdate 2026 11 3;
     strptime_ymd := fun s =>
       if pystr_eqb s (py "2026-01-25") then Some (mkdate 2026 1 25)
       else if pystr_eqb s (py "2026-03-10") then Some (mkdate 2026 3 10)
       else if pystr_eqb s (py "0001-01-15") then Some (mkdate 1 1 15)
       else None;
     strftime := fun _ fmt => fmt;
     calendar_month_name := fun _ => py "Month" |}.

Definition demo_cfg (ref : string) : PeriodConfig :=
  {| period_mode := Some (py "auto_previous_month");
     reference_date := Some (py ref);
     manual_year := None; manual_month := None;
     id_format := Some (py "{year}-{month:02d}");
     display_format := Some (py "{month_name} {year}");
     payslip_date_format := None |}.

(** A part of the format mini-language, for the runs below: a name
    between braces is replaced by the keyword argument of that name, an
    integer in decimal; the name may be followed by a colon and the
    specification [02d], which pads an integer with a zero to two
    characters. An unknown name raises [KeyError]; any other
    specification, and [02d] on a string, raise [ValueError]. *)
Fixpoint decimal_digits (fuel : nat) (n : N) (acc : pystr) : pystr :=
  match fuel with
  | O => acc
  | S fuel' =>
      let acc' := (0x30 + n mod 10)%N :: acc in
      if (n / 10 =? 0)%N then acc' else decimal_digits fuel' (n / 10)%N acc'
  end.

Definition decimal (z : Z) : pystr :=
  let n := Z.to_N (Z.abs z) in
  let digits := decimal_digits (S (N.to_nat (N.log2 n))) n [] in
  if z <? 0 then 0x2D%N :: digits else digits.

Definition zero_padded (z : Z) : pystr :=
  if (0 <=? z) && (z <? 10) then 0x30%N :: decimal z else decimal z.

Fixpoint keyword (kw : list (string * fval)) (name : pystr) : option fval :=
  match kw with
  | [] => None
  | (k, v) :: t => if pystr_eqb (py k) name then Some v else keyword t name
  end.

(** The name of a field and what follows its first colon, if any. *)
Fixpoint split_field (field : pystr) : pystr * option pystr :=
  match field with
  | [] => ([], None)
  | c :: t =>
      if (c =? 0x3A)%N then ([], Some t)
      else let (name, spec) := split_field t in (c :: name, spec)
  end.

Definition format_field (kw : list (string * fval)) (field : pystr)
  : Py pystr :=
  let (name, spec) := split_field field in
  match keyword kw name with
  | None => Raise (Exn KeyError [Str name])
  | Some v =>
      match v, spec with
      | FStr text, None => Return text
      | FInt z, None => Return (decimal z)
      | FInt z, Some sp =>
          if pystr_eqb sp (py "02d") then Return (zero_padded z)
          else Raise (Exn ValueError [Lit "Invalid format specifier"])
      | FStr _, Some _ =>
          Raise (Exn ValueError [Lit "Invalid format specifier"])
      end
  end.

(** [field] holds the field being read, once a brace has opened it. *)
Fixpoint format_from (kw : list (string * fval)) (s : pystr)
    (field : option pystr) (out : pystr) : Py pystr :=
  match s with
  | [] =>
      match field with
      | None => Return out
      | Some _ =>
          Raise (Exn ValueError [Lit "expected '}' before end of string"])
      end
  | c :: t =>
      match field with
      | None =>
          if (c =? 0x7B)%N then format_from kw t (Some []) out
          else format_from kw t None (out ++ [c])
      | Some f =>
          if (c =? 0x7D)%N then
            match format_field kw f with
            | Return text => format_from kw t None (out ++ text)
            | Raise e => Raise e
            end
          else format_from kw t (Some (f ++ [c])) out
      end
  end.

Definition format_strlib : StrLib :=
  {| str_lower := fun s => s;
     str_format := fun fmt kw => format_from kw fmt None [] |}.

Example format_period_id :
  str_format format_strlib (py "{year}-{month:02d}")
    [("year"%string, FInt 2025); ("month"%string, FInt 7)]
  = Return (py "2025-07")
  /\ str_format format_strlib (py "{year}-{day}")
       [("year"%string, FInt 2025); ("month"%string, FInt 7)]
     = Raise (Exn KeyError [Str (py "day")]).
Proof. split; reflexivity. Qed.

(** The keyword arguments [resolve_period] formats its two templates
    with, for a year and a month. *)
Definition main_kwargs (dl : DateLib) (y m : Z) : list (string * fval) :=
  [("year"%string, FInt y); ("month"%string, FInt m);
   ("month_name"%string, FStr (strftime dl (mkdate y m 1) (py "%B")))].

(** The two templates [resolve_period] uses, the configured ones or
    the defaults, format with the values of this year and month. *)
Definition main_templates_format (sl : StrLib) (dl : DateLib)
    (cfg : PeriodConfig) (y m : Z) : Prop :=
  is_Return (str_format sl
               (get_default (id_format cfg) (py "{year}-{month:02d}"))
               (main_kwargs dl y m)) = true
  /\ is_Return (str_format sl
                  (get_default (display_format cfg) (py "{month_name} {year}"))
                  (main_kwargs dl y m)) = true.


Example resolve_period_january :
  exists info,
    resolve_period demo_strlib demo_datelib (demo_cfg "2026-01-25") = Return info
    /\ year info = 2025 /\ month info = 12.
Proof. eexists. split; [reflexivity | split; reflexivity]. Qed.

Example resolve_period_march :
  exists info,
    resolve_period demo_strlib demo_datelib (demo_cfg "2026-03-10") = Return info
    /\ year info = 2026 /\ month info = 2.
Proof. eexists. split; [reflexivity | split; reflexivity]. Qed.

Lemma days_in_month_ge_28 y m : 28 <= days_in_month y m.
Proof.
  unfold days_in_month.
  destruct (m =? 2); [destruct (isleap y); lia|].
  destruct ((m =? 4) || (m =? 6) || (m =? 9) || (m =? 11))%bool; lia.
Qed.

Lemma make_date_ok y m d :
  MINYEAR <= y <= MAXYEAR -> 1 <= m <= 12 -> 1 <= d <= days_in_month y m ->
  make_date y m d = Return (mkdate y m d).
Proof.
  intros Hy Hm Hd. unfold make_date.
  replace ((MINYEAR <=? y) && (y <=? MAXYEAR))%bool with true
    by (symmetry; apply andb_true_iff; split; apply Z.leb_le; lia).
  replace ((1 <=? m) && (m <=? 12))%bool with true
    by (symmetry; apply andb_true_iff; split; apply Z.leb_le; lia).
  replace ((1 <=? d) && (d <=? days_in_month y m))%bool with true
    by (symmetry; apply andb_true_iff; split; apply Z.leb_le; lia).
  reflexivity.
Qed.



Lemma format_returns sl fmt kw :
  is_Return (str_format sl fmt kw) = true ->
  exists s, str_format sl fmt kw = Return s.
Proof.
  intros H. destruct (str_format sl fmt kw) as [s|e]; [eauto | discriminate].
Qed.






(** What the two resolvers make of that run with the formatter above. *)
Example previous_month_of_january_2026 :
  option_map period_id
    (match resolve_period format_strlib demo_datelib (demo_cfg "2026-01-25")
     with Return info => Some info | Raise _ => None end)
  = Some (py "2025-12")
  /\ option_map pp_period_id
       (match resolve_pay_period format_strlib demo_datelib
                (demo_cfg "2026-01-25")
        with Return pp => Some pp | Raise _ => None end)
     = Some (py "2025-12").
Proof. split; reflexivity. Qed.

End PeriodSpec.

(* ===================================================================== *)
(** ** [load_employees]: schema check and row filtering *)
(* ===================================================================== *)

Module LoadDataSpec.
Import LoadData PyBaseFacts.

Definition demo_columns : list pystr :=
  [py "Reference Number"; py "Employee Name"; py "Email"].

Definition demo_frame : DataFrame :=
  {| columns := demo_columns;
     rows := [ [Some (py "A1"); Some (py " Ann Lee "); Some (py "ann@example.org")];
               [Some (py "A2"); None; Some (py "bob@example.org")];
               [Some (py "A3"); Some (py "Cy"); Some (py "cy@example.org")] ] |}.

Example load_employees_demo :
  load_employees (Return demo_frame) (py "Reference Number")
    (py "Employee Name") (py "Email") demo_columns
  = Return
      [ [("ref"%string, py "A1"); ("name"%string, py "Ann Lee");
         ("email"%string, py "ann@example.org")];
        [("ref"%string, py "A3"); ("name"%string, py "Cy");
         ("email"%string, py "cy@example.org")] ].
Proof. reflexivity. Qed.

(** A column that is not required may hold the missing value, and then
    the record cannot be built. *)
Example load_employees_unrequired_null :
  load_employees (Return demo_frame) (py "Reference Number")
    (py "Employee Name") (py "Email") [py "Reference Number"]
  = Raise (Exn AttributeError [Lit "'float' object has no attribute 'strip'"]).
Proof. reflexivity. Qed.

Lemma has_column_In cols c : has_column cols c = true <-> In c cols.
Proof.
  unfold has_column. rewrite existsb_exists. split.
  - intros [x [Hx E]]. apply pystr_eqb_eq in E. subst. exact Hx.
  - intros H. exists c. split; [exact H | apply pystr_eqb_refl].
Qed.

Lemma has_column_false cols c : has_column cols c = false <-> ~ In c cols.
Proof.
  rewrite <- has_column_In. destruct (has_column cols c); split;
    congruence.
Qed.

Lemma index_of_In cols c : In c cols -> exists i, index_of c cols = Some i.
Proof.
  induction cols as [|x t IH]; simpl; [tauto|].
  intros H. destruct (pystr_eqb c x) eqn:E; [eauto|].
  destruct H as [->|H]; [rewrite pystr_eqb_refl in E; discriminate|].
  destruct (IH H) as [i ->]. simpl. eauto.
Qed.

(** The cell under a label, the missing value when there is none. *)
Definition cell_of (cols : list pystr) (row : list Cell) (col : pystr) : Cell :=
  match row_get cols row col with
  | Return c => c
  | Raise _ => None
  end.

(** The row has the missing value in at least one required column. *)
Definition has_null (cols required : list pystr) (row : list Cell) : bool :=
  existsb (fun col => negb (notna (cell_of cols row col))) required.

Lemma row_complete_has_null cols required row :
  row_complete cols required row = negb (has_null cols required row).
Proof.
  unfold row_complete, has_null, cell_of.
  induction required as [|c t IH]; simpl; [reflexivity|].
  rewrite IH, negb_orb, negb_involutive.
  destruct (row_get cols row c) as [[s|]|e]; reflexivity.
Qed.

Lemma row_complete_cell cols required row col :
  row_complete cols required row = true -> In col required ->
  exists s, row_get cols row col = Return (Some s).
Proof.
  unfold row_complete. rewrite forallb_forall. intros H Hin.
  specialize (H col Hin).
  destruct (row_get cols row col) as [[s|]|e]; try discriminate. eauto.
Qed.

(** The record the loop body builds from a row whose three cells hold
    text. *)
Definition record_of (cols : list pystr) (reference_col name_col email_col : pystr)
    (row : list Cell) : Employee :=
  let text col := match cell_of cols row col with Some s => s | None => [] end in
  [("ref"%string, strip (text reference_col));
   ("name"%string, strip (text name_col));
   ("email"%string, strip (text email_col))].

Lemma employee_of_row_complete cols required ref name email row :
  row_complete cols required row = true ->
  In ref required -> In name required -> In email required ->
  employee_of_row cols ref name email row
  = Return (record_of cols ref name email row).
Proof.
  intros Hc Hr Hn He.
  destruct (row_complete_cell cols required row ref Hc Hr) as [s1 E1].
  destruct (row_complete_cell cols required row name Hc Hn) as [s2 E2].
  destruct (row_complete_cell cols required row email Hc He) as [s3 E3].
  unfold employee_of_row, record_of, cell_of. rewrite E1, E2, E3. reflexivity.
Qed.

Lemma build_employees_complete cols required ref name email rows acc :
  Forall (fun row => row_complete cols required row = true) rows ->
  In ref required -> In name required -> In email required ->
  build_employees cols ref name email rows acc
  = Return (acc ++ map (record_of cols ref name email) rows).
Proof.
  intros Hrows Hr Hn He. revert acc.
  induction Hrows as [|row rest Hrow Hrest IH]; intros acc; simpl.
  - rewrite app_nil_r. reflexivity.
  - rewrite (employee_of_row_complete _ _ _ _ _ _ Hrow Hr Hn He). simpl.
    rewrite IH, <- app_assoc. reflexivity.
Qed.

Lemma filter_split_length {A} (f : A -> bool) (l : list A) :
  List.length (filter f l)
  = List.length l - List.length (filter (fun x => negb (f x)) l).
Proof. pose proof (filter_length f l). lia. Qed.

Lemma no_missing_columns cols required :
  (forall c, In c required -> In c cols) ->
  filter (fun col => negb (has_column cols col)) required = [].
Proof.
  intros H. induction required as [|c t IH]; simpl; [reflexivity|].
  rewrite (proj2 (has_column_In cols c)) by (apply H; left; reflexivity).
  simpl. apply IH. intros x Hx. apply H. right. exact Hx.
Qed.

(** A sheet whose reference cell holds one space: no cell is missing or
    empty, the row is kept, and the record built from it has the empty
    string as its reference. *)
Lemma load_employees_blank_ref_survives :
  let row := [Some (py " "); Some (py "Ann"); Some (py "ann@example.org")] in
  let df := {| columns := demo_columns; rows := [row] |} in
  Forall (fun c => exists s, c = Some s /\ s <> []) row
  /\ has_null demo_columns demo_columns row = false
  /\ exists employees,
       load_employees (Return df) (py "Reference Number") (py "Employee Name")
         (py "Email") demo_columns = Return employees
       /\ List.length employees = 1
       /\ ~ Forall (fun e => exists r, dict_get e "ref" = Some r /\ r <> [])
                   employees.
Proof.
  simpl. split; [|split; [reflexivity|]].
  - repeat constructor; eexists; (split; [reflexivity | discriminate]).
  - eexists. split; [reflexivity|]. split; [reflexivity|].
    intros H. inversion H as [|e l [r [E Hr]] _]; subst.
    vm_compute in E. inversion E; subst. apply Hr. reflexivity.
Qed.

(** C3 (amended). When every required column exists and the reference,
    name and email columns are among the required ones (the default),
    a frame with N rows of which K have the missing value in at least
    one required column loads as exactly N-K records, in row order, one
    per remaining row; each record's [ref] is the trimmed text of the
    reference cell, and it is empty exactly when that cell holds nothing
    but whitespace. *)
Theorem load_employees_keeps_complete_rows
    (df : DataFrame) (reference_col name_col email_col : pystr)
    (required : list pystr) :
  (forall c, In c required -> In c (columns df)) ->
  In reference_col required -> In name_col required -> In email_col required ->
  let kept :=
    filter (fun row => negb (has_null (columns df) required row)) (rows df) in
  exists employees,
    load_employees (Return df) reference_col name_col email_col required
      = Return employees
    /\ employees
        = map (record_of (columns df) reference_col name_col email_col) kept
    /\ List.length employees
        = List.length (rows df)
          - List.length (filter (has_null (columns df) required) (rows df))
    /\ Forall (fun row =>
                 exists s,
                   cell_of (columns df) row reference_col = Some s
                   /\ dict_get (record_of (columns df) reference_col name_col
                                  email_col row) "ref" = Some (strip s)
                   /\ (strip s = [] <-> Forall (fun c => isspace c = true) s))
              kept.
Proof.
  intros Hcols Hr Hn He kept.
  assert (Ekept : filter (row_complete (columns df) required) (rows df) = kept).
  { apply filter_ext. intros row. apply row_complete_has_null. }
  assert (Hkept : Forall (fun row => row_complete (columns df) required row = true)
                         kept).
  { rewrite <- Ekept. apply Forall_forall. intros row Hin.
    apply filter_In in Hin. tauto. }
  eexists. split; [|split; [reflexivity|split]].
  - unfold load_employees. simpl py_bind.
    rewrite (no_missing_columns _ _ Hcols).
    unfold dropna. rewrite (no_missing_columns _ _ Hcols).
    simpl py_bind. simpl columns. simpl rows. rewrite Ekept.
    rewrite build_employees_complete with (required := required);
      try assumption.
    reflexivity.
  - rewrite length_map. unfold kept.
    rewrite (filter_split_length
               (fun row => negb (has_null (columns df) required row)) (rows df)).
    f_equal. f_equal. apply filter_ext. intros row. apply negb_involutive.
  - eapply Forall_impl; [|exact Hkept].
    intros row Hrow.
    destruct (row_complete_cell (columns df) required row reference_col Hrow Hr)
      as [s E].
    exists s. unfold record_of, cell_of. rewrite E. simpl.
    split; [reflexivity|]. split; [reflexivity|].
    split; [apply strip_nil_all_space | apply strip_all_space].
Qed.

Lemma load_employees_keeps_complete_rows_witness :
  exists employees,
    load_employees (Return demo_frame) (py "Reference Number")
      (py "Employee Name") (py "Email") demo_columns = Return employees
    /\ List.length employees = 3 - 1.
Proof.
  destruct (@load_employees_keeps_complete_rows demo_frame
              (py "Reference Number") (py "Employee Name") (py "Email")
              demo_columns)
    as [employees [E [_ [L _]]]].
  - intros c H. exact H.
  - simpl. auto.
  - simpl. auto.
  - simpl. auto.
  - exists employees. split; [exact E | exact L].
Defined.

(** C9. When at least one required column is absent from the frame,
    [load_employees] returns no records: it raises one [ValueError]
    whose message carries the list of all the required columns that are
    absent, in the order in which they are required. *)
Theorem load_employees_reports_all_missing
    (df : DataFrame) (reference_col name_col email_col : pystr)
    (required : list pystr) :
  (exists c, In c required /\ ~ In c (columns df)) ->
  exists missing,
    load_employees (Return df) reference_col name_col email_col required
      = Raise (Exn ValueError
                 [Lit "Missing required columns in Data Source: ";
                  StrList missing])
    /\ missing = filter (fun c => negb (has_column (columns df) c)) required
    /\ forall c, In c missing <-> (In c required /\ ~ In c (columns df)).
Proof.
  intros [c0 [Hin Hnot]].
  exists (filter (fun c => negb (has_column (columns df) c)) required).
  assert (Hiff : forall c,
            In c (filter (fun c => negb (has_column (columns df) c)) required)
            <-> (In c required /\ ~ In c (columns df))).
  { intros c. rewrite filter_In, negb_true_iff, has_column_false. tauto. }
  split; [|split; [reflexivity | exact Hiff]].
  unfold load_employees. simpl py_bind.
  destruct (filter (fun c => negb (has_column (columns df) c)) required)
    as [|m ms] eqn:E.
  - exfalso. apply (proj2 (Hiff c0)). split; assumption.
  - reflexivity.
Qed.

Lemma load_employees_reports_all_missing_witness :
  exists missing,
    load_employees
      (Return {| columns := [py "Employee Name"]; rows := [[Some (py "Ann")]] |})
      (py "Reference Number") (py "Employee Name") (py "Email") demo_columns
      = Raise (Exn ValueError
                 [Lit "Missing required columns in Data Source: ";
                  StrList missing])
    /\ missing = [py "Reference Number"; py "Email"].
Proof.
  destruct (@load_employees_reports_all_missing
              {| columns := [py "Employee Name"]; rows := [[Some (py "Ann")]] |}
              (py "Reference Number") (py "Employee Name") (py "Email")
              demo_columns)
    as [missing [E [M _]]].
  - exists (py "Email"). split.
    + simpl. auto.
    + simpl. intros [H|[]]. discriminate H.
  - exists missing. split; [exact E | exact M].
Defined.

End LoadDataSpec.

(* ===================================================================== *)
(** ** Equations of the effect monad *)
(* ===================================================================== *)

Module EffectsFacts.
Import Effects.

Lemma bind_ret {A B} (a : A) (k : A -> M B) st : bind (ret a) k st = k a st.
Proof. reflexivity. Qed.

Lemma bind_raise {A B} (e : exn) (k : A -> M B) st :
  bind (raise e) k st = (st, Raise e).
Proof. reflexivity. Qed.

Lemma bind_get {B} (k : St -> M B) st : bind get k st = k st st.
Proof. reflexivity. Qed.

Lemma bind_call {B} w c (k : unit -> M B) st :
  bind (call w c) k st
  = match outcome w (trace st) c with
    | None => k tt (record c None st)
    | Some e => (record c (Some e) st, Raise e)
    end.
Proof. unfold bind, call. destruct (outcome w (trace st) c); reflexivity. Qed.

Lemma bind_mark {B} c (k : unit -> M B) st :
  bind (mark c) k st = k tt (record c None st).
Proof. reflexivity. Qed.

Lemma bind_bind {A B C} (m : M A) (k : A -> M B) (h : B -> M C) st :
  bind (bind m k) h st = bind m (fun a => bind (k a) h) st.
Proof. unfold bind. destruct (m st) as [st' [a|e]]; reflexivity. Qed.

Lemma trace_record c r st : trace (record c r st) = trace st ++ [(c, r)].
Proof. reflexivity. Qed.

Lemma outlook_record c r st : outlook (record c r st) = outlook st.
Proof. reflexivity. Qed.

Lemma excel_record c r st : excel (record c r st) = excel st.
Proof. reflexivity. Qed.

End EffectsFacts.

(* ===================================================================== *)
(** ** [send_email]: what is checked before Outlook is touched *)
(* ===================================================================== *)

Module OutlookSenderSpec.
Import Effects EffectsFacts OutlookSender.

(** A world in which every call returns and no file exists. *)
Definition quiet_world (files : pystr -> bool) : World :=
  {| win32com_available := true;
     outcome := fun _ _ => None;
     path_exists := fun _ p => files p;
     calculation_state := fun _ => 0%Z;
     time_ms := fun tr => (200 * Z.of_nat (List.length tr))%Z;
     abspath := fun p => p;
     path_join := fun d f => d ++ py "/" ++ f;
     strlib := {| str_lower := fun s => s; str_format := fun fmt _ => Return fmt |} |}.

Definition in_session : St := {| trace := []; excel := false; outlook := true |}.

Definition send_sender : OutlookEmailSender := {| send_mode := py "send" |}.

Example send_email_sends :
  send_email (quiet_world (fun _ => true)) send_sender
    (py "ann@example.org") (py "Payslip") (py "Dear Ann") (Some (py "A1.pdf")) None
    in_session
  = ({| trace := [(OlCreateItem 0, None); (OlSetTo (py "ann@example.org"), None);
                  (OlSetSubject (py "Payslip"), None);
                  (OlSetBody (py "Dear Ann"), None);
                  (OlAttachmentsAdd (py "A1.pdf"), None); (OlSend, None)];
        excel := false; outlook := true |}, Return tt).
Proof. reflexivity. Qed.

(** The calls that hand the message over: adding the attachment, sending,
    displaying. *)
Definition hands_over (c : Call) : bool :=
  match c with
  | OlAttachmentsAdd _ | OlDisplay | OlSend => true
  | _ => false
  end.

(** The calls [send_email] makes before it looks at the attachment. *)
Definition composing_calls (to_address subject body : pystr)
    (sender_mailbox : option pystr) : list Call :=
  [OlCreateItem 0; OlSetTo to_address; OlSetSubject subject; OlSetBody body]
  ++ match sender_mailbox with
     | Some ((_ :: _) as mailbox) => [OlSetSentOnBehalfOfName mailbox]
     | _ => []
     end.

(** With a missing attachment the mail item has been created and filled
    in by the time the path is checked. *)
Lemma send_email_missing_attachment_after_calls :
  send_email (quiet_world (fun _ => false)) send_sender
    (py "ann@example.org") (py "Payslip") (py "Dear Ann") (Some (py "A1.pdf")) None
    in_session
  = ({| trace := [(OlCreateItem 0, None); (OlSetTo (py "ann@example.org"), None);
                  (OlSetSubject (py "Payslip"), None);
                  (OlSetBody (py "Dear Ann"), None)];
        excel := false; outlook := true |},
     Raise (Exn FileNotFoundError [Lit "Attachment not found: "; Str (py "A1.pdf")])).
Proof. reflexivity. Qed.

Lemma validation_raises w self to_address subject body attachment mailbox st :
  (is_empty to_address || is_empty subject || is_empty body)%bool = true ->
  exists msg,
    send_email w self to_address subject body attachment mailbox st
    = (st, Raise (Exn ValueError [Lit msg])).
Proof.
  unfold send_email. intros H.
  destruct (is_empty to_address); [eexists; reflexivity|].
  destruct (is_empty subject); [eexists; reflexivity|].
  destruct (is_empty body); [eexists; reflexivity | discriminate H].
Qed.

(** One step of the proof below: the next call either raises, which
    ends the run of [send_email], or returns. *)
Ltac failed_call :=
  do 3 eexists; split; [reflexivity|];
  rewrite ?trace_record, <- ?app_assoc; simpl;
  split; [reflexivity|]; split; [repeat constructor|];
  let F := fresh "F" in
  intros F; repeat (apply Forall_cons_iff in F; destruct F as [? F]);
  simpl in *; discriminate.

Ltac next_call w :=
  rewrite bind_call;
  match goal with
  | |- context [outcome w ?tr ?c] =>
      let E := fresh "E" in
      destruct (outcome w tr c) eqn:E; [failed_call|]
  end.

Ltac attachment_missing Hex :=
  rewrite bind_bind, bind_get, Hex; simpl negb; cbv iota;
  rewrite bind_raise;
  do 3 eexists; split; [reflexivity|];
  rewrite ?trace_record, <- ?app_assoc; simpl;
  split; [reflexivity|]; split; [repeat constructor|];
  intros _; split; reflexivity.

Lemma missing_attachment_raises w self to_address subject body p mailbox st :
  (is_empty to_address || is_empty subject || is_empty body)%bool = false ->
  outlook st = true ->
  p <> [] ->
  (forall tr, path_exists w tr (abspath w p) = false) ->
  exists st' e added,
    send_email w self to_address subject body (Some p) mailbox st
      = (st', Raise e)
    /\ trace st' = trace st ++ added
    /\ Forall (fun ev => hands_over (fst ev) = false) added
    /\ (Forall (fun ev => snd ev = None) added ->
        e = Exn FileNotFoundError
              [Lit "Attachment not found: "; Str (abspath w p)]
        /\ map fst added = composing_calls to_address subject body mailbox).
Proof.
  intros Hv Ho Hp Hex.
  destruct to_address as [|t0 to_]; [discriminate Hv|].
  destruct subject as [|s0 subj]; [discriminate Hv|].
  destruct body as [|b0 bod]; [discriminate Hv|].
  destruct p as [|p0 p']; [congruence|].
  unfold send_email, composing_calls, is_empty.
  rewrite bind_get, Ho. simpl negb. cbv iota. rewrite bind_ret.
  next_call w. next_call w. next_call w. next_call w.
  destruct mailbox as [[|m0 m']|].
  - rewrite bind_ret. attachment_missing Hex.
  - next_call w. attachment_missing Hex.
  - rewrite bind_ret. attachment_missing Hex.
Qed.

(** C4 (amended). [send_email] with an empty recipient, subject or
    body raises [ValueError] and leaves the trace as it was: no call has
    reached Outlook. With the three fields filled in and an attachment
    path that does not exist, it raises too, but only after the mail item
    has been created and filled in: the attachment is never added and
    the message is neither sent nor displayed, and when none of the
    composing calls failed the exception is [FileNotFoundError] and the
    calls made are exactly the composing ones. *)
Theorem send_email_checks
    (w : World) (self : OutlookEmailSender) (to_address subject body : pystr)
    (attachment_path sender_mailbox : option pystr) (st : St) :
  ((is_empty to_address || is_empty subject || is_empty body)%bool = true ->
   exists msg,
     send_email w self to_address subject body attachment_path sender_mailbox st
     = (st, Raise (Exn ValueError [Lit msg])))
  /\
  ((is_empty to_address || is_empty subject || is_empty body)%bool = false ->
   outlook st = true ->
   forall p, attachment_path = Some p -> p <> [] ->
   (forall tr, path_exists w tr (abspath w p) = false) ->
   exists st' e added,
     send_email w self to_address subject body attachment_path sender_mailbox st
       = (st', Raise e)
     /\ trace st' = trace st ++ added
     /\ Forall (fun ev => hands_over (fst ev) = false) added
     /\ (Forall (fun ev => snd ev = None) added ->
         e = Exn FileNotFoundError
               [Lit "Attachment not found: "; Str (abspath w p)]
         /\ map fst added
            = composing_calls to_address subject body sender_mailbox)).
Proof.
  split.
  - apply validation_raises.
  - intros Hv Ho p -> Hp Hex. apply missing_attachment_raises; assumption.
Qed.

Lemma send_email_checks_witness :
  (exists msg,
     send_email (quiet_world (fun _ => false)) send_sender
       (py "ann@example.org") [] (py "Dear Ann") (Some (py "A1.pdf")) None in_session
     = (in_session, Raise (Exn ValueError [Lit msg])))
  /\
  (exists st' e added,
     send_email (quiet_world (fun _ => false)) send_sender
       (py "ann@example.org") (py "Payslip") (py "Dear Ann") (Some (py "A1.pdf"))
       None in_session
       = (st', Raise e)
     /\ trace st' = trace in_session ++ added
     /\ Forall (fun ev => hands_over (fst ev) = false) added).
Proof.
  split.
  - apply (proj1 (@send_email_checks (quiet_world (fun _ => false)) send_sender
                    (py "ann@example.org") [] (py "Dear Ann")
                    (Some (py "A1.pdf")) None in_session)).
    reflexivity.
  - destruct (proj2 (@send_email_checks (quiet_world (fun _ => false)) send_sender
                    (py "ann@example.org") (py "Payslip") (py "Dear Ann")
                    (Some (py "A1.pdf")) None in_session)
                eq_refl eq_refl (py "A1.pdf") eq_refl)
      as [st' [e [added [E [T [F _]]]]]].
    + discriminate.
    + intros tr. reflexivity.
    + exists st', e, added. repeat split; assumption.
Defined.

End OutlookSenderSpec.

(* ===================================================================== *)
(** ** [_force_recalc_and_wait]: the wait is bounded *)
(* ===================================================================== *)

Module PdfExporterSpec.
Import Effects EffectsFacts PdfExporter.
Local Open Scope Z_scope.

(** A clock that moves on by at least the 0.2 s slept. *)
Definition sleep_advances_clock (w : World) : Prop :=
  forall tr, time_ms w tr + 200 <= time_ms w (tr ++ [(Sleep 200, None)]).

(** The number of iterations after which the loop is over: five polls
    per second of timeout, and two. *)
Definition poll_bound (timeout_seconds : Z) : nat :=
  Z.to_nat (5 * timeout_seconds) + 2.

Definition timeout_error (timeout_seconds : Z) : exn :=
  Exn TimeoutError
    [Lit "Excel calculation did not complete within "; Int timeout_seconds;
     Lit "s"].

Definition recalc_call (self : ExcelPdfExporter) : Call :=
  if force_full_recalc self then XlCalculateFullRebuild else XlCalculate.

(** A world whose calculation never finishes and whose clock follows
    the sleeps. *)
Definition stuck_world : World :=
  {| win32com_available := true;
     outcome := fun _ _ => None;
     path_exists := fun _ _ => true;
     calculation_state := fun _ => 1;
     time_ms := fun tr => 200 * Z.of_nat (List.length tr);
     abspath := fun p => p;
     path_join := fun d f => (d ++ f)%list;
     strlib := {| str_lower := fun s => s; str_format := fun fmt _ => Return fmt |} |}.

(** A world whose calculation is done at the third poll. *)
Definition settling_world : World :=
  {| win32com_available := true;
     outcome := fun _ _ => None;
     path_exists := fun _ _ => true;
     calculation_state := fun tr => if (3 <=? Z.of_nat (List.length tr)) then 0 else 1;
     time_ms := fun tr => 200 * Z.of_nat (List.length tr);
     abspath := fun p => p;
     path_join := fun d f => (d ++ f)%list;
     strlib := {| str_lower := fun s => s; str_format := fun fmt _ => Return fmt |} |}.

Definition quick : ExcelPdfExporter :=
  {| visible := false; timeout_seconds := 1; force_full_recalc := true;
     save_before_export := true; use_fresh_instance := true |}.

Definition session_open : St := {| trace := []; excel := true; outlook := false |}.

Example wait_settles :
  _force_recalc_and_wait settling_world quick 10 session_open
  = Some ({| trace := [(XlCalculateFullRebuild, None); (Sleep 200, None);
                       (Sleep 200, None)];
             excel := true; outlook := false |}, Return tt).
Proof. reflexivity. Qed.

Example wait_times_out :
  _force_recalc_and_wait stuck_world quick 10 session_open
  = Some ({| trace := (XlCalculateFullRebuild, None) :: repeat (Sleep 200, None) 6;
             excel := true; outlook := false |}, Raise (timeout_error 1)).
Proof. reflexivity. Qed.

Example wait_out_of_fuel :
  _force_recalc_and_wait stuck_world quick 6 session_open = None.
Proof. reflexivity. Qed.

(** What the loop has done when it stops. *)
Definition wait_outcome (w : World) (timeout_seconds start : Z) (st st' : St)
    (r : Py unit) (fuel : nat) : Prop :=
  (exists k, (k < fuel)%nat
     /\ trace st' = (trace st ++ repeat (Sleep 200, None) k)%list)
  /\ excel st' = excel st /\ outlook st' = outlook st
  /\ match r with
     | Return _ => calculation_state w (trace st') = 0
     | Raise e =>
         e = timeout_error timeout_seconds
         /\ calculation_state w (trace st') <> 0
         /\ time_ms w (trace st') - start > 1000 * timeout_seconds
     end.

Lemma wait_loop_stops w timeout_seconds start fuel st :
  sleep_advances_clock w ->
  1000 * timeout_seconds - (time_ms w (trace st) - start)
    < 200 * Z.of_nat fuel ->
  exists st' r,
    wait_loop w timeout_seconds start (S fuel) st = Some (st', r)
    /\ wait_outcome w timeout_seconds start st st' r (S fuel).
Proof.
  intros Hclock. revert st.
  induction fuel as [|fuel IH]; intros st Hfuel;
    cbn [wait_loop];
    (destruct (Z.eqb_spec (calculation_state w (trace st)) 0) as [Hdone|Hbusy];
     [ exists st, (Return tt); split; [reflexivity|];
       split; [exists 0%nat; simpl; rewrite app_nil_r; split; [lia|reflexivity]|];
       split; [reflexivity|]; split; [reflexivity|]; exact Hdone |]);
    (destruct (Z.gtb_spec (time_ms w (trace st) - start) (1000 * timeout_seconds))
       as [Hlate|Hearly];
     [ exists st, (Raise (timeout_error timeout_seconds));
       split; [reflexivity|];
       split; [exists 0%nat; simpl; rewrite app_nil_r; split; [lia|reflexivity]|];
       split; [reflexivity|]; split; [reflexivity|];
       split; [reflexivity|]; split; [exact Hbusy | lia] |]).
  - lia.
  - pose proof (Hclock (trace st)) as Hstep.
    destruct (IH (record (Sleep 200) None st)) as [st' [r [E O]]].
    { rewrite trace_record. lia. }
    exists st', r. split; [exact E|].
    destruct O as [[k [Hk Htr]] [Hx [Ho Hr]]].
    split; [|split; [exact Hx | split; [exact Ho | exact Hr]]].
    exists (S k). split; [lia|].
    rewrite Htr, trace_record, <- app_assoc. reflexivity.
Qed.

Lemma wait_loop_more_fuel w timeout_seconds start fuel fuel' st res :
  wait_loop w timeout_seconds start fuel st = Some res ->
  (fuel <= fuel')%nat ->
  wait_loop w timeout_seconds start fuel' st = Some res.
Proof.
  revert fuel' st. induction fuel as [|fuel IH]; intros fuel' st E Hle;
    [discriminate E|].
  destruct fuel' as [|fuel']; [lia|].
  cbn [wait_loop] in *.
  destruct (calculation_state w (trace st) =? 0); [exact E|].
  destruct (time_ms w (trace st) - start >? 1000 * timeout_seconds);
    [exact E|].
  apply IH; [exact E | lia].
Qed.

(** C8. With a clock that moves on by at least the time slept, the wait
    of [_force_recalc_and_wait] is over within [poll_bound] polls, for
    every behaviour of Excel: it has asked for the recalculation and
    slept 0.2 s between polls; it returns only when the calculation
    state read is 0 (done), and otherwise it raises, either because the
    recalculation call itself failed or with [TimeoutError] once more
    than the configured number of seconds has passed on the clock. If
    the state never becomes done, the outcome is that [TimeoutError]. *)
Theorem force_recalc_and_wait_bounded
    (w : World) (self : ExcelPdfExporter) (st : St) (fuel : nat) :
  sleep_advances_clock w ->
  (poll_bound (timeout_seconds self) <= fuel)%nat ->
  exists st' r,
    _force_recalc_and_wait w self fuel st = Some (st', r)
    /\ (exists k, (k < poll_bound (timeout_seconds self))%nat
         /\ trace st'
            = (trace st
               ++ [(recalc_call self, outcome w (trace st) (recalc_call self))]
               ++ repeat (Sleep 200, None) k)%list)
    /\ match r with
       | Return _ => calculation_state w (trace st') = 0
       | Raise e =>
           outcome w (trace st) (recalc_call self) = Some e
           \/ (e = timeout_error (timeout_seconds self)
               /\ calculation_state w (trace st') <> 0
               /\ time_ms w (trace st')
                  - time_ms w (trace st ++ [(recalc_call self, None)])
                  > 1000 * timeout_seconds self)
       end
    /\ (outcome w (trace st) (recalc_call self) = None ->
        (forall tr, calculation_state w tr <> 0) ->
        r = Raise (timeout_error (timeout_seconds self))).
Proof.
  intros Hclock Hfuel.
  unfold _force_recalc_and_wait.
  fold (recalc_call self).
  assert (Ecall : (if force_full_recalc self
                   then call w XlCalculateFullRebuild
                   else call w XlCalculate) = call w (recalc_call self)).
  { unfold recalc_call. destruct (force_full_recalc self); reflexivity. }
  rewrite Ecall. unfold call.
  destruct (outcome w (trace st) (recalc_call self)) as [e|] eqn:Eo.
  - exists (record (recalc_call self) (Some e) st), (Raise e).
    split; [reflexivity|]. split; [|split].
    + exists 0%nat. split; [unfold poll_bound; lia|].
      simpl. reflexivity.
    + left. reflexivity.
    + discriminate.
  - set (st1 := record (recalc_call self) None st).
    destruct (@wait_loop_stops w (timeout_seconds self) (time_ms w (trace st1))
                (Z.to_nat (5 * timeout_seconds self) + 1) st1 Hclock)
      as [st' [r [E O]]].
    { lia. }
    exists st', r.
    replace (S (Z.to_nat (5 * timeout_seconds self) + 1))
      with (poll_bound (timeout_seconds self)) in *
      by (unfold poll_bound; lia).
    split; [eapply wait_loop_more_fuel; [exact E | exact Hfuel]|].
    destruct O as [[k [Hk Htr]] [_ [_ Hr]]].
    split; [|split].
    + exists k. split; [exact Hk|].
      rewrite Htr. unfold st1. rewrite trace_record, <- app_assoc. reflexivity.
    + destruct r as [u|e]; [exact Hr|]. right. exact Hr.
    + intros _ Hnever. destruct r as [u|e].
      * exfalso. exact (Hnever _ Hr).
      * destruct Hr as [-> _]. reflexivity.
Qed.

Lemma force_recalc_and_wait_bounded_witness :
  exists st' r,
    _force_recalc_and_wait stuck_world quick (poll_bound 1) session_open
      = Some (st', r)
    /\ r = Raise (timeout_error 1).
Proof.
  assert (Hclock : sleep_advances_clock stuck_world).
  { intros tr. unfold stuck_world. cbn [time_ms].
    rewrite length_app. cbn [List.length]. lia. }
  destruct (@force_recalc_and_wait_bounded stuck_world quick session_open
              (poll_bound 1) Hclock (Nat.le_refl _))
    as [st' [r [E [_ [_ T]]]]].
  exists st', r. split; [exact E|].
  apply T; [reflexivity | intros tr; simpl; discriminate].
Defined.

End PdfExporterSpec.

(* ===================================================================== *)
(** ** What a run lets one observe *)
(* ===================================================================== *)

Module Observations.
Import Effects EffectsFacts.

(** The events of a trace that the properties of the orchestrator speak of:
    a workbook written, a fixed-layout file exported (both only when the
    call returned), a session entered (only when [__enter__] returned)
    and left, a call of [send_email], a skipped notification. *)
Inductive Obs :=
| ObsWorkbook (output_path employee_ref : pystr)
| ObsPdf (workbook_path output_pdf_path : pystr)
| ObsOpen (s : Session)
| ObsClose (s : Session)
| ObsSend (to_address : pystr) (attachment_path : option pystr)
| ObsSkip (employee_ref : pystr).

(** The reference in the warning that [main] logs when it skips the
    notification. *)
Definition skip_warning_ref (msg : list msg_part) : option pystr :=
  match msg with
  | [Lit a; Str ref; Lit b] =>
      if (String.eqb a "No email for ref=" && String.eqb b "; skipping email.")%bool
      then Some ref else None
  | _ => None
  end.

Definition observe_event (ev : Event) : list Obs :=
  match ev with
  | (WriteEmployeeToTemplate _ out ref _, None) => [ObsWorkbook out ref]
  | (XlExport wb pdf _ _ _ _, None) => [ObsPdf wb pdf]
  | (Enter s, None) => [ObsOpen s]
  | (Exit s, _) => [ObsClose s]
  | (SendEmailCalled to_address _ _ attachment _, _) =>
      [ObsSend to_address attachment]
  | (LogWarning msg, _) =>
      match skip_warning_ref msg with
      | Some ref => [ObsSkip ref]
      | None => []
      end
  | _ => []
  end.

Definition observe (tr : Trace) : list Obs := flat_map observe_event tr.

(** Calls that leave nothing to observe, whatever their outcome. *)
Definition unobserved (c : Call) : Prop := forall r, observe_event (c, r) = [].

(** A computation that leaves nothing to observe. *)
Definition silent {A} (m : M A) : Prop :=
  forall st, observe (trace (fst (m st))) = observe (trace st).

(** A computation after which the new observations satisfy [P]. *)
Definition emits {A} (P : list Obs -> Prop) (m : M A) : Prop :=
  forall st, exists obs,
    observe (trace (fst (m st))) = observe (trace st) ++ obs /\ P obs.

Lemma observe_app a b : observe (a ++ b) = observe a ++ observe b.
Proof. unfold observe. apply flat_map_app. Qed.

Lemma observe_record c r st :
  observe (trace (record c r st)) = observe (trace st) ++ observe_event (c, r).
Proof.
  rewrite trace_record, observe_app. simpl. rewrite app_nil_r. reflexivity.
Qed.

Lemma silent_ret {A} (a : A) : silent (ret a).
Proof. intros st. reflexivity. Qed.

Lemma silent_raise {A} e : silent (@raise A e).
Proof. intros st. reflexivity. Qed.

Lemma silent_lift {A} (r : Py A) : silent (lift r).
Proof. intros st. reflexivity. Qed.

Lemma silent_get : silent get.
Proof. intros st. reflexivity. Qed.

Lemma silent_set_excel b : silent (set_excel b).
Proof. intros st. reflexivity. Qed.

Lemma silent_set_outlook b : silent (set_outlook b).
Proof. intros st. reflexivity. Qed.

Lemma silent_bind {A B} (m : M A) (k : A -> M B) :
  silent m -> (forall a, silent (k a)) -> silent (bind m k).
Proof.
  intros Hm Hk st. unfold bind. specialize (Hm st).
  destruct (m st) as [st1 [a|e]]; simpl in *.
  - rewrite (Hk a st1). exact Hm.
  - exact Hm.
Qed.

Lemma silent_finally {A} (body : M A) (cleanup : M unit) :
  silent body -> silent cleanup -> silent (finally_ body cleanup).
Proof.
  intros Hb Hc st. unfold finally_. specialize (Hb st).
  destruct (body st) as [st1 r]. specialize (Hc st1).
  destruct (cleanup st1) as [st2 [u|e]]; simpl in *; congruence.
Qed.

Lemma silent_call w c : unobserved c -> silent (call w c).
Proof.
  intros H st. unfold call. cbn [fst].
  rewrite observe_record, H, app_nil_r. reflexivity.
Qed.

Lemma silent_call_quietly w c : unobserved c -> silent (call_quietly w c).
Proof.
  intros H st. unfold call_quietly. cbn [fst].
  rewrite observe_record, H, app_nil_r. reflexivity.
Qed.

Lemma silent_mark c : unobserved c -> silent (mark c).
Proof.
  intros H st. unfold mark. cbn [fst].
  rewrite observe_record, H, app_nil_r. reflexivity.
Qed.

Lemma silent_if {A} (b : bool) (m1 m2 : M A) :
  silent m1 -> silent m2 -> silent (if b then m1 else m2).
Proof. destruct b; auto. Qed.

Lemma emits_silent {A} (P : list Obs -> Prop) (m : M A) :
  P [] -> silent m -> emits P m.
Proof.
  intros HP Hm st. exists []. rewrite app_nil_r. split; [apply Hm | exact HP].
Qed.

Lemma emits_weaken {A} (P Q : list Obs -> Prop) (m : M A) :
  (forall obs, P obs -> Q obs) -> emits P m -> emits Q m.
Proof.
  intros HPQ Hm st. destruct (Hm st) as [obs [E HP]].
  exists obs. split; [exact E | apply HPQ, HP].
Qed.

Lemma emits_bind {A B} (P Q R : list Obs -> Prop) (m : M A) (k : A -> M B) :
  emits P m -> (forall a, emits Q (k a)) ->
  (forall a, P a -> R a) ->
  (forall a b, P a -> Q b -> R (a ++ b)) ->
  emits R (bind m k).
Proof.
  intros Hm Hk HPR HPQR st. unfold bind.
  destruct (Hm st) as [o1 [E1 H1]].
  destruct (m st) as [st1 [a|e]]; cbn [fst] in *.
  - destruct (Hk a st1) as [o2 [E2 H2]].
    exists (o1 ++ o2). rewrite E2, E1, app_assoc. split; [reflexivity|].
    apply HPQR; assumption.
  - exists o1. split; [exact E1 | apply HPR, H1].
Qed.

(** The observations of a [with] block: nothing when [__enter__] raised,
    otherwise the session entered, what the body lets one observe, and
    the session left. *)
Definition bracketed (s : Session) (Q : list Obs -> Prop) (obs : list Obs)
  : Prop :=
  obs = [] \/ exists body, Q body /\ obs = ObsOpen s :: body ++ [ObsClose s].

Lemma emits_with {A} (Q : list Obs -> Prop) s (enter exit : M unit)
    (body : M A) :
  silent enter -> silent exit -> emits Q body ->
  emits (bracketed s Q) (with_ s enter exit body).
Proof.
  intros He Hx Hb st. unfold with_.
  specialize (He st).
  destruct (enter st) as [st1 [u|e]]; cbn [fst] in He.
  - destruct (Hb (record (Enter s) None st1)) as [ob [Eb HQ]].
    destruct (body (record (Enter s) None st1)) as [st2 r]; cbn [fst] in Eb.
    specialize (Hx st2).
    rewrite observe_record, He in Eb. simpl observe_event in Eb.
    assert (Hfin : forall r', observe (trace (record (Exit s) r' (fst (exit st2))))
                     = observe (trace st) ++ (ObsOpen s :: ob ++ [ObsClose s])).
    { intros r'. rewrite observe_record, Hx, Eb. simpl.
      rewrite <- !app_assoc. reflexivity. }
    exists (ObsOpen s :: ob ++ [ObsClose s]).
    split; [|right; exists ob; split; [exact HQ | reflexivity]].
    destruct (exit st2) as [st3 [u'|e']]; cbn [fst] in *; apply Hfin.
  - exists []. cbn [fst]. rewrite observe_record, He. simpl.
    rewrite !app_nil_r. split; [reflexivity | left; reflexivity].
Qed.

End Observations.

(* ===================================================================== *)
(** ** The employee loop: sessions, failures, skipped notifications *)
(* ===================================================================== *)

Module MainSpec.
Import Effects EffectsFacts Observations LoadData Main.

(** *** A world and a configuration to run the loop in *)

Fixpoint kwargs_get (kw : list (string * fval)) (key : pystr) : option pystr :=
  match kw with
  | [] => None
  | (k, v) :: t =>
      if pystr_eqb (py k) key then
        Some (match v with FStr s => s | FInt _ => py "#" end)
      else kwargs_get t key
  end.

(** A formatter for plain placeholders: a name between braces is
    replaced by the keyword argument of that name, and an unknown name
    raises [KeyError]. [key] holds the name being read. *)
Fixpoint demo_format_from (kw : list (string * fval)) (s : pystr)
    (key : option pystr) (out : pystr) : Py pystr :=
  match s with
  | [] =>
      match key with
      | None => Return out
      | Some _ => Raise (Exn ValueError [Lit "expected '}' before end of string"])
      end
  | c :: t =>
      match key with
      | None =>
          if N.eqb c 0x7B then demo_format_from kw t (Some []) out
          else demo_format_from kw t None (out ++ [c])
      | Some k =>
          if N.eqb c 0x7D then
            match kwargs_get kw k with
            | Some v => demo_format_from kw t None (out ++ v)
            | None => Raise (Exn KeyError [Str k])
            end
          else demo_format_from kw t (Some (k ++ [c])) out
      end
  end.

Definition demo_strlib : StrLib :=
  {| str_lower := fun s => s;
     str_format := fun fmt kw => demo_format_from kw fmt None [] |}.

Definition template_error : exn :=
  Exn ValueError [Lit "Named range '"; Str (py "EmployeeRef");
                  Lit "' not found in workbook"].

(** A world in which every call returns, except the template writer for
    the references in [failing]. *)
Definition demo_world (failing : list pystr) : World :=
  {| win32com_available := true;
     outcome := fun _ c =>
       match c with
       | WriteEmployeeToTemplate _ _ ref _ =>
           if existsb (pystr_eqb ref) failing then Some template_error else None
       | _ => None
       end;
     path_exists := fun _ _ => true;
     calculation_state := fun _ => 0%Z;
     time_ms := fun tr => (200 * Z.of_nat (List.length tr))%Z;
     abspath := fun p => p;
     path_join := fun d f => d ++ py "/" ++ f;
     strlib := demo_strlib |}.

Definition demo_period : Period.PeriodInfo :=
  {| Period.year := 2026; Period.month := 1;
     Period.period_id := py "2026-01";
     Period.period_display := py "January 2026";
     Period.payslip_date_str := py "01 January 2026" |}.

Definition demo_ctx (pdf email : bool) : RunContext :=
  {| pdf_enabled := pdf; email_enabled := email;
     template_path := py "template.xlsx";
     run_dir := py "output/2026-01";
     xlsx_dir := py "xlsx"; pdf_dir := py "pdf";
     employee_ref_named_range := py "EmployeeRef";
     filename_pattern := py "{ref}_{name}_{date}";
     period := demo_period;
     pdf_sheet_name := None; pdf_quality := py "standard";
     pdf_open_after := false; pdf_ignore_print_areas := false;
     sender_mailbox := None; send_mode := py "send";
     subject_tmpl := py "Payslip {period_display}";
     body_tmpl := py "Dear {name}" |}.

Definition employee (ref name email : string) : Employee :=
  [("ref"%string, py ref); ("name"%string, py name); ("email"%string, py email)].

(** Three records, the second without an email address. *)
Definition three_employees : list Employee :=
  [employee "A1" "Ann" "ann@example.org"; employee "A2" "Bob" "";
   employee "A3" "Cy" "cy@example.org"].

Example demo_run_all_on :
  observe (trace (fst (main (demo_world []) (demo_ctx true true)
                         (Return three_employees) initial)))
  = [ObsWorkbook (py "xlsx/A1_Ann_2026-01.xlsx") (py "A1");
     ObsOpen ExcelSession;
     ObsPdf (py "xlsx/A1_Ann_2026-01.xlsx") (py "pdf/A1_Ann_2026-01.pdf");
     ObsClose ExcelSession;
     ObsOpen OutlookSession;
     ObsSend (py "ann@example.org") (Some (py "pdf/A1_Ann_2026-01.pdf"));
     ObsClose OutlookSession;
     ObsWorkbook (py "xlsx/A2_Bob_2026-01.xlsx") (py "A2");
     ObsOpen ExcelSession;
     ObsPdf (py "xlsx/A2_Bob_2026-01.xlsx") (py "pdf/A2_Bob_2026-01.pdf");
     ObsClose ExcelSession;
     ObsSkip (py "A2");
     ObsWorkbook (py "xlsx/A3_Cy_2026-01.xlsx") (py "A3");
     ObsOpen ExcelSession;
     ObsPdf (py "xlsx/A3_Cy_2026-01.xlsx") (py "pdf/A3_Cy_2026-01.pdf");
     ObsClose ExcelSession;
     ObsOpen OutlookSession;
     ObsSend (py "cy@example.org") (Some (py "pdf/A3_Cy_2026-01.pdf"));
     ObsClose OutlookSession].
Proof. vm_compute. reflexivity. Qed.

Example demo_run_result :
  snd (main (demo_world []) (demo_ctx true true) (Return three_employees) initial)
  = Return 3.
Proof. vm_compute. reflexivity. Qed.

(** *** The session objects leave nothing to observe *)

Ltac unobs := intros [?|]; reflexivity.

Ltac silence :=
  repeat first
    [ apply silent_ret | apply silent_raise | apply silent_get
    | apply silent_lift | apply silent_set_excel | apply silent_set_outlook
    | apply silent_call; unobs | apply silent_call_quietly; unobs
    | apply silent_bind; [|intros]
    | apply silent_finally
    | match goal with
      | |- silent (if ?b then _ else _) => destruct b
      | |- silent (match ?x with _ => _ end) => destruct x
      end ].

Lemma exporter_enter_silent w self : silent (PdfExporter.enter w self).
Proof. unfold PdfExporter.enter. silence. Qed.

Lemma exporter_exit_silent w : silent (PdfExporter.exit w).
Proof. unfold PdfExporter.exit. silence. Qed.

Lemma sender_enter_silent w : silent (OutlookSender.enter w).
Proof.
  unfold OutlookSender.enter. apply silent_bind; [silence|].
  intros _ st.
  destruct (outcome w (trace st) OlDispatch) as [e|]; cbn [fst].
  - rewrite observe_record. simpl. apply app_nil_r.
  - unfold set_outlook. cbn [fst trace].
    change (observe (trace (record OlDispatch None st)) = observe (trace st)).
    rewrite observe_record. simpl. apply app_nil_r.
Qed.

Lemma sender_exit_silent w : silent (OutlookSender.exit w).
Proof. unfold OutlookSender.exit. silence. Qed.

Lemma send_email_silent w self to_address subject body attachment mailbox :
  silent (OutlookSender.send_email w self to_address subject body attachment
            mailbox).
Proof. unfold OutlookSender.send_email. silence. Qed.

(** *** Sessions never overlap and none stays open *)

Definition session_eqb (a b : Session) : bool :=
  match a, b with
  | ExcelSession, ExcelSession | OutlookSession, OutlookSession => true
  | _, _ => false
  end.

(** Reading the observations from left to right with the session that
    is open, if any: a session is entered only when none is open, and
    the session left is the one that is open. *)
Fixpoint scan (open : option Session) (obs : list Obs)
  : option (option Session) :=
  match obs with
  | [] => Some open
  | ObsOpen s :: t =>
      match open with
      | None => scan (Some s) t
      | Some _ => None
      end
  | ObsClose s :: t =>
      match open with
      | Some s' => if session_eqb s s' then scan None t else None
      | None => None
      end
  | _ :: t => scan open t
  end.

(** Every session entered is left, once, before the next one is entered
    and before the end. *)
Definition balanced (obs : list Obs) : Prop := scan None obs = Some None.

Definition session_free (obs : list Obs) : Prop :=
  Forall (fun o => match o with ObsOpen _ | ObsClose _ => False | _ => True end)
         obs.

Lemma scan_app open a b :
  scan open (a ++ b)
  = match scan open a with Some open' => scan open' b | None => None end.
Proof.
  revert open. induction a as [|o a IH]; intros open; simpl; [reflexivity|].
  destruct o; try apply IH.
  - destruct open; [reflexivity | apply IH].
  - destruct open as [s'|]; [|reflexivity].
    destruct (session_eqb s s'); [apply IH | reflexivity].
Qed.

Lemma scan_session_free open obs :
  session_free obs -> scan open obs = Some open.
Proof.
  induction 1 as [|o t Ho Ht IH]; simpl; [reflexivity|].
  destruct o; try exact IH; contradiction.
Qed.

Lemma balanced_nil : balanced [].
Proof. reflexivity. Qed.

Lemma balanced_app a b : balanced a -> balanced b -> balanced (a ++ b).
Proof. unfold balanced. intros Ha Hb. rewrite scan_app, Ha. exact Hb. Qed.

Lemma balanced_session_free obs : session_free obs -> balanced obs.
Proof. apply scan_session_free. Qed.

Lemma balanced_bracketed s Q obs :
  (forall b, Q b -> session_free b) -> bracketed s Q obs -> balanced obs.
Proof.
  intros HQ [->|[b [Hb ->]]]; [reflexivity|].
  unfold balanced. cbn [scan]. rewrite scan_app.
  rewrite (scan_session_free _ (HQ b Hb)). cbn [scan].
  destruct s; reflexivity.
Qed.

(** *** One employee, on every path *)

Definition emp_ref_of (emp : Employee) : pystr :=
  strip (or_str (dict_get emp "ref") []).

Definition emp_name_of (emp : Employee) : pystr :=
  strip (or_str (dict_get emp "name") []).

Definition emp_email_of (emp : Employee) : pystr :=
  strip (or_str (dict_get emp "email") []).

Definition file_stem_of (w : World) (ctx : RunContext) (emp : Employee)
  : pystr :=
  match str_format (strlib w) (filename_pattern ctx)
          [("ref"%string, FStr (emp_ref_of emp));
           ("name"%string, FStr (emp_name_of emp));
           ("date"%string, FStr (Period.period_id (period ctx)))] with
  | Return raw_filename =>
      SafeFilename.safe_filename raw_filename SafeFilename.default_max_len
  | Raise _ => []
  end.

Definition xlsx_path_of (w : World) (ctx : RunContext) (emp : Employee)
  : pystr :=
  path_join w (xlsx_dir ctx) (file_stem_of w ctx emp ++ py ".xlsx").

Definition pdf_path_of (w : World) (ctx : RunContext) (emp : Employee)
  : pystr :=
  path_join w (pdf_dir ctx) (file_stem_of w ctx emp ++ py ".pdf").

(** The file [main] attaches to the employee's message. *)
Definition attachment_of (w : World) (ctx : RunContext) (emp : Employee)
  : pystr :=
  if pdf_enabled ctx then pdf_path_of w ctx emp else xlsx_path_of w ctx emp.

(** A call of [send_email] is for this employee's address and carries
    this employee's attachment. *)
Definition send_ok (w : World) (ctx : RunContext) (emp : Employee) (o : Obs)
  : Prop :=
  match o with
  | ObsSend to_address attachment =>
      to_address = emp_email_of emp
      /\ attachment = Some (attachment_of w ctx emp)
  | _ => True
  end.

Definition good (w : World) (ctx : RunContext) (emps : list Employee)
    (obs : list Obs) : Prop :=
  balanced obs
  /\ Forall (fun o => exists emp, In emp emps /\ send_ok w ctx emp o) obs.

Lemma good_nil w ctx emps : good w ctx emps [].
Proof. split; [reflexivity | constructor]. Qed.

Lemma good_app w ctx emps a b :
  good w ctx emps a -> good w ctx emps b -> good w ctx emps (a ++ b).
Proof.
  intros [Ba Fa] [Bb Fb]. split; [apply balanced_app; assumption|].
  apply Forall_app. split; assumption.
Qed.

Lemma good_more w ctx emps emps' obs :
  (forall e, In e emps -> In e emps') ->
  good w ctx emps obs -> good w ctx emps' obs.
Proof.
  intros Hin [B F]. split; [exact B|].
  eapply Forall_impl; [|exact F].
  intros o [emp [He Hs]]. exists emp. split; [apply Hin, He | exact Hs].
Qed.

Lemma emits_good_bind {A B} w ctx emps (m : M A) (k : A -> M B) :
  emits (good w ctx emps) m -> (forall a, emits (good w ctx emps) (k a)) ->
  emits (good w ctx emps) (bind m k).
Proof.
  intros Hm Hk. eapply emits_bind; [exact Hm | exact Hk | auto |].
  intros a b. apply good_app.
Qed.

Lemma emits_call w c (P : list Obs -> Prop) :
  (forall r, P (observe_event (c, r))) -> emits P (call w c).
Proof.
  intros H st. unfold call. cbn [fst].
  exists (observe_event (c, outcome w (trace st) c)).
  split; [apply observe_record | apply H].
Qed.

Lemma emits_mark c (P : list Obs -> Prop) :
  P (observe_event (c, None)) -> emits P (mark c).
Proof.
  intros H st. unfold mark. cbn [fst].
  exists (observe_event (c, None)). split; [apply observe_record | exact H].
Qed.

Lemma emits_lift_Return {A B} (P : list Obs -> Prop) (a : A) (k : A -> M B) :
  emits P (k a) -> emits P (bind (lift (Return a)) k).
Proof. intros H st. exact (H st). Qed.

Lemma silent_lift_Raise {A B} (e : exn) (k : A -> M B) :
  silent (bind (lift (Raise e)) k).
Proof. intros st. reflexivity. Qed.

(** What an export lets one observe: the file, when the call returned. *)
Definition export_obs (w : World) (workbook_path output_pdf_path : pystr)
    (obs : list Obs) : Prop :=
  obs = []
  \/ obs = [ObsPdf (abspath w workbook_path) (abspath w output_pdf_path)].

Lemma export_emits w wb pdf sheet quality open_after ignore :
  emits (export_obs w wb pdf)
        (PdfExporter.export w wb pdf sheet quality open_after ignore).
Proof.
  intros st. unfold PdfExporter.export.
  rewrite bind_get. destruct (excel st); cbn [negb].
  - rewrite bind_call.
    destruct (outcome w (trace st) _) as [e|]; cbn [fst].
    + exists []. rewrite observe_record. simpl. split; [reflexivity|].
      left. reflexivity.
    + eexists. unfold ret. cbn [fst]. rewrite observe_record. simpl.
      split; [reflexivity|]. right. reflexivity.
  - exists []. unfold raise. cbn [fst]. rewrite app_nil_r.
    split; [reflexivity | left; reflexivity].
Qed.

Lemma send_emits w self to_address subject body attachment mailbox :
  emits (fun obs => obs = [ObsSend to_address attachment])
        (bind (mark (SendEmailCalled to_address subject body attachment mailbox))
              (fun _ => OutlookSender.send_email w self to_address subject body
                          attachment mailbox)).
Proof.
  intros st. rewrite bind_mark.
  rewrite (send_email_silent w self to_address subject body attachment mailbox).
  eexists. split; [apply observe_record | reflexivity].
Qed.

Lemma process_employee_good w ctx ex se emp :
  emits (good w ctx [emp]) (process_employee w ctx ex se emp).
Proof.
  unfold process_employee.
  fold (emp_ref_of emp). fold (emp_name_of emp). fold (emp_email_of emp).
  destruct (is_empty (emp_ref_of emp)).
  { apply emits_silent; [apply good_nil|].
    apply silent_bind; [apply silent_mark; unobs | intros; apply silent_ret]. }
  pose proof (eq_refl (file_stem_of w ctx emp)) as Estem.
  unfold file_stem_of at 2 in Estem.
  destruct (str_format (strlib w) (filename_pattern ctx) _) as [raw|e].
  2:{ apply emits_silent; [apply good_nil | apply silent_lift_Raise]. }
  apply emits_lift_Return. cbv zeta. rewrite <- Estem.
  fold (xlsx_path_of w ctx emp). fold (pdf_path_of w ctx emp).
  apply emits_good_bind.
  { apply emits_call. intros [e|]; simpl.
    - apply good_nil.
    - split; [reflexivity|]. constructor; [|constructor].
      exists emp. split; [left; reflexivity | exact I]. }
  intros _. apply emits_good_bind.
  { destruct (pdf_enabled ctx), ex as [exporter|];
      try (apply emits_silent; [apply good_nil | apply silent_ret]).
    apply emits_good_bind;
      [|intros; apply emits_silent; [apply good_nil | apply silent_ret]].
    eapply emits_weaken;
      [|apply emits_with;
         [apply exporter_enter_silent | apply exporter_exit_silent
         | apply export_emits]].
    intros obs Hb. split.
    - eapply balanced_bracketed; [|exact Hb].
      intros b [->| ->]; repeat constructor.
    - destruct Hb as [->|[b [Hb ->]]]; [constructor|].
      destruct Hb as [->| ->]; repeat constructor;
        exists emp; (split; [left; reflexivity | exact I]). }
  intros _. apply emits_good_bind;
    [|intros; apply emits_silent; [apply good_nil | apply silent_ret]].
  destruct (email_enabled ctx), se as [sender|];
    try (apply emits_silent; [apply good_nil | apply silent_ret]).
  destruct (is_empty (emp_email_of emp)).
  { apply emits_mark. simpl. split; [reflexivity|].
    constructor; [|constructor].
    exists emp. split; [left; reflexivity | exact I]. }
  destruct (str_format (strlib w) (subject_tmpl ctx) _) as [subject|e].
  2:{ apply emits_silent; [apply good_nil | apply silent_lift_Raise]. }
  apply emits_lift_Return.
  destruct (str_format (strlib w) (body_tmpl ctx) _) as [body|e].
  2:{ apply emits_silent; [apply good_nil | apply silent_lift_Raise]. }
  apply emits_lift_Return. cbv zeta.
  eapply emits_weaken;
    [|apply emits_with;
       [apply sender_enter_silent | apply sender_exit_silent
       | apply send_emits]].
  intros obs Hb. split.
  - eapply balanced_bracketed; [|exact Hb].
    intros b ->. repeat constructor.
  - destruct Hb as [->|[b [-> ->]]]; [constructor|].
    repeat constructor; exists emp;
      (split; [left; reflexivity | try exact I]).
    split; reflexivity.
Qed.

Lemma employee_loop_good w ctx ex se emps n :
  emits (good w ctx emps) (employee_loop w ctx ex se emps n).
Proof.
  revert n. induction emps as [|emp rest IH]; intros n; simpl.
  - apply emits_silent; [apply good_nil | apply silent_ret].
  - apply emits_good_bind.
    + eapply emits_weaken; [|apply process_employee_good].
      intros obs. apply good_more. intros e [<-|[]]. left. reflexivity.
    + intros counted. eapply emits_weaken; [|apply IH].
      intros obs. apply good_more. intros e He. right. exact He.
Qed.

Lemma main_good w ctx emps :
  emits (good w ctx emps) (main w ctx (Return emps)).
Proof.
  unfold main. apply emits_lift_Return.
  destruct emps as [|emp rest].
  - apply emits_silent; [apply good_nil | apply silent_raise].
  - destruct (make_sender ctx) as [se|e].
    + apply emits_lift_Return. apply employee_loop_good.
    + apply emits_silent; [apply good_nil | apply silent_lift_Raise].
Qed.

Lemma main_load_failed_silent w ctx e : silent (main w ctx (Raise e)).
Proof. unfold main. apply silent_lift_Raise. Qed.

(** *** One employee, when the iteration returns *)

Lemma bind_returns {A B} (m : M A) (k : A -> M B) st st' b :
  bind m k st = (st', Return b) ->
  exists st1 a, m st = (st1, Return a) /\ k a st1 = (st', Return b).
Proof.
  unfold bind. destruct (m st) as [st1 [a|e]]; [eauto | discriminate].
Qed.

Lemma with_returns {A} s (enter exit : M unit) (body : M A) st st' a :
  silent enter -> silent exit ->
  with_ s enter exit body st = (st', Return a) ->
  exists st1 st2,
    observe (trace st1) = observe (trace st) ++ [ObsOpen s]
    /\ body st1 = (st2, Return a)
    /\ observe (trace st') = observe (trace st2) ++ [ObsClose s].
Proof.
  intros He Hx. unfold with_. specialize (He st).
  destruct (enter st) as [sa [u|e]]; [|discriminate]. cbn [fst] in He.
  destruct (body (record (Enter s) None sa)) as [sb r] eqn:Eb.
  specialize (Hx sb).
  destruct (exit sb) as [sc [u'|e']]; [|discriminate]. cbn [fst] in Hx.
  intros E. inversion E; subst. clear E.
  exists (record (Enter s) None sa), sb. split; [|split].
  - rewrite observe_record, He. reflexivity.
  - exact Eb.
  - rewrite observe_record, Hx. reflexivity.
Qed.

Lemma export_returns w wb pdf sheet quality open_after ignore st st' p :
  PdfExporter.export w wb pdf sheet quality open_after ignore st
    = (st', Return p) ->
  observe (trace st')
  = observe (trace st) ++ [ObsPdf (abspath w wb) (abspath w pdf)].
Proof.
  unfold PdfExporter.export. rewrite bind_get.
  destruct (excel st); cbn [negb]; [|discriminate].
  rewrite bind_call. destruct (outcome w (trace st) _); [discriminate|].
  unfold ret. intros E. inversion E; subst. apply observe_record.
Qed.

(** What a completed iteration lets one observe. *)
Definition expected (w : World) (ctx : RunContext)
    (ex : option PdfExporter.ExcelPdfExporter)
    (se : option OutlookSender.OutlookEmailSender) (emp : Employee)
  : list Obs :=
  if is_empty (emp_ref_of emp) then []
  else
    [ObsWorkbook (xlsx_path_of w ctx emp) (emp_ref_of emp)]
    ++ match pdf_enabled ctx, ex with
       | true, Some _ =>
           [ObsOpen ExcelSession;
            ObsPdf (abspath w (xlsx_path_of w ctx emp))
                   (abspath w (pdf_path_of w ctx emp));
            ObsClose ExcelSession]
       | _, _ => []
       end
    ++ match email_enabled ctx, se with
       | true, Some _ =>
           if is_empty (emp_email_of emp) then [ObsSkip (emp_ref_of emp)]
           else [ObsOpen OutlookSession;
                 ObsSend (emp_email_of emp) (Some (attachment_of w ctx emp));
                 ObsClose OutlookSession]
       | _, _ => []
       end.

Definition has_ref (emp : Employee) : bool := negb (is_empty (emp_ref_of emp)).

Definition has_email (emp : Employee) : bool :=
  negb (is_empty (emp_email_of emp)).

Lemma process_employee_returns w ctx ex se emp st st' counted :
  process_employee w ctx ex se emp st = (st', Return counted) ->
  observe (trace st') = observe (trace st) ++ expected w ctx ex se emp
  /\ counted = has_ref emp.
Proof.
  unfold process_employee, expected, has_ref.
  fold (emp_ref_of emp). fold (emp_name_of emp). fold (emp_email_of emp).
  destruct (is_empty (emp_ref_of emp)).
  { rewrite bind_mark. unfold ret. intros E. inversion E; subst.
    rewrite observe_record, app_nil_r. simpl. rewrite app_nil_r.
    split; reflexivity. }
  pose proof (eq_refl (file_stem_of w ctx emp)) as Estem.
  unfold file_stem_of at 2 in Estem.
  destruct (str_format (strlib w) (filename_pattern ctx) _) as [raw|e];
    [|discriminate].
  change (bind (lift (Return raw)) ?k st) with (k raw st).
  cbv beta zeta. rewrite <- Estem.
  fold (xlsx_path_of w ctx emp). fold (pdf_path_of w ctx emp).
  fold (attachment_of w ctx emp).
  rewrite bind_call.
  destruct (outcome w (trace st) _) as [e|]; [discriminate|].
  intros E.
  apply bind_returns in E. destruct E as [st2 [u2 [Epdf E]]].
  apply bind_returns in E. destruct E as [st3 [u3 [Email E]]].
  unfold ret in E. inversion E; subst. clear E.
  split; [|reflexivity].
  assert (Hpdf : observe (trace st2)
            = observe (trace (record (WriteEmployeeToTemplate (template_path ctx)
                                 (xlsx_path_of w ctx emp) (emp_ref_of emp)
                                 (employee_ref_named_range ctx)) None st))
              ++ match pdf_enabled ctx, ex with
                 | true, Some _ =>
                     [ObsOpen ExcelSession;
                      ObsPdf (abspath w (xlsx_path_of w ctx emp))
                             (abspath w (pdf_path_of w ctx emp));
                      ObsClose ExcelSession]
                 | _, _ => []
                 end).
  { destruct (pdf_enabled ctx), ex as [exporter|];
      try (unfold ret in Epdf; inversion Epdf; subst; symmetry; apply app_nil_r).
    apply bind_returns in Epdf. destruct Epdf as [sa [p [Ew Er]]].
    unfold ret in Er. inversion Er; subst. clear Er.
    apply with_returns in Ew;
      [|apply exporter_enter_silent | apply exporter_exit_silent].
    destruct Ew as [s1 [s2 [E1 [E2 E3]]]].
    apply export_returns in E2.
    rewrite E3, E2, E1, <- !app_assoc. reflexivity. }
  assert (Hmail : observe (trace st')
            = observe (trace st2)
              ++ match email_enabled ctx, se with
                 | true, Some _ =>
                     if is_empty (emp_email_of emp)
                     then [ObsSkip (emp_ref_of emp)]
                     else [ObsOpen OutlookSession;
                           ObsSend (emp_email_of emp)
                                   (Some (attachment_of w ctx emp));
                           ObsClose OutlookSession]
                 | _, _ => []
                 end).
  { destruct (email_enabled ctx), se as [sender|];
      try (unfold ret in Email; inversion Email; subst; symmetry;
           apply app_nil_r).
    destruct (is_empty (emp_email_of emp)).
    { unfold mark in Email. inversion Email; subst.
      rewrite observe_record. reflexivity. }
    destruct (str_format (strlib w) (subject_tmpl ctx) _) as [subject|e];
      [|discriminate].
    change (bind (lift (Return subject)) ?k st2) with (k subject st2) in Email.
    cbv beta in Email.
    destruct (str_format (strlib w) (body_tmpl ctx) _) as [body|e];
      [|discriminate].
    change (bind (lift (Return body)) ?k st2) with (k body st2) in Email.
    cbv beta zeta in Email.
    apply with_returns in Email;
      [|apply sender_enter_silent | apply sender_exit_silent].
    destruct Email as [s1 [s2 [E1 [E2 E3]]]].
    rewrite bind_mark in E2.
    pose proof (send_email_silent w sender (emp_email_of emp) subject body
                  (Some (attachment_of w ctx emp)) (sender_mailbox ctx)
                  (record (SendEmailCalled (emp_email_of emp) subject body
                             (Some (attachment_of w ctx emp))
                             (sender_mailbox ctx)) None s1)) as Hs.
    rewrite E2 in Hs. cbn [fst] in Hs.
    rewrite E3, Hs, observe_record, E1, <- !app_assoc. reflexivity. }
  rewrite Hmail, Hpdf, observe_record, <- !app_assoc. reflexivity.
Qed.

Lemma employee_loop_returns w ctx ex se emps n st st' n' :
  employee_loop w ctx ex se emps n st = (st', Return n') ->
  observe (trace st')
    = observe (trace st) ++ flat_map (expected w ctx ex se) emps
  /\ n' = n + List.length (filter has_ref emps).
Proof.
  revert n st. induction emps as [|emp rest IH]; intros n st; simpl.
  - unfold ret. intros E. inversion E; subst.
    rewrite app_nil_r. split; [reflexivity | lia].
  - intros E. apply bind_returns in E. destruct E as [st1 [counted [E1 E2]]].
    apply process_employee_returns in E1. destruct E1 as [O1 ->].
    apply IH in E2. destruct E2 as [O2 ->].
    rewrite O2, O1, <- app_assoc. split; [reflexivity|].
    destruct (has_ref emp); simpl; lia.
Qed.

Lemma employee_loop_app w ctx ex se a b n st :
  employee_loop w ctx ex se (a ++ b) n st
  = bind (employee_loop w ctx ex se a n)
         (fun n' => employee_loop w ctx ex se b n') st.
Proof.
  revert n st. induction a as [|emp a IH]; intros n st; simpl.
  - reflexivity.
  - rewrite bind_bind. unfold bind at 1.
    change ((bind (process_employee w ctx ex se emp) ?k) st)
      with (match process_employee w ctx ex se emp st with
            | (st', Return a) => k a st'
            | (st', Raise e) => (st', Raise e)
            end).
    destruct (process_employee w ctx ex se emp st) as [st1 [counted|e]];
      [apply IH | reflexivity].
Qed.

Lemma main_runs_loop w ctx emps se st :
  emps <> [] -> make_sender ctx = Return se ->
  main w ctx (Return emps) st
  = employee_loop w ctx (make_exporter ctx) se emps 0 st.
Proof.
  intros Hne Hse. unfold main.
  change (bind (lift (Return emps)) ?k st) with (k emps st). cbv beta.
  destruct emps as [|emp rest]; [congruence|].
  rewrite Hse. reflexivity.
Qed.

Lemma main_returns w ctx emps st st' n :
  main w ctx (Return emps) st = (st', Return n) ->
  exists se,
    make_sender ctx = Return se
    /\ employee_loop w ctx (make_exporter ctx) se emps 0 st = (st', Return n).
Proof.
  unfold main.
  change (bind (lift (Return emps)) ?k st) with (k emps st). cbv beta.
  destruct emps as [|emp rest]; [discriminate|].
  destruct (make_sender ctx) as [se|e]; [|discriminate].
  intros E. exists se. split; [reflexivity | exact E].
Qed.

Lemma make_sender_some ctx se :
  make_sender ctx = Return se ->
  email_enabled ctx = true -> exists sender, se = Some sender.
Proof.
  unfold make_sender. intros E Hen. rewrite Hen in E.
  destruct (OutlookSender.new (send_mode ctx)) as [sender|e];
    [|discriminate].
  simpl in E. inversion E. eauto.
Qed.

(** What a completed iteration of [main] lets one observe: the two
    session objects exist exactly when their capability is on. *)
Definition expected_main (w : World) (ctx : RunContext) (emp : Employee)
  : list Obs :=
  if has_ref emp then
    [ObsWorkbook (xlsx_path_of w ctx emp) (emp_ref_of emp)]
    ++ (if pdf_enabled ctx then
          [ObsOpen ExcelSession;
           ObsPdf (abspath w (xlsx_path_of w ctx emp))
                  (abspath w (pdf_path_of w ctx emp));
           ObsClose ExcelSession]
        else [])
    ++ (if email_enabled ctx then
          if has_email emp then
            [ObsOpen OutlookSession;
             ObsSend (emp_email_of emp) (Some (attachment_of w ctx emp));
             ObsClose OutlookSession]
          else [ObsSkip (emp_ref_of emp)]
        else [])
  else [].

Lemma expected_in_main w ctx se emp :
  make_sender ctx = Return se ->
  expected w ctx (make_exporter ctx) se emp = expected_main w ctx emp.
Proof.
  intros Hse. unfold expected, expected_main, has_ref, has_email, make_exporter.
  destruct (is_empty (emp_ref_of emp)); [reflexivity|]. cbn [negb].
  f_equal. f_equal.
  - destruct (pdf_enabled ctx); reflexivity.
  - destruct (email_enabled ctx) eqn:Em.
    + destruct (make_sender_some ctx Hse Em) as [sender ->].
      destruct (is_empty (emp_email_of emp)); reflexivity.
    + destruct se; reflexivity.
Qed.

Lemma main_observed w ctx emps st st' n :
  main w ctx (Return emps) st = (st', Return n) ->
  observe (trace st')
    = observe (trace st) ++ flat_map (expected_main w ctx) emps
  /\ n = List.length (filter has_ref emps).
Proof.
  intros E. apply main_returns in E. destruct E as [se [Hse E]].
  apply employee_loop_returns in E. destruct E as [O ->].
  split; [|reflexivity]. rewrite O. f_equal.
  apply flat_map_ext. intros emp. apply expected_in_main, Hse.
Qed.

(** *** Reading the observations *)

Definition workbooks (obs : list Obs) : list (pystr * pystr) :=
  flat_map (fun o => match o with ObsWorkbook p r => [(p, r)] | _ => [] end) obs.

Definition pdfs (obs : list Obs) : list (pystr * pystr) :=
  flat_map (fun o => match o with ObsPdf x p => [(x, p)] | _ => [] end) obs.

Definition sends (obs : list Obs) : list (pystr * option pystr) :=
  flat_map (fun o => match o with ObsSend t a => [(t, a)] | _ => [] end) obs.

Definition skips (obs : list Obs) : list pystr :=
  flat_map (fun o => match o with ObsSkip r => [r] | _ => [] end) obs.

Definition is_open (s : Session) (o : Obs) : bool :=
  match o with ObsOpen s' => session_eqb s s' | _ => false end.

Definition is_close (s : Session) (o : Obs) : bool :=
  match o with ObsClose s' => session_eqb s s' | _ => false end.

(** How often a session was entered, and left. *)
Definition opens (s : Session) (obs : list Obs) : nat :=
  List.length (filter (is_open s) obs).

Definition closes (s : Session) (obs : list Obs) : nat :=
  List.length (filter (is_close s) obs).

Lemma count_flat_map {A} (p : Obs -> bool) (q : A -> bool) (f : A -> list Obs)
    (l : list A) :
  (forall a, List.length (filter p (f a)) = if q a then 1 else 0) ->
  List.length (filter p (flat_map f l)) = List.length (filter q l).
Proof.
  intros H. induction l as [|a l IH]; simpl; [reflexivity|].
  rewrite filter_app, length_app, H, IH.
  destruct (q a); reflexivity.
Qed.

Lemma count_flat_map_none {A} (p : Obs -> bool) (f : A -> list Obs)
    (l : list A) :
  (forall a, List.length (filter p (f a)) = 0) ->
  List.length (filter p (flat_map f l)) = 0.
Proof.
  intros H. induction l as [|a l IH]; simpl; [reflexivity|].
  rewrite filter_app, length_app, H, IH. reflexivity.
Qed.

Lemma excel_sessions_counted w ctx emps :
  opens ExcelSession (flat_map (expected_main w ctx) emps)
    = (if pdf_enabled ctx then List.length (filter has_ref emps) else 0)
  /\ closes ExcelSession (flat_map (expected_main w ctx) emps)
    = (if pdf_enabled ctx then List.length (filter has_ref emps) else 0).
Proof.
  unfold opens, closes. destruct (pdf_enabled ctx) eqn:Epdf; split.
  1,2: apply count_flat_map; intros emp; unfold expected_main;
       rewrite Epdf;
       destruct (has_ref emp), (email_enabled ctx), (has_email emp);
       reflexivity.
  1,2: apply count_flat_map_none; intros emp; unfold expected_main;
       rewrite Epdf;
       destruct (has_ref emp), (email_enabled ctx), (has_email emp);
       reflexivity.
Qed.

Lemma outlook_sessions_counted w ctx emps :
  opens OutlookSession (flat_map (expected_main w ctx) emps)
    = (if email_enabled ctx
       then List.length (filter (fun e => has_ref e && has_email e)%bool emps)
       else 0)
  /\ closes OutlookSession (flat_map (expected_main w ctx) emps)
    = (if email_enabled ctx
       then List.length (filter (fun e => has_ref e && has_email e)%bool emps)
       else 0).
Proof.
  unfold opens, closes. destruct (email_enabled ctx) eqn:Em; split.
  1,2: apply count_flat_map; intros emp; unfold expected_main;
       rewrite Em;
       destruct (has_ref emp), (pdf_enabled ctx), (has_email emp);
       reflexivity.
  1,2: apply count_flat_map_none; intros emp; unfold expected_main;
       rewrite Em;
       destruct (has_ref emp), (pdf_enabled ctx), (has_email emp);
       reflexivity.
Qed.

(** *** C1: a failing employee *)

(** The template writer fails for A2: the run stops there, A3 is never
    reached, and the process exits with status 1. *)
Lemma failing_employee_stops_the_run :
  dunder_main (main (demo_world [py "A2"]) (demo_ctx false false)
                 (Return three_employees)) initial
  = ({| trace :=
          [(WriteEmployeeToTemplate (py "template.xlsx")
              (py "xlsx/A1_Ann_2026-01.xlsx") (py "A1") (py "EmployeeRef"), None);
           (WriteEmployeeToTemplate (py "template.xlsx")
              (py "xlsx/A2_Bob_2026-01.xlsx") (py "A2") (py "EmployeeRef"),
            Some template_error)];
        excel := false; outlook := false |}, 1%Z).
Proof. vm_compute. reflexivity. Qed.

(** C1 (amended). When the pipeline of one employee record raises an
    exception, nothing catches it in the loop: [main] ends with that
    exception in the state in which it was raised, so the records
    before it have been processed and no later record is; the guard
    around [main] turns it into [SystemExit] with a message, and the
    process exits with status 1. *)
Theorem employee_failure_ends_the_run
    (w : World) (ctx : RunContext) (before after : list Employee)
    (emp : Employee) (se : option OutlookSender.OutlookEmailSender)
    (st st1 st2 : St) (n : nat) (x : exn) :
  make_sender ctx = Return se ->
  employee_loop w ctx (make_exporter ctx) se before 0 st = (st1, Return n) ->
  process_employee w ctx (make_exporter ctx) se emp st1 = (st2, Raise x) ->
  is_Exception x = true ->
  main w ctx (Return (before ++ emp :: after)) st = (st2, Raise x)
  /\ dunder_main (main w ctx (Return (before ++ emp :: after))) st
     = (st2, 1%Z).
Proof.
  intros Hse Hbefore Hemp Hx.
  assert (E : main w ctx (Return (before ++ emp :: after)) st = (st2, Raise x)).
  { rewrite (main_runs_loop w ctx (emps := before ++ emp :: after) (se := se) st)
      by (try exact Hse; destruct before; discriminate).
    rewrite employee_loop_app. unfold bind at 1. rewrite Hbefore.
    cbn [employee_loop]. unfold bind. rewrite Hemp. reflexivity. }
  split; [exact E|].
  unfold dunder_main. rewrite E, Hx. reflexivity.
Qed.

Lemma employee_failure_ends_the_run_witness :
  exists st2,
    dunder_main (main (demo_world [py "A2"]) (demo_ctx true true)
                   (Return ([employee "A1" "Ann" "ann@example.org"]
                            ++ employee "A2" "Bob" ""
                            :: [employee "A3" "Cy" "cy@example.org"]))) initial
    = (st2, 1%Z)
    /\ workbooks (observe (trace st2)) = [(py "xlsx/A1_Ann_2026-01.xlsx", py "A1")].
Proof.
  eexists. split.
  - eapply proj2.
    eapply (@employee_failure_ends_the_run (demo_world [py "A2"])
              (demo_ctx true true) [employee "A1" "Ann" "ann@example.org"]
              [employee "A3" "Cy" "cy@example.org"] (employee "A2" "Bob" "")
              (Some {| OutlookSender.send_mode := py "send" |}) initial).
    + reflexivity.
    + vm_compute. reflexivity.
    + vm_compute. reflexivity.
    + reflexivity.
  - vm_compute. reflexivity.
Defined.

(** *** C2: the scope of the two sessions *)

(** With three employees, both capabilities on and nothing failing, the
    export session is entered and left three times and the notification
    session twice, and the first thing the run does is write a workbook:
    no session is entered before the loop. *)
Lemma sessions_entered_per_employee :
  let obs := observe (trace (fst (main (demo_world []) (demo_ctx true true)
                                    (Return three_employees) initial))) in
  opens ExcelSession obs = 3 /\ closes ExcelSession obs = 3
  /\ opens OutlookSession obs = 2 /\ closes OutlookSession obs = 2
  /\ hd_error obs = Some (ObsWorkbook (py "xlsx/A1_Ann_2026-01.xlsx") (py "A1")).
Proof. vm_compute. repeat split; reflexivity. Qed.

(** C2 (amended). The exporter and sender objects are made once, before
    the loop, but each session is entered and left inside the loop,
    once for every employee that reaches the stage. On every path of a
    run, failing ones included, a session whose [__enter__] returned is
    left exactly once before any other session is entered and before
    the run ends. In a run that completes, the export session has been
    entered and left as often as employees were processed (when pdf is
    on) and the notification session as often as there are processed
    employees with an email address (when email is on). *)
Theorem sessions_scoped_per_employee
    (w : World) (ctx : RunContext) (loaded : Py (list Employee)) (st : St) :
  exists obs,
    observe (trace (fst (main w ctx loaded st))) = observe (trace st) ++ obs
    /\ balanced obs
    /\ forall emps n,
         loaded = Return emps ->
         snd (main w ctx loaded st) = Return n ->
         n = List.length (filter has_ref emps)
         /\ opens ExcelSession obs = (if pdf_enabled ctx then n else 0)
         /\ closes ExcelSession obs = (if pdf_enabled ctx then n else 0)
         /\ opens OutlookSession obs
            = (if email_enabled ctx
               then List.length
                      (filter (fun e => has_ref e && has_email e)%bool emps)
               else 0)
         /\ closes OutlookSession obs
            = (if email_enabled ctx
               then List.length
                      (filter (fun e => has_ref e && has_email e)%bool emps)
               else 0).
Proof.
  destruct loaded as [emps|e].
  - destruct (main_good w ctx emps st) as [obs [E [B _]]].
    exists obs. split; [exact E|]. split; [exact B|].
    intros emps' n Hl Hn. inversion Hl; subst emps'. clear Hl.
    destruct (main w ctx (Return emps) st) as [st' r] eqn:Em.
    cbn [fst snd] in *. subst r.
    destruct (main_observed w ctx emps st Em) as [O ->].
    rewrite O in E. apply app_inv_head in E. subst obs.
    destruct (excel_sessions_counted w ctx emps) as [X1 X2].
    destruct (outlook_sessions_counted w ctx emps) as [O1 O2].
    repeat split; assumption.
  - exists []. rewrite app_nil_r. split; [apply main_load_failed_silent|].
    split; [reflexivity|]. intros emps n Hl. discriminate Hl.
Qed.

(** *** C5: the record without an email address *)

(** C5. With pdf and email on, in every run that completes, each
    employee record with a reference has its workbook written and its
    fixed-layout file exported and is counted as processed, whether or
    not it has an email address; [send_email] is called for exactly the
    records with an address, in order, and one skip warning is logged
    for each record without one. For the records A1, A2, A3 with A2
    lacking the address this is three workbooks, three fixed-layout
    files, sends for A1 and A3, one skip for A2 and a count of 3. *)
Theorem missing_email_skips_only_the_notification
    (w : World) (ctx : RunContext) (emps : list Employee) (st' : St) (n : nat) :
  pdf_enabled ctx = true -> email_enabled ctx = true ->
  Forall (fun e => has_ref e = true) emps ->
  main w ctx (Return emps) initial = (st', Return n) ->
  n = List.length emps
  /\ workbooks (observe (trace st'))
     = map (fun e => (xlsx_path_of w ctx e, emp_ref_of e)) emps
  /\ pdfs (observe (trace st'))
     = map (fun e => (abspath w (xlsx_path_of w ctx e),
                      abspath w (pdf_path_of w ctx e))) emps
  /\ sends (observe (trace st'))
     = map (fun e => (emp_email_of e, Some (pdf_path_of w ctx e)))
           (filter has_email emps)
  /\ skips (observe (trace st'))
     = map emp_ref_of (filter (fun e => negb (has_email e)) emps).
Proof.
  intros Hpdf Hemail Href Em.
  destruct (main_observed w ctx emps initial Em) as [O ->].
  cbn [trace initial observe flat_map app] in O. rewrite O. clear O Em.
  assert (Hexp : forall e, has_ref e = true ->
            expected_main w ctx e
            = [ObsWorkbook (xlsx_path_of w ctx e) (emp_ref_of e);
               ObsOpen ExcelSession;
               ObsPdf (abspath w (xlsx_path_of w ctx e))
                      (abspath w (pdf_path_of w ctx e));
               ObsClose ExcelSession]
              ++ (if has_email e
                  then [ObsOpen OutlookSession;
                        ObsSend (emp_email_of e) (Some (pdf_path_of w ctx e));
                        ObsClose OutlookSession]
                  else [ObsSkip (emp_ref_of e)])).
  { intros e He. unfold expected_main, attachment_of.
    rewrite He, Hpdf, Hemail. reflexivity. }
  unfold workbooks, pdfs, sends, skips.
  induction Href as [|e rest He Hrest IH]; [repeat split; reflexivity|].
  destruct IH as [I0 [I1 [I2 [I3 I4]]]].
  cbn [flat_map filter map List.length]. rewrite He, (Hexp e He).
  rewrite !flat_map_app, I1, I2, I3, I4.
  destruct (has_email e); cbn; repeat split; try reflexivity;
    f_equal; exact I0.
Qed.

Lemma missing_email_skips_only_the_notification_witness :
  exists st',
    main (demo_world []) (demo_ctx true true) (Return three_employees) initial
      = (st', Return 3)
    /\ List.length (workbooks (observe (trace st'))) = 3
    /\ List.length (pdfs (observe (trace st'))) = 3
    /\ sends (observe (trace st'))
       = [(py "ann@example.org", Some (py "pdf/A1_Ann_2026-01.pdf"));
          (py "cy@example.org", Some (py "pdf/A3_Cy_2026-01.pdf"))]
    /\ skips (observe (trace st')) = [py "A2"].
Proof.
  destruct (main (demo_world []) (demo_ctx true true) (Return three_employees)
              initial) as [st' r] eqn:Em.
  assert (Hr : r = Return 3).
  { change r with (snd (st', r)). rewrite <- Em. vm_compute. reflexivity. }
  subst r.
  destruct (@missing_email_skips_only_the_notification (demo_world [])
              (demo_ctx true true) three_employees st' 3
              eq_refl eq_refl)
    as [_ [W [P [S K]]]].
  - repeat constructor.
  - exact Em.
  - exists st'. split; [reflexivity|].
    rewrite W, P, S, K. vm_compute. repeat split; reflexivity.
Defined.

(** Where such a record comes from. A sheet row whose email cell holds
    only a space loads as a record without an address, and the run
    counts all three records. *)
Definition sheet (a2_email : Cell) : DataFrame :=
  {| columns := [py "Reference Number"; py "Employee Name"; py "Email"];
     rows := [ [Some (py "A1"); Some (py "Ann"); Some (py "ann@example.org")];
               [Some (py "A2"); Some (py "Bob"); a2_email];
               [Some (py "A3"); Some (py "Cy"); Some (py "cy@example.org")] ] |}.

Definition load_sheet (a2_email : Cell) : Py (list Employee) :=
  load_employees (Return (sheet a2_email)) (py "Reference Number")
    (py "Employee Name") (py "Email")
    [py "Reference Number"; py "Employee Name"; py "Email"].

Example blank_email_cell_is_a_record_without_address :
  load_sheet (Some (py " ")) = Return three_employees
  /\ snd (main (demo_world []) (demo_ctx true true) (load_sheet (Some (py " ")))
            initial) = Return 3.
Proof. split; vm_compute; reflexivity. Qed.

(** A row whose email cell is missing is dropped by [load_employees]
    when the email column is required, as it is by default: the loop
    then sees two records. *)
Example missing_email_cell_is_dropped_at_load :
  load_sheet None
  = Return [employee "A1" "Ann" "ann@example.org";
            employee "A3" "Cy" "cy@example.org"]
  /\ snd (main (demo_world []) (demo_ctx true true) (load_sheet None) initial)
     = Return 2.
Proof. split; vm_compute; reflexivity. Qed.

(** *** C10: the attachment *)

(** The messages of a run: one for each record that has a reference and
    an address, in the order of the records, to that record's address
    and with that record's file, the workbook when pdf is off and the
    fixed-layout file when pdf is on. *)
Definition expected_sends (w : World) (ctx : RunContext)
    (emps : list Employee) : list (pystr * option pystr) :=
  map (fun e =>
         (emp_email_of e,
          Some (if pdf_enabled ctx then pdf_path_of w ctx e
                else xlsx_path_of w ctx e)))
      (filter (fun e => has_ref e && has_email e)%bool emps).

Lemma sends_app a b : sends (a ++ b) = sends a ++ sends b.
Proof. apply flat_map_app. Qed.

Lemma pdfs_app a b : pdfs (a ++ b) = pdfs a ++ pdfs b.
Proof. apply flat_map_app. Qed.

Lemma workbooks_app a b : workbooks (a ++ b) = workbooks a ++ workbooks b.
Proof. apply flat_map_app. Qed.

(** Observations without a message, and without a fixed-layout file
    when pdf is off. *)
Definition no_send (ctx : RunContext) (obs : list Obs) : Prop :=
  sends obs = [] /\ (pdf_enabled ctx = false -> pdfs obs = []).

(** Observations with at most the message of this record. *)
Definition own_send (w : World) (ctx : RunContext) (emp : Employee)
    (obs : list Obs) : Prop :=
  (sends obs = [] \/ sends obs = expected_sends w ctx [emp])
  /\ (pdf_enabled ctx = false -> pdfs obs = []).

Lemma no_send_nil ctx : no_send ctx [].
Proof. split; reflexivity. Qed.

Lemma no_send_app ctx a b :
  no_send ctx a -> no_send ctx b -> no_send ctx (a ++ b).
Proof.
  intros [Sa Pa] [Sb Pb]. split.
  - rewrite sends_app, Sa, Sb. reflexivity.
  - intros H. rewrite pdfs_app, (Pa H), (Pb H). reflexivity.
Qed.

Lemma no_send_own w ctx emp obs : no_send ctx obs -> own_send w ctx emp obs.
Proof. intros [S P]. split; [left; exact S | exact P]. Qed.

Lemma no_send_then_own w ctx emp a b :
  no_send ctx a -> own_send w ctx emp b -> own_send w ctx emp (a ++ b).
Proof.
  intros [Sa Pa] [Sb Pb]. split.
  - rewrite sends_app, Sa. exact Sb.
  - intros H. rewrite pdfs_app, (Pa H), (Pb H). reflexivity.
Qed.

Lemma own_then_no_send w ctx emp a b :
  own_send w ctx emp a -> no_send ctx b -> own_send w ctx emp (a ++ b).
Proof.
  intros [Sa Pa] [Sb Pb]. split.
  - rewrite sends_app, Sb, app_nil_r. exact Sa.
  - intros H. rewrite pdfs_app, (Pa H), (Pb H). reflexivity.
Qed.

Ltac nothing_sent :=
  apply emits_silent;
  [ first [apply no_send_nil | apply no_send_own, no_send_nil]
  | first [apply silent_ret | apply silent_lift_Raise] ].

(** One iteration, however it ends, sends at most the message of its
    record. *)
Lemma process_employee_own_send w ctx ex se emp :
  emits (own_send w ctx emp) (process_employee w ctx ex se emp).
Proof.
  unfold process_employee.
  fold (emp_ref_of emp). fold (emp_name_of emp). fold (emp_email_of emp).
  destruct (is_empty (emp_ref_of emp)) eqn:Eref.
  { apply emits_silent; [apply no_send_own, no_send_nil|].
    apply silent_bind; [apply silent_mark; unobs | intros; apply silent_ret]. }
  pose proof (eq_refl (file_stem_of w ctx emp)) as Estem.
  unfold file_stem_of at 2 in Estem.
  destruct (str_format (strlib w) (filename_pattern ctx) _) as [raw|e].
  2:{ nothing_sent. }
  apply emits_lift_Return. cbv zeta. rewrite <- Estem.
  fold (xlsx_path_of w ctx emp). fold (pdf_path_of w ctx emp).
  eapply emits_bind with (P := no_send ctx) (Q := own_send w ctx emp);
    [ | | apply no_send_own | apply no_send_then_own ].
  { apply emits_call. intros [e|]; split; try reflexivity; intros; reflexivity. }
  intros _.
  eapply emits_bind with (P := no_send ctx) (Q := own_send w ctx emp);
    [ | | apply no_send_own | apply no_send_then_own ].
  { destruct (pdf_enabled ctx) eqn:Hpdf, ex as [exporter|];
      try (apply emits_silent; [apply no_send_nil | apply silent_ret]).
    eapply emits_bind with (P := no_send ctx) (Q := no_send ctx);
      [ | intros; apply emits_silent; [apply no_send_nil | apply silent_ret]
      | auto | apply no_send_app ].
    eapply emits_weaken;
      [|apply emits_with;
         [apply exporter_enter_silent | apply exporter_exit_silent
         | apply export_emits]].
    intros obs [->|[b [[->| ->] ->]]]; split; try reflexivity;
      intros; congruence. }
  intros _.
  eapply emits_bind with (P := own_send w ctx emp) (Q := no_send ctx);
    [ | intros; apply emits_silent; [apply no_send_nil | apply silent_ret]
    | auto | apply own_then_no_send ].
  destruct (email_enabled ctx), se as [sender|]; try nothing_sent.
  destruct (is_empty (emp_email_of emp)) eqn:Eemail.
  { apply emits_mark. simpl. split; [left; reflexivity | reflexivity]. }
  destruct (str_format (strlib w) (subject_tmpl ctx) _) as [subject|e].
  2:{ nothing_sent. }
  apply emits_lift_Return.
  destruct (str_format (strlib w) (body_tmpl ctx) _) as [body|e].
  2:{ nothing_sent. }
  apply emits_lift_Return. cbv zeta.
  eapply emits_weaken;
    [|apply emits_with;
       [apply sender_enter_silent | apply sender_exit_silent
       | apply send_emits]].
  intros obs [->|[b [-> ->]]].
  - apply no_send_own, no_send_nil.
  - split; [right | reflexivity].
    unfold expected_sends, has_ref, has_email. cbn [filter].
    rewrite Eref, Eemail. reflexivity.
Qed.

(** What a completed iteration sends. *)
Lemma sends_expected_main w ctx emp :
  email_enabled ctx = true ->
  sends (expected_main w ctx emp) = expected_sends w ctx [emp].
Proof.
  intros Hemail. unfold expected_main, expected_sends, attachment_of.
  cbn [filter]. rewrite Hemail.
  destruct (has_ref emp), (has_email emp), (pdf_enabled ctx); reflexivity.
Qed.

Lemma pdfs_expected_main w ctx emp :
  pdf_enabled ctx = false -> pdfs (expected_main w ctx emp) = [].
Proof.
  intros Hpdf. unfold expected_main. rewrite Hpdf.
  destruct (has_ref emp), (email_enabled ctx), (has_email emp); reflexivity.
Qed.

Lemma expected_sends_cons w ctx emp rest :
  expected_sends w ctx (emp :: rest)
  = expected_sends w ctx [emp] ++ expected_sends w ctx rest.
Proof.
  unfold expected_sends. cbn [filter].
  destruct (has_ref emp && has_email emp)%bool; reflexivity.
Qed.

Lemma sends_of_completed_run w ctx emps :
  email_enabled ctx = true ->
  sends (flat_map (expected_main w ctx) emps) = expected_sends w ctx emps.
Proof.
  intros Hemail. induction emps as [|emp rest IH]; [reflexivity|].
  cbn [flat_map]. rewrite sends_app, IH, (@sends_expected_main w ctx emp Hemail).
  symmetry. apply expected_sends_cons.
Qed.

Lemma pdfs_of_completed_run w ctx emps :
  pdf_enabled ctx = false -> pdfs (flat_map (expected_main w ctx) emps) = [].
Proof.
  intros Hpdf. induction emps as [|emp rest IH]; [reflexivity|].
  cbn [flat_map]. rewrite pdfs_app, IH, (@pdfs_expected_main w ctx emp Hpdf).
  reflexivity.
Qed.

(** The loop, however it ends, has sent the messages of the first
    records and no others. *)
Lemma employee_loop_sends_first w ctx se emps :
  email_enabled ctx = true -> make_sender ctx = Return se ->
  forall n st,
  exists obs k,
    observe (trace (fst (employee_loop w ctx (make_exporter ctx) se emps n st)))
    = observe (trace st) ++ obs
    /\ sends obs = firstn k (expected_sends w ctx emps)
    /\ (pdf_enabled ctx = false -> pdfs obs = []).
Proof.
  intros Hemail Hse. induction emps as [|emp rest IH]; intros n st.
  - exists [], 0. cbn. rewrite app_nil_r. repeat split; reflexivity.
  - cbn [employee_loop]. unfold bind.
    destruct (process_employee_own_send w ctx (make_exporter ctx) se emp st)
      as [o1 [E1 [S1 P1]]].
    destruct (process_employee w ctx (make_exporter ctx) se emp st)
      as [st1 [counted|e]] eqn:Ep; cbn [fst] in *.
    + destruct (process_employee_returns _ _ _ _ _ _ Ep) as [O1 _].
      rewrite (@expected_in_main w ctx se emp Hse) in O1.
      rewrite O1 in E1. apply app_inv_head in E1. subst o1.
      destruct (IH (if counted then S n else n) st1) as [o2 [k [E2 [S2 P2]]]].
      exists (expected_main w ctx emp ++ o2),
             (List.length (expected_sends w ctx [emp]) + k).
      split; [rewrite E2, O1, app_assoc; reflexivity|]. split.
      * rewrite sends_app, S2, (@sends_expected_main w ctx emp Hemail).
        rewrite (@expected_sends_cons w ctx emp rest). symmetry.
        apply firstn_app_2.
      * intros H. rewrite pdfs_app, (P1 H), (P2 H). reflexivity.
    + destruct S1 as [S1|S1].
      * exists o1, 0. repeat split; assumption.
      * exists o1, (List.length (expected_sends w ctx [emp])).
        split; [exact E1|]. split; [|exact P1].
        rewrite S1, (@expected_sends_cons w ctx emp rest).
        rewrite <- (Nat.add_0_r (List.length (expected_sends w ctx [emp]))).
        rewrite firstn_app_2. cbn [firstn]. rewrite app_nil_r. reflexivity.
Qed.

(** C10. With email on, on every path of a run the calls of
    [send_email] made are the first of the expected ones, none left out
    or swapped: one for each record with a reference and an address, in
    the order of the records, to that record's address, attaching that
    record's workbook when pdf is off and that record's fixed-layout
    file when pdf is on. In a run that completes they are all of them,
    and the workbooks attached are the ones written. With pdf off no
    fixed-layout file is made. *)
Theorem attachment_follows_pdf_capability
    (w : World) (ctx : RunContext) (emps : list Employee) (st : St) :
  email_enabled ctx = true ->
  exists obs,
    observe (trace (fst (main w ctx (Return emps) st)))
      = observe (trace st) ++ obs
    /\ (exists k, sends obs = firstn k (expected_sends w ctx emps))
    /\ (forall n, snd (main w ctx (Return emps) st) = Return n ->
        sends obs = expected_sends w ctx emps
        /\ workbooks obs
           = map (fun e => (xlsx_path_of w ctx e, emp_ref_of e))
                 (filter has_ref emps))
    /\ (pdf_enabled ctx = false -> pdfs obs = []).
Proof.
  intros Hemail.
  destruct (make_sender ctx) as [se|e] eqn:Hse.
  - destruct emps as [|emp rest].
    { exists []. rewrite app_nil_r. split; [reflexivity|].
      split; [exists 0; reflexivity|]. split; [|reflexivity].
      intros n H. discriminate H. }
    rewrite (@main_runs_loop w ctx (emp :: rest) se st) by
      (try discriminate; exact Hse).
    destruct (@employee_loop_sends_first w ctx se (emp :: rest) Hemail Hse 0 st)
      as [obs [k [E [S P]]]].
    exists obs. split; [exact E|]. split; [exists k; exact S|].
    split; [|exact P].
    intros n Hn.
    destruct (employee_loop w ctx (make_exporter ctx) se (emp :: rest) 0 st)
      as [st' r] eqn:El.
    cbn [fst snd] in *. subst r.
    destruct (employee_loop_returns _ _ _ _ _ _ _ El) as [O _].
    rewrite O in E. apply app_inv_head in E. subst obs.
    rewrite (flat_map_ext _ _ (fun e => @expected_in_main w ctx se e Hse)).
    split; [apply sends_of_completed_run, Hemail|].
    clear. induction (emp :: rest) as [|e l IH]; [reflexivity|].
    cbn [flat_map filter]. rewrite workbooks_app, IH.
    unfold expected_main. destruct (has_ref e); [|reflexivity].
    destruct (pdf_enabled ctx), (email_enabled ctx), (has_email e);
      reflexivity.
  - exists []. rewrite app_nil_r.
    assert (Hm : main w ctx (Return emps) st
                 = (st, match emps with
                        | [] => Raise (Exn SystemExit
                            [Lit "No employees found after filtering required columns."])
                        | _ :: _ => Raise e
                        end)).
    { unfold main.
      change (bind (lift (Return emps)) ?k st) with (k emps st). cbv beta.
      destruct emps; [reflexivity|]. rewrite Hse. reflexivity. }
    rewrite Hm. cbn [fst snd].
    split; [reflexivity|]. split; [exists 0; reflexivity|].
    split; [|reflexivity].
    intros n H. destruct emps; discriminate H.
Qed.

Lemma attachment_follows_pdf_capability_witness :
  exists obs,
    observe (trace (fst (main (demo_world []) (demo_ctx false true)
                           (Return three_employees) initial)))
      = observe (trace initial) ++ obs
    /\ sends obs
       = [(py "ann@example.org", Some (py "xlsx/A1_Ann_2026-01.xlsx"));
          (py "cy@example.org", Some (py "xlsx/A3_Cy_2026-01.xlsx"))]
    /\ workbooks obs
       = [(py "xlsx/A1_Ann_2026-01.xlsx", py "A1");
          (py "xlsx/A2_Bob_2026-01.xlsx", py "A2");
          (py "xlsx/A3_Cy_2026-01.xlsx", py "A3")]
    /\ pdfs obs = [].
Proof.
  destruct (@attachment_follows_pdf_capability (demo_world [])
              (demo_ctx false true) three_employees initial eq_refl)
    as [obs [E [_ [C P]]]].
  exists obs. split; [exact E|].
  destruct (C 3) as [S W]; [vm_compute; reflexivity|].
  split; [rewrite S; vm_compute; reflexivity|].
  split; [rewrite W; vm_compute; reflexivity|].
  apply P. reflexivity.
Defined.

(** With pdf off and email on, the workbooks are what is attached. *)
Example attachments_without_pdf :
  sends (observe (trace (fst (main (demo_world []) (demo_ctx false true)
                                (Return three_employees) initial))))
  = [(py "ann@example.org", Some (py "xlsx/A1_Ann_2026-01.xlsx"));
     (py "cy@example.org", Some (py "xlsx/A3_Cy_2026-01.xlsx"))].
Proof. vm_compute. reflexivity. Qed.

End MainSpec.

(* ===================================================================== *)
(** ** Period resolution: what every result satisfies, and the errors *)
(* ===================================================================== *)

Module PeriodExtra.
Import Period PeriodSpec.
Local Open Scope Z_scope.

Lemma make_date_returns y m d x :
  make_date y m d = Return x ->
  x = mkdate y m d
  /\ MINYEAR <= y <= MAXYEAR /\ 1 <= m <= 12 /\ 1 <= d <= days_in_month y m.
Proof.
  unfold make_date.
  destruct (Z.leb_spec MINYEAR y), (Z.leb_spec y MAXYEAR); simpl;
    try discriminate.
  destruct (Z.leb_spec 1 m), (Z.leb_spec m 12); simpl; try discriminate.
  destruct (Z.leb_spec 1 d), (Z.leb_spec d (days_in_month y m)); simpl;
    try discriminate.
  intros E. inversion E. repeat split; assumption.
Qed.

(** Whatever the mode and the configured values, a period that
    [resolve_period] returns names a month of the calendar: the year is
    within 1..9999 and the month within 1..12, and the payslip date is
    the first day of that month, formatted. *)
Theorem resolve_period_names_a_month
    (sl : StrLib) (dl : DateLib) (cfg : PeriodConfig) (info : PeriodInfo) :
  resolve_period sl dl cfg = Return info ->
  MINYEAR <= year info <= MAXYEAR
  /\ 1 <= month info <= 12
  /\ payslip_date_str info
     = strftime dl (mkdate (year info) (month info) 1)
         (get_default (payslip_date_format cfg) (py "%d %B %Y")).
Proof.
  unfold resolve_period.
  destruct (main_ref_dt dl cfg) as [d|e]; [|discriminate]. simpl py_bind.
  match goal with
  | |- py_bind ?E _ = _ -> _ => destruct E as [[y m]|e]; [|discriminate]
  end.
  simpl py_bind.
  destruct (make_date y m 1) as [first|e] eqn:Ed; [|discriminate].
  apply make_date_returns in Ed. destruct Ed as [-> [Hy [Hm _]]].
  simpl py_bind.
  destruct (str_format sl _ _) as [pid|e]; [|discriminate]. simpl py_bind.
  destruct (str_format sl _ _) as [pdisp|e]; [|discriminate]. simpl py_bind.
  intros E. inversion E; subst. simpl.
  split; [exact Hy|]. split; [exact Hm | reflexivity].
Qed.

Lemma resolve_period_names_a_month_witness :
  exists info,
    resolve_period PeriodSpec.demo_strlib demo_datelib (demo_cfg "2026-03-10")
      = Return info
    /\ MINYEAR <= year info <= MAXYEAR /\ 1 <= month info <= 12.
Proof.
  eexists. split; [reflexivity|].
  destruct (@resolve_period_names_a_month PeriodSpec.demo_strlib demo_datelib
              (demo_cfg "2026-03-10") _ eq_refl) as [Hy [Hm _]].
  split; [exact Hy | exact Hm].
Defined.

(** A pay period that [resolve_pay_period] returns spans one month of
    the calendar: it starts on the first day and ends on the last day of
    the resolved month (28, 29, 30 or 31, leap years included), and both
    are dates. *)
Theorem resolve_pay_period_spans_the_month
    (sl : StrLib) (dl : DateLib) (cfg : PeriodConfig) (pp : PayPeriod) :
  resolve_pay_period sl dl cfg = Return pp ->
  MINYEAR <= pp_year pp <= MAXYEAR
  /\ 1 <= pp_month pp <= 12
  /\ pp_start_date pp = mkdate (pp_year pp) (pp_month pp) 1
  /\ pp_end_date pp
     = mkdate (pp_year pp) (pp_month pp)
         (days_in_month (pp_year pp) (pp_month pp))
  /\ valid_date (pp_start_date pp) /\ valid_date (pp_end_date pp)
  /\ pp_month_name pp = calendar_month_name dl (pp_month pp).
Proof.
  unfold resolve_pay_period.
  destruct (util_ref_date dl cfg) as [d|e]; [|discriminate]. simpl py_bind.
  match goal with
  | |- py_bind ?E _ = _ -> _ => destruct E as [[y m]|e]; [|discriminate]
  end.
  simpl py_bind. unfold month_name_at.
  destruct ((0 <=? m) && (m <=? 12))%bool eqn:Em.
  2:{ destruct ((-13 <=? m) && (m <? 0))%bool eqn:Em'.
      - simpl py_bind.
        destruct (make_date y m 1) as [first|e] eqn:Ed; [|discriminate].
        apply make_date_returns in Ed. exfalso.
        apply andb_true_iff in Em'. destruct Em' as [_ Hneg].
        apply Z.ltb_lt in Hneg. lia.
      - discriminate. }
  simpl py_bind.
  destruct (make_date y m 1) as [first|e] eqn:Ed; [|discriminate].
  apply make_date_returns in Ed. destruct Ed as [-> [Hy [Hm Hd]]].
  simpl py_bind.
  destruct (make_date y m (days_in_month y m)) as [last|e] eqn:El;
    [|discriminate].
  apply make_date_returns in El. destruct El as [-> [_ [_ Hl]]].
  simpl py_bind.
  destruct (id_format cfg) as [idf|]; [|discriminate]. simpl.
  destruct (str_format sl idf _) as [pid|e]; [|discriminate]. simpl py_bind.
  destruct (display_format cfg) as [dsf|]; [|discriminate]. simpl.
  destruct (str_format sl dsf _) as [pdisp|e]; [|discriminate]. simpl py_bind.
  intros E. inversion E; subst. simpl.
  repeat split; try assumption; try reflexivity; simpl; lia.
Qed.

Lemma resolve_pay_period_spans_the_month_witness :
  exists pp,
    resolve_pay_period PeriodSpec.demo_strlib demo_datelib
      (demo_cfg "2026-03-10") = Return pp
    /\ pp_start_date pp = mkdate 2026 2 1
    /\ pp_end_date pp = mkdate 2026 2 28.
Proof.
  eexists. split; [reflexivity|].
  destruct (@resolve_pay_period_spans_the_month PeriodSpec.demo_strlib
              demo_datelib (demo_cfg "2026-03-10") _ eq_refl)
    as [_ [_ [Hs [He _]]]].
  split; [exact Hs | exact He].
Defined.

Definition bad_reference_date : exn :=
  Exn SystemExit
    [Lit "Invalid run.reference_date. Expected YYYY-MM-DD (e.g. 2026-01-25)."].

Definition bad_period_mode : exn :=
  Exn SystemExit
    [Lit "Invalid run.period_mode.";
     Lit "Allowed values: auto_previous_month, auto_current_month, manual"].

Definition known_mode (mode : pystr) : Prop :=
  mode = py "manual" \/ mode = py "auto_current_month"
  \/ mode = py "auto_previous_month".

Lemma unknown_mode_tests mode :
  ~ known_mode mode ->
  pystr_eqb mode (py "manual") = false
  /\ pystr_eqb mode (py "auto_current_month") = false
  /\ pystr_eqb mode (py "auto_previous_month") = false.
Proof.
  intros H. unfold known_mode in H.
  repeat split;
    match goal with
    | |- pystr_eqb ?a ?b = false =>
        destruct (pystr_eqb a b) eqn:E; [|reflexivity];
        apply PyBaseFacts.pystr_eqb_eq in E; tauto
    end.
Qed.

(** [resolve_period] stops the program with [SystemExit] on a reference
    date that is given (not empty after trimming) and does not parse,
    whatever the mode is; and, once the reference date is settled, on a
    mode that after trimming and lower-casing is none of the three. *)
Theorem resolve_period_rejects_bad_settings
    (sl : StrLib) (dl : DateLib) (cfg : PeriodConfig) :
  (strip (get_default (reference_date cfg) []) <> [] ->
   strptime_ymd dl (strip (get_default (reference_date cfg) [])) = None ->
   resolve_period sl dl cfg = Raise bad_reference_date)
  /\
  (forall d, main_ref_dt dl cfg = Return d ->
   ~ known_mode (main_mode sl cfg) ->
   resolve_period sl dl cfg = Raise bad_period_mode).
Proof.
  split.
  - intros Hne Hparse. unfold resolve_period, main_ref_dt.
    destruct (strip (get_default (reference_date cfg) [])) as [|c t];
      [congruence|].
    cbn [is_empty negb]. rewrite Hparse. reflexivity.
  - intros d Href Hmode. unfold resolve_period. rewrite Href.
    destruct (unknown_mode_tests Hmode) as [E1 [E2 E3]].
    simpl py_bind. rewrite E1, E2, E3. reflexivity.
Qed.

Lemma resolve_period_rejects_bad_settings_witness :
  resolve_period PeriodSpec.demo_strlib demo_datelib (demo_cfg "25/01/2026")
  = Raise bad_reference_date.
Proof.
  apply (proj1 (@resolve_period_rejects_bad_settings PeriodSpec.demo_strlib
                  demo_datelib (demo_cfg "25/01/2026"))).
  - vm_compute. discriminate.
  - reflexivity.
Defined.

(** The steps of [resolve_period] after the year and the month are
    known. *)
Ltac finish_period Hf y m Hy Hm :=
  let Hid := fresh "Hid" in
  let Hdisp := fresh "Hdisp" in
  destruct Hf as [Hid Hdisp]; unfold main_kwargs in Hid, Hdisp;
  rewrite (make_date_ok (d:=1) Hy Hm)
    by (pose proof (days_in_month_ge_28 y m); lia);
  simpl py_bind;
  (let s := fresh "s" in destruct (format_returns _ _ _ Hid) as [s ->]);
  simpl py_bind;
  (let s := fresh "s" in destruct (format_returns _ _ _ Hdisp) as [s ->]);
  simpl py_bind.





(** In manual mode, which is also what [resolve_period] assumes when no
    mode is configured, the year and the month come from the
    configuration where they are given and from the reference date
    where they are not, each on its own. [resolve_pay_period] has no
    such fallback: without a configured year it raises [KeyError]. *)
Theorem manual_mode_falls_back_only_in_resolve_period
    (sl : StrLib) (dl : DateLib) (cfg : PeriodConfig) (d : date) :
  main_templates_format sl dl cfg
    (get_default (manual_year cfg) (d_year d))
    (get_default (manual_month cfg) (d_month d)) ->
  main_mode sl cfg = py "manual" ->
  main_ref_dt dl cfg = Return d ->
  MINYEAR <= get_default (manual_year cfg) (d_year d) <= MAXYEAR ->
  1 <= get_default (manual_month cfg) (d_month d) <= 12 ->
  (exists info, resolve_period sl dl cfg = Return info
     /\ year info = get_default (manual_year cfg) (d_year d)
     /\ month info = get_default (manual_month cfg) (d_month d))
  /\ (util_mode cfg = py "manual" -> util_ref_date dl cfg = Return d ->
      manual_year cfg = None ->
      exists e, resolve_pay_period sl dl cfg = Raise e
                /\ exn_cls e = KeyError).
Proof.
  intros Hf Hmode Href Hy Hm. split.
  - unfold resolve_period. rewrite Hmode, Href. simpl py_bind.
    change (pystr_eqb (py "manual") (py "manual")) with true. cbv iota.
    simpl py_bind.
    finish_period Hf (get_default (manual_year cfg) (d_year d))
      (get_default (manual_month cfg) (d_month d)) Hy Hm.
    eexists. split; [reflexivity|]. split; reflexivity.
  - intros Hum Hur Hnone. unfold resolve_pay_period.
    rewrite Hum, Hur, Hnone. eexists. split; reflexivity.
Qed.

Definition manual_cfg : PeriodConfig :=
  {| period_mode := None;
     reference_date := Some (py "2026-03-10");
     manual_year := None; manual_month := Some 7;
     id_format := None; display_format := None;
     payslip_date_format := None |}.

Lemma manual_mode_falls_back_only_in_resolve_period_witness :
  exists info,
    resolve_period format_strlib demo_datelib manual_cfg = Return info
    /\ year info = 2026 /\ month info = 7.
Proof.
  apply (proj1 (@manual_mode_falls_back_only_in_resolve_period
                  format_strlib demo_datelib manual_cfg
                  (mkdate 2026 3 10) (conj eq_refl eq_refl) eq_refl eq_refl
                  ltac:(vm_compute; split; intro; discriminate)
                  ltac:(vm_compute; split; intro; discriminate))).
Defined.

End PeriodExtra.

(* ===================================================================== *)
(** ** [safe_filename]: fixed points, length, the empty stem *)
(* ===================================================================== *)

Module SafeFilenameExtra.
Import SafeFilename PyBaseFacts SafeFilenameSpec.
Local Open Scope N_scope.

(** The names [safe_filename] leaves alone are exactly the names that
    hold none of the characters it replaces, no whitespace, and fit the
    cap. *)
Theorem safe_filename_fixed_points (s : pystr) (max_len : Z) :
  (0 <= max_len)%Z ->
  (safe_filename s max_len = s
   <-> Forall (fun c => illegal_char c = false /\ isspace c = false) s
       /\ (Z.of_nat (List.length s) <= max_len)%Z).
Proof.
  intros Hcap. split.
  - intros E. rewrite <- E. split.
    + apply safe_filename_clean.
    + apply safe_filename_length, Hcap.
  - intros [Hc Hl]. apply safe_filename_fixes_clean; assumption.
Qed.

Lemma safe_filename_fixed_points_witness :
  safe_filename (py "A1_Ann_2026-01") 80 = py "A1_Ann_2026-01".
Proof.
  apply (proj2 (@safe_filename_fixed_points (py "A1_Ann_2026-01") 80
                  ltac:(discriminate))).
  split; [|vm_compute; discriminate].
  vm_compute. repeat constructor.
Defined.

Lemma re_sub_runs_length cls r b s :
  (List.length (re_sub_runs cls [r] b s) <= List.length s)%nat.
Proof.
  revert b. induction s as [|c t IH]; intros b; simpl; [lia|].
  destruct (cls c).
  - destruct b; [specialize (IH true); lia|].
    simpl. specialize (IH true). lia.
  - simpl. specialize (IH false). lia.
Qed.

Lemma lstrip_length s : (List.length (lstrip s) <= List.length s)%nat.
Proof.
  induction s as [|c t IH]; simpl; [lia|].
  destruct (isspace c); simpl; lia.
Qed.

Lemma strip_length s : (List.length (strip s) <= List.length s)%nat.
Proof.
  unfold strip, rstrip. rewrite length_rev.
  pose proof (lstrip_length (rev (lstrip s))) as H1.
  rewrite length_rev in H1. pose proof (lstrip_length s). lia.
Qed.

(** Sanitizing never makes a name longer, whatever the cap. *)
Theorem safe_filename_never_longer (s : pystr) (max_len : Z) :
  (List.length (safe_filename s max_len) <= List.length s)%nat.
Proof.
  unfold safe_filename, re_sub.
  set (s1 := re_sub_runs illegal_char (py "_") false s).
  set (s2 := strip (re_sub_runs isspace (py " ") false s1)).
  assert (H1 : (List.length s1 <= List.length s)%nat)
    by apply re_sub_runs_length.
  assert (H2 : (List.length s2 <= List.length s1)%nat).
  { unfold s2.
    pose proof (strip_length (re_sub_runs isspace (py " ") false s1)) as Ha.
    pose proof (re_sub_runs_length isspace 0x20 false s1) as Hb.
    change [0x20] with (py " ") in Hb. lia. }
  assert (H3 : List.length (replace_space s2) = List.length s2)
    by (unfold replace_space; apply length_map).
  destruct (_ >? _)%Z; [|lia].
  unfold slice_to. destruct (0 <=? max_len)%Z; rewrite length_firstn; lia.
Qed.

Lemma re_sub_runs_kept (P : pychar -> Prop) cls r s :
  ~ P r ->
  Forall P (re_sub_runs cls [r] false s) ->
  Forall (fun c => cls c = false /\ P c) s.
Proof.
  intros Hr. induction s as [|c t IH]; simpl; [constructor|].
  destruct (cls c) eqn:E.
  - simpl. intros H. inversion H; subst. contradiction.
  - intros H. inversion H; subst. constructor; [split; assumption|].
    apply IH. assumption.
Qed.

Lemma re_sub_runs_keeps_others cls repl b s c :
  cls c = false -> In c s -> In c (re_sub_runs cls repl b s).
Proof.
  intros Ec. revert b. induction s as [|x t IH]; intros b Hc; [contradiction|].
  simpl. destruct Hc as [->|Hc].
  - rewrite Ec. left. reflexivity.
  - destruct (cls x).
    + destruct b; [apply IH, Hc|].
      apply in_or_app. right. apply IH, Hc.
    + right. apply IH, Hc.
Qed.

(** With a cap of at least one character, the sanitized name is empty
    exactly when the raw name is blank: made of whitespace only, none
    of it a line feed, carriage return or tab (those are replaced by an
    underscore first). The empty raw name is the simplest case. *)
Theorem safe_filename_empty_iff_blank (s : pystr) (max_len : Z) :
  (0 < max_len)%Z ->
  (safe_filename s max_len = []
   <-> Forall (fun c => illegal_char c = false /\ isspace c = true) s).
Proof.
  intros Hcap. unfold safe_filename, re_sub. split.
  - set (s1 := re_sub_runs illegal_char (py "_") false s).
    set (s2 := strip (re_sub_runs isspace (py " ") false s1)).
    intros Hout.
    assert (H3 : replace_space s2 = []).
    { destruct (replace_space s2) as [|c t] eqn:E; [reflexivity|].
      exfalso. revert Hout.
      destruct (_ >? _)%Z; [|discriminate].
      unfold slice_to. destruct (Z.leb_spec 0 max_len); [|lia].
      destruct (Z.to_nat max_len) eqn:En; [lia|]. discriminate. }
    assert (H2 : s2 = []).
    { destruct s2; [reflexivity | discriminate H3]. }
    apply strip_nil_all_space in H2.
    assert (Hs1 : Forall (fun c => isspace c = true) s1).
    { (* characters that are not whitespace are kept by the second
         substitution, so none can be in [s1] *)
      apply Forall_forall. intros c Hc.
      destruct (isspace c) eqn:Ec; [reflexivity|]. exfalso.
      assert (Hin : In c (re_sub_runs isspace (py " ") false s1))
        by (apply re_sub_runs_keeps_others; assumption).
      rewrite Forall_forall in H2. specialize (H2 c Hin). congruence. }
    unfold s1 in Hs1.
    apply (@re_sub_runs_kept (fun c => isspace c = true) illegal_char 0x5F s);
      [discriminate | exact Hs1].
  - intros Hs.
    assert (Hi : Forall (fun c => illegal_char c = false) s)
      by (eapply Forall_impl; [|exact Hs]; intros c [H _]; exact H).
    assert (Hw : Forall (fun c => isspace c = true) s)
      by (eapply Forall_impl; [|exact Hs]; intros c [_ H]; exact H).
    rewrite (@re_sub_runs_id illegal_char (py "_") false s Hi).
    rewrite strip_all_space.
    + simpl. destruct (Z.gtb_spec 0 max_len); [lia | reflexivity].
    + apply re_sub_runs_Forall; [repeat constructor | exact Hw].
Qed.

Lemma safe_filename_empty_iff_blank_witness :
  safe_filename (py "   ") 80 = [].
Proof.
  apply (proj2 (@safe_filename_empty_iff_blank (py "   ") 80 eq_refl)).
  repeat constructor.
Defined.

End SafeFilenameExtra.

(* ===================================================================== *)
(** ** [load_employees]: what every result satisfies, and the failures *)
(* ===================================================================== *)

Module LoadDataExtra.
Import LoadData PyBaseFacts LoadDataSpec.

Lemma lstrip_snoc a c :
  isspace c = false -> lstrip (a ++ [c]) = lstrip a ++ [c].
Proof.
  intros Hc. induction a as [|x a IH]; simpl.
  - rewrite Hc. reflexivity.
  - destruct (isspace x); [exact IH | reflexivity].
Qed.

Lemma lstrip_idempotent s : lstrip (lstrip s) = lstrip s.
Proof.
  induction s as [|c t IH]; simpl; [reflexivity|].
  destruct (isspace c) eqn:E; [exact IH|]. simpl. rewrite E. reflexivity.
Qed.

(** Trimming a trimmed string changes nothing. *)
Lemma strip_idempotent s : strip (strip s) = strip s.
Proof.
  unfold strip, rstrip.
  set (t := lstrip s).
  assert (Ht : lstrip t = t) by apply lstrip_idempotent.
  assert (Hl : lstrip (rev (lstrip (rev t))) = rev (lstrip (rev t))).
  { destruct t as [|c t'] eqn:Et; [reflexivity|].
    assert (Hc : isspace c = false).
    { simpl in Ht. destruct (isspace c) eqn:E; [|reflexivity].
      exfalso. pose proof (SafeFilenameExtra.lstrip_length t') as Hlen.
      rewrite Ht in Hlen. simpl in Hlen. lia. }
    simpl rev. rewrite (@lstrip_snoc (rev t') c Hc), rev_app_distr. simpl.
    rewrite Hc. reflexivity. }
  rewrite Hl, rev_involutive, lstrip_idempotent. reflexivity.
Qed.

(** A record as [load_employees] builds it: the three keys, each with
    a value that has no whitespace at either end. *)
Definition trimmed_record (e : Employee) : Prop :=
  exists ref name email,
    e = [("ref"%string, ref); ("name"%string, name); ("email"%string, email)]
    /\ strip ref = ref /\ strip name = name /\ strip email = email.

Lemma cell_strip_returns c v : cell_strip c = Return v -> strip v = v.
Proof.
  destruct c as [s|]; simpl; [|discriminate].
  intros E. inversion E. apply strip_idempotent.
Qed.

Lemma employee_of_row_trimmed cols ref name email row e :
  employee_of_row cols ref name email row = Return e -> trimmed_record e.
Proof.
  unfold employee_of_row.
  destruct (row_get cols row ref) as [c1|x]; [|discriminate]. simpl py_bind.
  destruct (cell_strip c1) as [v1|x] eqn:E1; [|discriminate]. simpl py_bind.
  destruct (row_get cols row name) as [c2|x]; [|discriminate]. simpl py_bind.
  destruct (cell_strip c2) as [v2|x] eqn:E2; [|discriminate]. simpl py_bind.
  destruct (row_get cols row email) as [c3|x]; [|discriminate]. simpl py_bind.
  destruct (cell_strip c3) as [v3|x] eqn:E3; [|discriminate]. simpl py_bind.
  intros E. inversion E; subst. exists v1, v2, v3.
  split; [reflexivity|].
  split; [|split]; eapply cell_strip_returns; eassumption.
Qed.

Lemma build_employees_trimmed cols ref name email rows acc emps :
  Forall trimmed_record acc ->
  build_employees cols ref name email rows acc = Return emps ->
  Forall trimmed_record emps.
Proof.
  revert acc. induction rows as [|row rest IH]; intros acc Hacc; simpl.
  - intros E. inversion E; subst. exact Hacc.
  - destruct (employee_of_row cols ref name email row) as [e|x] eqn:Ee;
      [|discriminate].
    simpl py_bind. apply IH. apply Forall_app. split; [exact Hacc|].
    constructor; [|constructor]. eapply employee_of_row_trimmed, Ee.
Qed.

(** Whatever the frame and the column bindings, every record that
    [load_employees] returns has exactly the keys ref, name and email,
    and none of the three values starts or ends with whitespace. *)
Theorem load_employees_returns_trimmed_records
    (read_excel : Py DataFrame) (reference_col name_col email_col : pystr)
    (required : list pystr) (employees : list Employee) :
  load_employees read_excel reference_col name_col email_col required
    = Return employees ->
  Forall trimmed_record employees.
Proof.
  unfold load_employees.
  destruct read_excel as [df|x]; [|discriminate]. simpl py_bind.
  destruct (filter _ required); [|discriminate].
  destruct (dropna df required) as [clean|x]; [|discriminate].
  simpl py_bind. apply build_employees_trimmed. constructor.
Qed.

Lemma load_employees_returns_trimmed_records_witness :
  Forall trimmed_record
    [ [("ref"%string, py "A1"); ("name"%string, py "Ann Lee");
       ("email"%string, py "ann@example.org")];
      [("ref"%string, py "A3"); ("name"%string, py "Cy");
       ("email"%string, py "cy@example.org")] ].
Proof.
  apply (@load_employees_returns_trimmed_records (Return demo_frame)
           (py "Reference Number") (py "Employee Name") (py "Email")
           demo_columns).
  reflexivity.
Defined.

Definition missing_columns_error (missing : list pystr) : exn :=
  Exn ValueError
    [Lit "Missing required columns in Data Source: "; StrList missing].

(** When the reference, name and email columns are among the required
    ones, which is what [main] passes unless the configuration says
    otherwise, loading a frame has two outcomes only: the records, or
    the [ValueError] that lists the missing columns. No row can make
    it fail. *)
Theorem load_employees_cannot_fail_on_a_row
    (df : DataFrame) (reference_col name_col email_col : pystr)
    (required : list pystr) :
  In reference_col required -> In name_col required ->
  In email_col required ->
  (exists employees,
     load_employees (Return df) reference_col name_col email_col required
       = Return employees)
  \/ (exists c missing,
        load_employees (Return df) reference_col name_col email_col required
          = Raise (missing_columns_error (c :: missing))).
Proof.
  intros Hr Hn He. unfold load_employees. simpl py_bind.
  destruct (filter (fun col => negb (has_column (columns df) col)) required)
    as [|c missing] eqn:Emiss.
  - left. unfold dropna. rewrite Emiss. simpl py_bind. simpl columns.
    simpl rows. eexists.
    apply build_employees_complete with (required := required);
      try assumption.
    apply Forall_forall. intros row Hin. apply filter_In in Hin. tauto.
  - right. exists c, missing. reflexivity.
Qed.

Lemma load_employees_cannot_fail_on_a_row_witness :
  exists employees,
    load_employees (Return demo_frame) (py "Reference Number")
      (py "Employee Name") (py "Email") demo_columns = Return employees.
Proof.
  destruct (@load_employees_cannot_fail_on_a_row demo_frame
              (py "Reference Number") (py "Employee Name") (py "Email")
              demo_columns)
    as [H|[c [missing H]]].
  - simpl. auto.
  - simpl. auto.
  - simpl. auto.
  - exact H.
  - vm_compute in H. discriminate H.
Defined.

Definition no_strip_error : exn :=
  Exn AttributeError [Lit "'float' object has no attribute 'strip'"].

(** A row that is kept and has the missing value under one of the
    three bound columns. *)
Definition unusable_row (cols required : list pystr)
    (reference_col name_col email_col : pystr) (row : list Cell) : Prop :=
  row_complete cols required row = true
  /\ (cell_of cols row reference_col = None
      \/ cell_of cols row name_col = None
      \/ cell_of cols row email_col = None).

Lemma employee_of_row_outcomes cols ref name email row :
  In ref cols -> In name cols -> In email cols ->
  (exists e, employee_of_row cols ref name email row = Return e
             /\ cell_of cols row ref <> None /\ cell_of cols row name <> None
             /\ cell_of cols row email <> None)
  \/ employee_of_row cols ref name email row = Raise no_strip_error.
Proof.
  intros Hr Hn He. unfold employee_of_row, cell_of, row_get.
  destruct (index_of_In _ _ Hr) as [i1 ->].
  destruct (index_of_In _ _ Hn) as [i2 ->].
  destruct (index_of_In _ _ He) as [i3 ->].
  simpl py_bind.
  destruct (nth i1 row None) as [s1|]; [|right; reflexivity]. simpl.
  destruct (nth i2 row None) as [s2|]; [|right; reflexivity]. simpl.
  destruct (nth i3 row None) as [s3|]; [|right; reflexivity]. simpl.
  left. eexists. split; [reflexivity|]. repeat split; discriminate.
Qed.

Lemma build_employees_unusable cols ref name email rows acc :
  In ref cols -> In name cols -> In email cols ->
  Exists (fun row => cell_of cols row ref = None
                     \/ cell_of cols row name = None
                     \/ cell_of cols row email = None) rows ->
  build_employees cols ref name email rows acc = Raise no_strip_error.
Proof.
  intros Hr Hn He Hex. revert acc.
  induction rows as [|row rest IH]; intros acc; [inversion Hex|].
  simpl.
  destruct (employee_of_row_outcomes cols ref name email row Hr Hn He)
    as [[e [E [N1 [N2 N3]]]]|E]; rewrite E; [|reflexivity].
  simpl py_bind. apply IH.
  inversion Hex as [? ? Hbad|? ? Hrest]; subst; [|exact Hrest].
  exfalso. destruct Hbad as [H|[H|H]]; congruence.
Qed.

(** When one of the three bound columns is left out of the required
    ones, a kept row with nothing in that column makes the whole load
    fail with [AttributeError]: no record is returned, not even those of
    the rows before it. *)
Theorem load_employees_fails_on_unrequired_blank
    (df : DataFrame) (reference_col name_col email_col : pystr)
    (required : list pystr) :
  (forall c, In c required -> In c (columns df)) ->
  In reference_col (columns df) -> In name_col (columns df) ->
  In email_col (columns df) ->
  Exists (unusable_row (columns df) required reference_col name_col email_col)
         (rows df) ->
  load_employees (Return df) reference_col name_col email_col required
  = Raise no_strip_error.
Proof.
  intros Hcols Hr Hn He Hex.
  unfold load_employees. simpl py_bind.
  rewrite (no_missing_columns _ _ Hcols).
  unfold dropna. rewrite (no_missing_columns _ _ Hcols).
  simpl py_bind. simpl columns. simpl rows.
  apply build_employees_unusable; try assumption.
  apply Exists_exists in Hex. destruct Hex as [row [Hin [Hkept Hbad]]].
  apply Exists_exists. exists row. split; [|exact Hbad].
  apply filter_In. split; assumption.
Qed.

Lemma load_employees_fails_on_unrequired_blank_witness :
  load_employees (Return demo_frame) (py "Reference Number")
    (py "Employee Name") (py "Email") [py "Reference Number"]
  = Raise no_strip_error.
Proof.
  apply (@load_employees_fails_on_unrequired_blank demo_frame
           (py "Reference Number") (py "Employee Name") (py "Email")
           [py "Reference Number"]).
  - intros c [<-|[]]. simpl. auto.
  - simpl. auto.
  - simpl. auto.
  - simpl. auto.
  - apply Exists_cons_tl. apply Exists_cons_hd.
    split; [reflexivity|]. right. left. reflexivity.
Defined.

End LoadDataExtra.

(* ===================================================================== *)
(** ** Which calls a computation can make *)
(* ===================================================================== *)

Module TraceFacts.
Import Effects EffectsFacts.

(** Every event the computation adds to the trace satisfies [Q]. *)
Definition only {A} (Q : Event -> Prop) (m : M A) : Prop :=
  forall st, exists added,
    trace (fst (m st)) = trace st ++ added /\ Forall Q added.

Section Only.
Variable Q : Event -> Prop.

Lemma only_nothing {A} (m : M A) :
  (forall st, trace (fst (m st)) = trace st) -> only Q m.
Proof.
  intros H st. exists []. rewrite app_nil_r. split; [apply H | constructor].
Qed.

Lemma only_ret {A} (a : A) : only Q (ret a).
Proof. apply only_nothing. reflexivity. Qed.

Lemma only_raise {A} e : only Q (@raise A e).
Proof. apply only_nothing. reflexivity. Qed.

Lemma only_lift {A} (r : Py A) : only Q (lift r).
Proof. apply only_nothing. reflexivity. Qed.

Lemma only_get : only Q get.
Proof. apply only_nothing. reflexivity. Qed.

Lemma only_set_excel b : only Q (set_excel b).
Proof. apply only_nothing. reflexivity. Qed.

Lemma only_set_outlook b : only Q (set_outlook b).
Proof. apply only_nothing. reflexivity. Qed.

Lemma only_call w c : (forall r, Q (c, r)) -> only Q (call w c).
Proof.
  intros H st. exists [(c, outcome w (trace st) c)].
  split; [reflexivity | constructor; [apply H | constructor]].
Qed.

Lemma only_call_quietly w c : (forall r, Q (c, r)) -> only Q (call_quietly w c).
Proof.
  intros H st. exists [(c, outcome w (trace st) c)].
  split; [reflexivity | constructor; [apply H | constructor]].
Qed.

Lemma only_mark c : Q (c, None) -> only Q (mark c).
Proof.
  intros H st. exists [(c, None)].
  split; [reflexivity | constructor; [exact H | constructor]].
Qed.

Lemma only_bind {A B} (m : M A) (k : A -> M B) :
  only Q m -> (forall a, only Q (k a)) -> only Q (bind m k).
Proof.
  intros Hm Hk st. unfold bind.
  destruct (Hm st) as [a1 [E1 F1]].
  destruct (m st) as [st1 [a|e]]; cbn [fst] in *.
  - destruct (Hk a st1) as [a2 [E2 F2]].
    exists (a1 ++ a2). rewrite E2, E1, app_assoc.
    split; [reflexivity | apply Forall_app; split; assumption].
  - exists a1. split; assumption.
Qed.

Lemma only_finally {A} (body : M A) (cleanup : M unit) :
  only Q body -> only Q cleanup -> only Q (finally_ body cleanup).
Proof.
  intros Hb Hc st. unfold finally_.
  destruct (Hb st) as [a1 [E1 F1]].
  destruct (body st) as [st1 r]; cbn [fst] in *.
  destruct (Hc st1) as [a2 [E2 F2]].
  exists (a1 ++ a2).
  destruct (cleanup st1) as [st2 [u|e]]; cbn [fst] in *;
    rewrite E2, E1, app_assoc;
    (split; [reflexivity | apply Forall_app; split; assumption]).
Qed.

Lemma only_lift_Return {A B} (a : A) (k : A -> M B) :
  only Q (k a) -> only Q (bind (lift (Return a)) k).
Proof. intros H st. exact (H st). Qed.

Lemma only_lift_Raise {A B} (e : exn) (k : A -> M B) :
  only Q (bind (lift (Raise e)) k).
Proof. apply only_nothing. reflexivity. Qed.

Lemma only_with {A} s (enter exit : M unit) (body : M A) :
  (forall r, Q (Enter s, r)) -> (forall r, Q (Exit s, r)) ->
  only Q enter -> only Q exit -> only Q body ->
  only Q (with_ s enter exit body).
Proof.
  intros Qe Qx He Hx Hb st. unfold with_.
  destruct (He st) as [a1 [E1 F1]].
  destruct (enter st) as [st1 [u|e]]; cbn [fst] in E1.
  - destruct (Hb (record (Enter s) None st1)) as [a2 [E2 F2]].
    destruct (body (record (Enter s) None st1)) as [st2 r]; cbn [fst] in E2.
    destruct (Hx st2) as [a3 [E3 F3]].
    assert (Hfin : forall r',
              trace (record (Exit s) r' (fst (exit st2)))
              = trace st ++ (a1 ++ [(Enter s, None)] ++ a2 ++ a3
                             ++ [(Exit s, r')])).
    { intros r'. rewrite trace_record, E3, E2, trace_record, E1.
      rewrite <- !app_assoc. reflexivity. }
    assert (Hall : forall r',
              Forall Q (a1 ++ [(Enter s, None)] ++ a2 ++ a3 ++ [(Exit s, r')])).
    { intros r'. repeat (apply Forall_app; split); try assumption.
      - constructor; [apply Qe | constructor].
      - constructor; [apply Qx | constructor]. }
    destruct (exit st2) as [st3 [u'|e']]; cbn [fst] in *;
      eexists; (split; [apply Hfin | apply Hall]).
  - exists (a1 ++ [(Enter s, Some e)]). cbn [fst].
    rewrite trace_record, E1, <- app_assoc.
    split; [reflexivity|]. apply Forall_app. split; [exact F1|].
    constructor; [apply Qe | constructor].
Qed.

End Only.

Ltac only_steps :=
  repeat first
    [ progress cbv beta iota
    | apply only_ret | apply only_raise | apply only_get | apply only_lift
    | apply only_set_excel | apply only_set_outlook
    | apply only_bind; [|intros]
    | apply only_finally
    | match goal with
      | |- only _ (if ?b then _ else _) => destruct b
      | |- only _ (match ?x with _ => _ end) => destruct x
      end ].

End TraceFacts.

(* ===================================================================== *)
(** ** [OutlookEmailSender]: what a send does and does not do *)
(* ===================================================================== *)

Module OutlookSenderExtra.
Import Effects EffectsFacts TraceFacts OutlookSender OutlookSenderSpec.

Lemma send_email_calls (Q : Event -> Prop) w self to_address subject body
    attachment mailbox (final : Call) :
  final = (if pystr_eqb (send_mode self) (py "display") then OlDisplay
           else OlSend) ->
  (forall r, Q (final, r)) ->
  (forall c r, hands_over c = false -> Q (c, r)) ->
  (forall p r, Q (OlAttachmentsAdd p, r)) ->
  only Q (send_email w self to_address subject body attachment mailbox).
Proof.
  intros Ef Qf Qc Qa. unfold send_email.
  destruct (pystr_eqb (send_mode self) (py "display")); subst final;
    only_steps; apply only_call; intros;
    first [apply Qf | apply Qa | apply Qc; reflexivity].
Qed.

(** The mode decides how the message leaves, on every path: a sender in
    display mode never calls [Send], and a sender in any other mode
    never calls [Display]. *)
Theorem send_mode_decides_how_mail_leaves
    (w : World) (self : OutlookEmailSender) (to_address subject body : pystr)
    (attachment_path sender_mailbox : option pystr) (st : St) :
  exists added,
    trace (fst (send_email w self to_address subject body attachment_path
                  sender_mailbox st))
      = trace st ++ added
    /\ (send_mode self = py "display" ->
        Forall (fun ev => fst ev <> OlSend) added)
    /\ (send_mode self <> py "display" ->
        Forall (fun ev => fst ev <> OlDisplay) added).
Proof.
  destruct (pystr_eqb (send_mode self) (py "display")) eqn:Em.
  - destruct (@send_email_calls (fun ev => fst ev <> OlSend) w self to_address
                subject body attachment_path sender_mailbox OlDisplay) with (st := st)
      as [added [E F]].
    + rewrite Em. reflexivity.
    + intros r. discriminate.
    + intros c r Hc. simpl. intros ->. discriminate Hc.
    + intros p r. discriminate.
    + exists added. split; [exact E|]. split; [intros _; exact F|].
      intros Hne. exfalso. apply Hne, PyBaseFacts.pystr_eqb_eq, Em.
  - destruct (@send_email_calls (fun ev => fst ev <> OlDisplay) w self
                to_address subject body attachment_path sender_mailbox OlSend)
      with (st := st) as [added [E F]].
    + rewrite Em. reflexivity.
    + intros r. discriminate.
    + intros c r Hc. simpl. intros ->. discriminate Hc.
    + intros p r. discriminate.
    + exists added. split; [exact E|]. split; [|intros _; exact F].
      intros Heq. exfalso.
      apply PyBaseFacts.pystr_eqb_eq in Heq. congruence.
Qed.

(** The call that adds the attachment, if one is given. *)
Definition attach_calls (w : World) (attachment_path : option pystr)
  : list Call :=
  match attachment_path with
  | Some ((_ :: _) as p) => [OlAttachmentsAdd (abspath w p)]
  | _ => []
  end.

Definition final_call (self : OutlookEmailSender) : Call :=
  if pystr_eqb (send_mode self) (py "display") then OlDisplay else OlSend.

Definition returned (calls : list Call) : Trace :=
  map (fun c => (c, @None exn)) calls.

Ltac ok_call_in E :=
  rewrite bind_call in E;
  match type of E with
  | context [outcome ?w ?tr ?c] =>
      let H := fresh "Hcall" in
      destruct (outcome w tr c) eqn:H; [discriminate E|]
  end.

(** When [send_email] returns, the session was there, the three fields
    were filled in, and the calls it made, all of which returned, are
    these in this order: create the item, set recipient, subject and
    body, set the sender identity if one is given, add the attachment
    under its absolute path if one is given, and send or display. A
    given attachment existed when it was checked. *)
Theorem send_email_returns_after_handing_over
    (w : World) (self : OutlookEmailSender) (to_address subject body : pystr)
    (attachment_path sender_mailbox : option pystr) (st st' : St) :
  send_email w self to_address subject body attachment_path sender_mailbox st
    = (st', Return tt) ->
  outlook st = true
  /\ to_address <> [] /\ subject <> [] /\ body <> []
  /\ trace st'
     = trace st
       ++ returned (composing_calls to_address subject body sender_mailbox
                    ++ attach_calls w attachment_path ++ [final_call self])
  /\ (forall p, attachment_path = Some p -> p <> [] ->
      path_exists w
        (trace st
         ++ returned (composing_calls to_address subject body sender_mailbox))
        (abspath w p) = true).
Proof.
  unfold send_email, final_call, composing_calls, attach_calls, returned.
  destruct to_address as [|t0 to_]; [discriminate|].
  destruct subject as [|s0 subj]; [discriminate|].
  destruct body as [|b0 bod]; [discriminate|].
  unfold is_empty. intros E.
  rewrite bind_get in E.
  destruct (outlook st) eqn:Ho; [|discriminate E].
  simpl negb in E. cbv iota in E. rewrite bind_ret in E.
  do 4 ok_call_in E.
  split; [reflexivity|]. do 3 (split; [discriminate|]).
  destruct sender_mailbox as [[|m0 m']|];
    [rewrite bind_ret in E | ok_call_in E | rewrite bind_ret in E];
    (destruct attachment_path as [[|p0 p']|];
     [ rewrite bind_ret in E
     | rewrite bind_bind, bind_get in E;
       match type of E with
       | context [path_exists ?w ?tr ?p] =>
           destruct (path_exists w tr p) eqn:Hex; [|discriminate E]
       end;
       simpl negb in E; cbv iota in E; ok_call_in E
     | rewrite bind_ret in E ]);
    (destruct (pystr_eqb (send_mode self) (py "display"));
     unfold call in E;
     match type of E with
     | context [outcome ?w ?tr ?c] =>
         destruct (outcome w tr c); [discriminate E|]
     end;
     inversion E; subst; clear E;
     (split;
      [ rewrite !trace_record, <- !app_assoc; reflexivity
      | intros p Hp Hne; inversion Hp; subst; try congruence;
        rewrite !trace_record, <- !app_assoc in Hex; exact Hex ])).
Qed.

Lemma send_email_returns_after_handing_over_witness :
  trace {| trace := [(OlCreateItem 0, None);
                     (OlSetTo (py "ann@example.org"), None);
                     (OlSetSubject (py "Payslip"), None);
                     (OlSetBody (py "Dear Ann"), None);
                     (OlAttachmentsAdd (py "A1.pdf"), None); (OlSend, None)];
           excel := false; outlook := true |}
  = trace in_session
    ++ returned (composing_calls (py "ann@example.org") (py "Payslip")
                   (py "Dear Ann") None
                 ++ attach_calls (quiet_world (fun _ => true))
                      (Some (py "A1.pdf"))
                 ++ [final_call send_sender]).
Proof.
  apply (@send_email_returns_after_handing_over (quiet_world (fun _ => true))
           send_sender (py "ann@example.org") (py "Payslip") (py "Dear Ann")
           (Some (py "A1.pdf")) None in_session).
  reflexivity.
Defined.

End OutlookSenderExtra.

(* ===================================================================== *)
(** ** The two sessions: entering, leaving, and errors on the way *)
(* ===================================================================== *)

Module SessionExtra.
Import Effects EffectsFacts.
Local Open Scope Z_scope.

(** A world whose calls, when they fail, raise subclasses of
    [Exception]. *)
Definition raises_exceptions_only (w : World) : Prop :=
  forall tr c e, outcome w tr c = Some e -> is_Exception e = true.

Lemma call_quietly_returns w c st :
  raises_exceptions_only w ->
  call_quietly w c st = (record c (outcome w (trace st) c) st, Return tt).
Proof.
  intros Hw. unfold call_quietly.
  destruct (outcome w (trace st) c) as [e|] eqn:E; [|reflexivity].
  rewrite (Hw _ _ _ E). reflexivity.
Qed.

Lemma exit_clears_the_session (w : World) (st : St) :
  raises_exceptions_only w ->
  exists st', PdfExporter.exit w st = (st', Return tt) /\ excel st' = false.
Proof.
  intros Hw. unfold PdfExporter.exit, finally_. rewrite bind_get.
  destruct (excel st) eqn:Ex.
  - rewrite (call_quietly_returns _ _ Hw).
    unfold bind, set_excel. cbn [trace excel outlook].
    rewrite (call_quietly_returns _ _ Hw).
    eexists. split; reflexivity.
  - unfold ret, bind, set_excel. cbn [trace excel outlook].
    rewrite (call_quietly_returns _ _ Hw).
    eexists. split; reflexivity.
Qed.

(** The cleanup of [__exit__] is in a [finally]: whatever [Quit] does,
    also when it raises something that is no [Exception], the session
    field is cleared and [CoUninitialize] is called. *)
Lemma exit_cleans_up_in_any_case (w : World) (st : St) :
  let quit := trace st ++ [(XlQuit, outcome w (trace st) XlQuit)] in
  let after := if excel st then quit else trace st in
  excel (fst (PdfExporter.exit w st)) = false
  /\ trace (fst (PdfExporter.exit w st))
     = after ++ [(XlCoUninitialize, outcome w after XlCoUninitialize)].
Proof.
  unfold PdfExporter.exit, finally_, bind, get, call_quietly, set_excel, ret,
    record.
  destruct (excel st); cbn [trace excel outlook fst snd];
    repeat match goal with
    | |- context [match ?x with Some _ => _ | None => _ end] =>
        destruct x as [?e|]
    | |- context [if is_Exception ?e then _ else _] =>
        destruct (is_Exception e)
    end; cbn [trace excel outlook fst snd]; split; reflexivity.
Qed.

(** [ExcelPdfExporter.__exit__] cannot fail: whatever [Quit] and
    [CoUninitialize] do, it returns, with the session field cleared.
    [Quit] is called exactly when a session was there. *)
Theorem exporter_exit_always_returns (w : World) (st : St) :
  raises_exceptions_only w ->
  exists st',
    PdfExporter.exit w st = (st', Return tt)
    /\ excel st' = false /\ outlook st' = outlook st
    /\ exists quit uninit,
         trace st'
         = trace st ++ (if excel st then [(XlQuit, quit)] else [])
           ++ [(XlCoUninitialize, uninit)].
Proof.
  intros Hw. unfold PdfExporter.exit, finally_. rewrite bind_get.
  destruct (excel st) eqn:Ex.
  - rewrite (call_quietly_returns _ _ Hw).
    unfold bind, set_excel. cbn [trace excel outlook].
    rewrite (call_quietly_returns _ _ Hw).
    eexists. split; [reflexivity|]. cbn [trace excel outlook record].
    split; [reflexivity|]. split; [reflexivity|].
    do 2 eexists. rewrite <- app_assoc. reflexivity.
  - unfold ret, bind, set_excel. cbn [trace excel outlook].
    rewrite (call_quietly_returns _ _ Hw).
    eexists. split; [reflexivity|]. cbn [trace excel outlook record].
    split; [reflexivity|]. split; [reflexivity|].
    exists None. eexists. reflexivity.
Qed.

Definition always_failing_world : World :=
  {| win32com_available := true;
     outcome := fun _ _ => Some (Exn ComError [Lit "call failed"]);
     path_exists := fun _ _ => false;
     calculation_state := fun _ => 1;
     time_ms := fun tr => 200 * Z.of_nat (List.length tr);
     abspath := fun p => p;
     path_join := fun d f => (d ++ f)%list;
     strlib := {| str_lower := fun s => s; str_format := fun fmt _ => Return fmt |} |}.

Lemma exporter_exit_always_returns_witness :
  exists st',
    PdfExporter.exit always_failing_world
      {| trace := []; excel := true; outlook := false |} = (st', Return tt)
    /\ excel st' = false.
Proof.
  destruct (@exporter_exit_always_returns always_failing_world
              {| trace := []; excel := true; outlook := false |})
    as [st' [E [X _]]].
  - intros tr c e H. inversion H. reflexivity.
  - exists st'. split; assumption.
Defined.

(** An error of the export is not lost in the teardown of the Excel
    session: when the body of the [with] block raises, the block raises
    that same exception, after [__exit__] has cleared the session. *)
Theorem export_error_survives_teardown
    {A} (w : World) (self : PdfExporter.ExcelPdfExporter) (body : M A)
    (st st1 st2 : St) (e : exn) :
  raises_exceptions_only w ->
  PdfExporter.enter w self st = (st1, Return tt) ->
  body (record (Enter ExcelSession) None st1) = (st2, Raise e) ->
  exists st3,
    with_ ExcelSession (PdfExporter.enter w self) (PdfExporter.exit w) body st
      = (st3, Raise e)
    /\ excel st3 = false.
Proof.
  intros Hw He Hb. unfold with_. rewrite He, Hb.
  destruct (exit_clears_the_session st2 Hw) as [st' [Ex X]].
  rewrite Ex. eexists. split; [reflexivity | exact X].
Qed.

Definition export_fails_world : World :=
  {| win32com_available := true;
     outcome := fun _ c =>
       match c with
       | XlExport _ _ _ _ _ _ =>
           Some (Exn TimeoutError [Lit "Excel calculation did not complete"])
       | XlQuit => Some (Exn ComError [Lit "Quit failed"])
       | _ => None
       end;
     path_exists := fun _ _ => true;
     calculation_state := fun _ => 1;
     time_ms := fun tr => 200 * Z.of_nat (List.length tr);
     abspath := fun p => p;
     path_join := fun d f => (d ++ f)%list;
     strlib := {| str_lower := fun s => s; str_format := fun fmt _ => Return fmt |} |}.

Lemma export_error_survives_teardown_witness :
  exists st3,
    with_ ExcelSession (PdfExporter.enter export_fails_world PdfExporter.default)
      (PdfExporter.exit export_fails_world)
      (PdfExporter.export export_fails_world (py "a.xlsx") (py "a.pdf") None
         (py "standard") false false) initial
    = (st3, Raise (Exn TimeoutError [Lit "Excel calculation did not complete"]))
    /\ excel st3 = false.
Proof.
  eapply (@export_error_survives_teardown _ export_fails_world
            PdfExporter.default _ initial).
  - intros tr c e H. simpl in H. destruct c; inversion H; reflexivity.
  - vm_compute. reflexivity.
  - vm_compute. reflexivity.
Defined.

(** The teardown of the Outlook session is not shielded in the same
    way: when [CoUninitialize] fails in [__exit__], its exception is
    what the [with] block raises, whether the send had returned or
    raised. *)
Theorem release_error_replaces_send_outcome
    {A} (w : World) (body : M A) (st st1 st2 : St) (r : Py A) (e' : exn) :
  OutlookSender.enter w st = (st1, Return tt) ->
  body (record (Enter OutlookSession) None st1) = (st2, r) ->
  outcome w (trace st2) OlCoUninitialize = Some e' ->
  exists st3,
    with_ OutlookSession (OutlookSender.enter w) (OutlookSender.exit w) body st
      = (st3, Raise e')
    /\ outlook st3 = false.
Proof.
  intros He Hb Hu. unfold with_. rewrite He, Hb.
  unfold OutlookSender.exit, bind, set_outlook, call.
  cbn [trace excel outlook]. rewrite Hu.
  eexists. split; reflexivity.
Qed.

Definition release_fails_world : World :=
  {| win32com_available := true;
     outcome := fun _ c =>
       match c with
       | OlCoUninitialize => Some (Exn ComError [Lit "CoUninitialize failed"])
       | _ => None
       end;
     path_exists := fun _ _ => true;
     calculation_state := fun _ => 0;
     time_ms := fun tr => 200 * Z.of_nat (List.length tr);
     abspath := fun p => p;
     path_join := fun d f => (d ++ f)%list;
     strlib := {| str_lower := fun s => s; str_format := fun fmt _ => Return fmt |} |}.

Lemma release_error_replaces_send_outcome_witness :
  exists st3,
    with_ OutlookSession (OutlookSender.enter release_fails_world)
      (OutlookSender.exit release_fails_world)
      (OutlookSender.send_email release_fails_world
         {| OutlookSender.send_mode := py "send" |} (py "ann@example.org")
         (py "Payslip") (py "Dear Ann") None None) initial
    = (st3, Raise (Exn ComError [Lit "CoUninitialize failed"]))
    /\ outlook st3 = false.
Proof.
  eapply (@release_error_replaces_send_outcome _ release_fails_world _ initial).
  - vm_compute. reflexivity.
  - vm_compute. reflexivity.
  - reflexivity.
Defined.

Definition outlook_unavailable : exn :=
  Exn RuntimeError
    [Lit "Failed to start Outlook COM automation. ";
     Lit "Ensure Outlook desktop is installed, opened at least once, ";
     Lit "and you are running under the same Windows user profile."].

(** When [Dispatch] fails, the [with] block of the Outlook session ends
    at once with [RuntimeError]: the body makes no call, and
    [CoUninitialize] is not called for the [CoInitialize] that was. *)
Theorem failed_dispatch_skips_body_and_release
    {A} (w : World) (body : M A) (st : St) (e : exn) :
  outcome w (trace st) OlCoInitialize = None ->
  outcome w (trace st ++ [(OlCoInitialize, None)]) OlDispatch = Some e ->
  is_Exception e = true ->
  with_ OutlookSession (OutlookSender.enter w) (OutlookSender.exit w) body st
  = ({| trace := trace st ++ [(OlCoInitialize, None); (OlDispatch, Some e);
                              (Enter OutlookSession, Some outlook_unavailable)];
        excel := excel st; outlook := outlook st |},
     Raise outlook_unavailable).
Proof.
  intros Hi Hd He. unfold with_, OutlookSender.enter.
  rewrite bind_call, Hi. cbn [trace record]. rewrite Hd, He.
  unfold record. cbn [trace excel outlook].
  rewrite <- !app_assoc. reflexivity.
Qed.

Definition no_outlook_world : World :=
  {| win32com_available := true;
     outcome := fun _ c =>
       match c with
       | OlDispatch => Some (Exn ComError [Lit "Invalid class string"])
       | _ => None
       end;
     path_exists := fun _ _ => true;
     calculation_state := fun _ => 0;
     time_ms := fun tr => 200 * Z.of_nat (List.length tr);
     abspath := fun p => p;
     path_join := fun d f => (d ++ f)%list;
     strlib := {| str_lower := fun s => s; str_format := fun fmt _ => Return fmt |} |}.

Lemma failed_dispatch_skips_body_and_release_witness :
  snd (with_ OutlookSession (OutlookSender.enter no_outlook_world)
         (OutlookSender.exit no_outlook_world)
         (OutlookSender.send_email no_outlook_world
            {| OutlookSender.send_mode := py "send" |} (py "ann@example.org")
            (py "Payslip") (py "Dear Ann") None None) initial)
  = Raise outlook_unavailable.
Proof.
  rewrite (@failed_dispatch_skips_body_and_release _ no_outlook_world _ initial
             (Exn ComError [Lit "Invalid class string"]) eq_refl eq_refl eq_refl).
  reflexivity.
Defined.

(** When Excel has started but setting it up fails, [__enter__] raises
    with the session field already set and [__exit__] is never run: the
    Excel that was started is not asked to quit. *)
Theorem failed_setup_leaves_excel_running
    {A} (w : World) (self : PdfExporter.ExcelPdfExporter) (body : M A)
    (st : St) (e : exn) :
  win32com_available w = true ->
  outcome w (trace st) XlCoInitialize = None ->
  outcome w (trace st ++ [(XlCoInitialize, None)])
    (XlDispatch (PdfExporter.use_fresh_instance self)) = None ->
  outcome w (trace st ++ [(XlCoInitialize, None);
                          (XlDispatch (PdfExporter.use_fresh_instance self), None)])
    XlConfigure = Some e ->
  with_ ExcelSession (PdfExporter.enter w self) (PdfExporter.exit w) body st
  = ({| trace := trace st
                 ++ [(XlCoInitialize, None);
                     (XlDispatch (PdfExporter.use_fresh_instance self), None);
                     (XlConfigure, Some e); (Enter ExcelSession, Some e)];
        excel := true; outlook := outlook st |},
     Raise e).
Proof.
  intros Hwin Hi Hd Hc. unfold with_, PdfExporter.enter.
  rewrite Hwin. cbn [negb].
  rewrite bind_call, Hi, bind_call. cbn [trace record]. rewrite Hd.
  unfold bind at 1. unfold set_excel at 1. cbn [trace excel outlook record].
  rewrite <- app_assoc. cbn [app].
  rewrite bind_call. cbn [trace].
  match goal with
  | |- context [outcome w ?tr XlConfigure] =>
      let E := fresh "E" in
      assert (E : outcome w tr XlConfigure = Some e) by exact Hc;
      rewrite E
  end.
  unfold record. cbn [trace excel outlook].
  rewrite <- !app_assoc. reflexivity.
Qed.

Definition setup_fails_world : World :=
  {| win32com_available := true;
     outcome := fun _ c =>
       match c with
       | XlConfigure => Some (Exn ComError [Lit "Unable to set Visible"])
       | _ => None
       end;
     path_exists := fun _ _ => true;
     calculation_state := fun _ => 0;
     time_ms := fun tr => 200 * Z.of_nat (List.length tr);
     abspath := fun p => p;
     path_join := fun d f => (d ++ f)%list;
     strlib := {| str_lower := fun s => s; str_format := fun fmt _ => Return fmt |} |}.

Lemma failed_setup_leaves_excel_running_witness :
  excel (fst (with_ ExcelSession
                (PdfExporter.enter setup_fails_world PdfExporter.default)
                (PdfExporter.exit setup_fails_world)
                (PdfExporter.export setup_fails_world (py "a.xlsx") (py "a.pdf")
                   None (py "standard") false false) initial))
  = true.
Proof.
  rewrite (@failed_setup_leaves_excel_running _ setup_fails_world
             PdfExporter.default _ initial
             (Exn ComError [Lit "Unable to set Visible"])
             eq_refl eq_refl eq_refl eq_refl).
  reflexivity.
Defined.

End SessionExtra.

(* ===================================================================== *)
(** ** The recalculation wait at its first poll *)
(* ===================================================================== *)

Module PdfExporterExtra.
Import Effects EffectsFacts PdfExporter PdfExporterSpec.
Local Open Scope Z_scope.

(** The state is read before the deadline is looked at. After a
    recalculation call that returned, a calculation that is done at the
    first poll ends the wait at once, without a sleep and whatever the
    timeout; one that is not done, under a negative timeout, ends it at
    once with [TimeoutError]. *)
Theorem wait_decided_at_first_poll
    (w : World) (self : ExcelPdfExporter) (fuel : nat) (st : St) :
  outcome w (trace st) (recalc_call self) = None ->
  (calculation_state w (trace st ++ [(recalc_call self, None)]) = 0 ->
   _force_recalc_and_wait w self (S fuel) st
   = Some (record (recalc_call self) None st, Return tt))
  /\
  (calculation_state w (trace st ++ [(recalc_call self, None)]) <> 0 ->
   timeout_seconds self < 0 ->
   _force_recalc_and_wait w self (S fuel) st
   = Some (record (recalc_call self) None st,
           Raise (timeout_error (timeout_seconds self)))).
Proof.
  intros Hcall.
  assert (E : (if force_full_recalc self
               then call w XlCalculateFullRebuild
               else call w XlCalculate) st
              = (record (recalc_call self) None st, Return tt)).
  { unfold recalc_call in *. destruct (force_full_recalc self);
      unfold call; rewrite Hcall; reflexivity. }
  split.
  - intros Hdone. unfold _force_recalc_and_wait. rewrite E.
    cbn [wait_loop]. rewrite trace_record, Hdone. reflexivity.
  - intros Hbusy Hneg. unfold _force_recalc_and_wait. rewrite E.
    cbn [wait_loop]. rewrite trace_record.
    destruct (Z.eqb_spec (calculation_state w (trace st ++ [(recalc_call self, None)])) 0);
      [contradiction|].
    destruct (Z.gtb_spec
                (time_ms w (trace st ++ [(recalc_call self, None)])
                 - time_ms w (trace st ++ [(recalc_call self, None)]))
                (1000 * timeout_seconds self)); [reflexivity | lia].
Qed.

Lemma wait_decided_at_first_poll_witness :
  _force_recalc_and_wait stuck_world
    {| visible := false; timeout_seconds := -1; force_full_recalc := false;
       save_before_export := true; use_fresh_instance := true |} 1 session_open
  = Some (record XlCalculate None session_open, Raise (timeout_error (-1))).
Proof.
  apply (proj2 (@wait_decided_at_first_poll stuck_world
                  {| visible := false; timeout_seconds := -1;
                     force_full_recalc := false; save_before_export := true;
                     use_fresh_instance := true |} 0 session_open eq_refl)).
  - discriminate.
  - reflexivity.
Defined.

End PdfExporterExtra.

(* ===================================================================== *)
(** ** The run as a whole *)
(* ===================================================================== *)

Module MainExtra.
Import Effects EffectsFacts TraceFacts Observations LoadData Main MainSpec.

(** *** A run without the two capabilities *)

Definition writes_or_warns (ev : Event) : Prop :=
  match fst ev with
  | WriteEmployeeToTemplate _ _ _ _ | LogWarning _ => True
  | _ => False
  end.

Lemma employee_loop_xlsx_only w ctx emps n :
  pdf_enabled ctx = false -> email_enabled ctx = false ->
  only writes_or_warns (employee_loop w ctx None None emps n).
Proof.
  intros Hpdf Hemail. revert n.
  induction emps as [|emp rest IH]; intros n; simpl; [apply only_ret|].
  apply only_bind; [|intros; apply IH].
  unfold process_employee. rewrite Hpdf, Hemail.
  only_steps; first [apply only_mark | apply only_call; intros]; exact I.
Qed.

(** With both capabilities off, which is what a platform other than
    Windows gets, a run writes workbooks and logs warnings and does
    nothing else: it starts no session, exports nothing and sends
    nothing, on every path. *)
Theorem xlsx_only_run_makes_no_com_call
    (w : World) (ctx : RunContext) (loaded : Py (list Employee)) (st : St) :
  pdf_enabled ctx = false -> email_enabled ctx = false ->
  exists added,
    trace (fst (main w ctx loaded st)) = trace st ++ added
    /\ Forall writes_or_warns added.
Proof.
  intros Hpdf Hemail.
  assert (H : only writes_or_warns (main w ctx loaded)).
  { unfold main, make_exporter, make_sender. rewrite Hpdf, Hemail.
    destruct loaded as [[|emp rest]|e].
    - apply only_lift_Return, only_raise.
    - apply only_lift_Return, only_lift_Return.
      apply employee_loop_xlsx_only; assumption.
    - apply only_lift_Raise. }
  exact (H st).
Qed.

Lemma xlsx_only_run_makes_no_com_call_witness :
  exists added,
    trace (fst (main (demo_world []) (demo_ctx false false)
                  (Return three_employees) initial))
    = trace initial ++ added
    /\ Forall writes_or_warns added.
Proof.
  apply (@xlsx_only_run_makes_no_com_call (demo_world []) (demo_ctx false false)
           (Return three_employees) initial); reflexivity.
Defined.

(** *** Records without a reference *)

Lemma workbooks_of_a_run w ctx emps :
  workbooks (flat_map (expected_main w ctx) emps)
  = map (fun e => (xlsx_path_of w ctx e, emp_ref_of e)) (filter has_ref emps).
Proof.
  unfold workbooks. induction emps as [|e rest IH]; [reflexivity|].
  cbn [flat_map filter]. rewrite flat_map_app, IH.
  unfold expected_main.
  destruct (has_ref e), (pdf_enabled ctx), (email_enabled ctx), (has_email e);
    reflexivity.
Qed.

(** In a run that completes, whatever the capabilities, the count it
    reports is the number of records whose reference is not blank, and
    the workbooks written are those of exactly these records, in order,
    each under the record's trimmed reference: a record with a blank
    reference is passed over. *)
Theorem run_passes_over_blank_references
    (w : World) (ctx : RunContext) (emps : list Employee) (st' : St) (n : nat) :
  main w ctx (Return emps) initial = (st', Return n) ->
  n = List.length (filter has_ref emps)
  /\ workbooks (observe (trace st'))
     = map (fun e => (xlsx_path_of w ctx e, emp_ref_of e)) (filter has_ref emps)
  /\ Forall (fun written => snd written <> []) (workbooks (observe (trace st'))).
Proof.
  intros Em. destruct (main_observed w ctx emps initial Em) as [O ->].
  cbn [trace initial observe flat_map app] in O.
  rewrite O, workbooks_of_a_run.
  split; [reflexivity|]. split; [reflexivity|].
  apply Forall_map, Forall_forall. intros e He.
  apply filter_In in He. destruct He as [_ He]. cbn [snd].
  unfold has_ref in He. destruct (emp_ref_of e); [discriminate He|discriminate].
Qed.

Lemma run_passes_over_blank_references_witness :
  exists st',
    main (demo_world []) (demo_ctx false false)
      (Return [employee "A1" "Ann" "ann@example.org";
               employee "  " "Bob" "bob@example.org";
               employee "A3" "Cy" "cy@example.org"]) initial
    = (st', Return 2)
    /\ List.length (workbooks (observe (trace st'))) = 2.
Proof.
  destruct (main (demo_world []) (demo_ctx false false)
              (Return [employee "A1" "Ann" "ann@example.org";
                       employee "  " "Bob" "bob@example.org";
                       employee "A3" "Cy" "cy@example.org"]) initial)
    as [st' r] eqn:Em.
  assert (Hr : r = Return 2).
  { change r with (snd (st', r)). rewrite <- Em. vm_compute. reflexivity. }
  subst r.
  destruct (@run_passes_over_blank_references (demo_world [])
              (demo_ctx false false) _ st' 2 Em) as [_ [W _]].
  exists st'. split; [reflexivity|]. rewrite W. reflexivity.
Defined.

(** *** Stopping before the loop *)

Definition no_employees : exn :=
  Exn SystemExit [Lit "No employees found after filtering required columns."].

(** When every row of the sheet lacks a required value, and so also
    when the sheet has no rows, nothing is loaded and the run is over
    before it starts: [main] raises [SystemExit], no call has been made,
    and the process exits with status 1. *)
Theorem run_without_usable_rows_is_fatal
    (w : World) (ctx : RunContext) (df : DataFrame)
    (reference_col name_col email_col : pystr) (required : list pystr)
    (st : St) :
  (forall c, In c required -> In c (columns df)) ->
  Forall (fun row => LoadDataSpec.has_null (columns df) required row = true)
         (rows df) ->
  main w ctx
    (load_employees (Return df) reference_col name_col email_col required) st
    = (st, Raise no_employees)
  /\ dunder_main
       (main w ctx
          (load_employees (Return df) reference_col name_col email_col
             required)) st
     = (st, 1%Z).
Proof.
  intros Hcols Hrows.
  assert (El : load_employees (Return df) reference_col name_col email_col
                 required = Return []).
  { unfold load_employees. simpl py_bind.
    rewrite (LoadDataSpec.no_missing_columns _ _ Hcols).
    unfold dropna. rewrite (LoadDataSpec.no_missing_columns _ _ Hcols).
    simpl py_bind. simpl columns. simpl rows.
    replace (filter (row_complete (columns df) required) (rows df))
      with (@nil (list Cell)); [reflexivity|].
    symmetry. induction Hrows as [|row rest Hrow Hrest IH]; [reflexivity|].
    simpl. rewrite LoadDataSpec.row_complete_has_null, Hrow. exact IH. }
  rewrite El.
  assert (Em : main w ctx (Return []) st = (st, Raise no_employees))
    by reflexivity.
  split; [exact Em|]. unfold dunder_main. rewrite Em. reflexivity.
Qed.

Lemma run_without_usable_rows_is_fatal_witness :
  dunder_main
    (main (demo_world []) (demo_ctx true true)
       (load_employees
          (Return {| columns := LoadDataSpec.demo_columns;
                     rows := [[Some (py "A1"); None; Some (py "a@example.org")]] |})
          (py "Reference Number") (py "Employee Name") (py "Email")
          LoadDataSpec.demo_columns)) initial
  = (initial, 1%Z).
Proof.
  apply (@run_without_usable_rows_is_fatal (demo_world []) (demo_ctx true true)
           {| columns := LoadDataSpec.demo_columns;
              rows := [[Some (py "A1"); None; Some (py "a@example.org")]] |}).
  - intros c H. exact H.
  - repeat constructor.
Defined.

Definition bad_send_mode : exn :=
  Exn ValueError [Lit "send_mode must be 'send' or 'display'"].

(** The send mode is validated when the sender object is made, and that
    happens only with email on. With email on, a mode other than
    [send] or [display] ends the run before the first employee, with
    no call made and exit status 1; with email off the mode is not
    looked at and the loop runs. *)
Theorem send_mode_is_checked_only_with_email
    (w : World) (ctx : RunContext) (emps : list Employee) (st : St) :
  send_mode ctx <> py "send" -> send_mode ctx <> py "display" ->
  emps <> [] ->
  (email_enabled ctx = true ->
   main w ctx (Return emps) st = (st, Raise bad_send_mode)
   /\ dunder_main (main w ctx (Return emps)) st = (st, 1%Z))
  /\
  (email_enabled ctx = false ->
   main w ctx (Return emps) st
   = employee_loop w ctx (make_exporter ctx) None emps 0 st).
Proof.
  intros Hs Hd Hne.
  assert (Enew : OutlookSender.new (send_mode ctx) = Raise bad_send_mode).
  { unfold OutlookSender.new.
    destruct (pystr_eqb (send_mode ctx) (py "send")) eqn:E1;
      [apply PyBaseFacts.pystr_eqb_eq in E1; contradiction|].
    destruct (pystr_eqb (send_mode ctx) (py "display")) eqn:E2;
      [apply PyBaseFacts.pystr_eqb_eq in E2; contradiction|].
    reflexivity. }
  split.
  - intros Hemail.
    assert (Em : main w ctx (Return emps) st = (st, Raise bad_send_mode)).
    { unfold main, make_sender. rewrite Hemail, Enew.
      destruct emps; [congruence | reflexivity]. }
    split; [exact Em|]. unfold dunder_main. rewrite Em. reflexivity.
  - intros Hemail. apply main_runs_loop; [exact Hne|].
    unfold make_sender. rewrite Hemail. reflexivity.
Qed.

Lemma send_mode_is_checked_only_with_email_witness :
  main (demo_world [])
    {| pdf_enabled := false; email_enabled := true;
       template_path := py "template.xlsx"; run_dir := py "output";
       xlsx_dir := py "xlsx"; pdf_dir := py "pdf";
       employee_ref_named_range := py "EmployeeRef";
       filename_pattern := py "{ref}"; period := demo_period;
       pdf_sheet_name := None; pdf_quality := py "standard";
       pdf_open_after := false; pdf_ignore_print_areas := false;
       sender_mailbox := None; send_mode := py "Send";
       subject_tmpl := py "s"; body_tmpl := py "b" |}
    (Return three_employees) initial
  = (initial, Raise bad_send_mode).
Proof.
  apply (@send_mode_is_checked_only_with_email (demo_world [])
           {| pdf_enabled := false; email_enabled := true;
              template_path := py "template.xlsx"; run_dir := py "output";
              xlsx_dir := py "xlsx"; pdf_dir := py "pdf";
              employee_ref_named_range := py "EmployeeRef";
              filename_pattern := py "{ref}"; period := demo_period;
              pdf_sheet_name := None; pdf_quality := py "standard";
              pdf_open_after := false; pdf_ignore_print_areas := false;
              sender_mailbox := None; send_mode := py "Send";
              subject_tmpl := py "s"; body_tmpl := py "b" |}
           three_employees initial).
  - vm_compute. discriminate.
  - vm_compute. discriminate.
  - discriminate.
  - reflexivity.
Defined.

(** *** File names *)

(** A file name stem as [main] makes it: sanitized, so free of the
    characters [safe_filename] replaces and of whitespace, and at most
    80 characters long. *)
Definition safe_stem (stem : pystr) : Prop :=
  Forall (fun c => SafeFilename.illegal_char c = false /\ isspace c = false)
         stem
  /\ (List.length stem <= 80)%nat.

(** The workbook written and the files the export is asked for are
    named after one safe stem. *)
Definition well_named (w : World) (ctx : RunContext) (ev : Event) : Prop :=
  match fst ev with
  | WriteEmployeeToTemplate _ out _ _ =>
      exists stem, safe_stem stem
        /\ out = path_join w (xlsx_dir ctx) (stem ++ py ".xlsx")
  | XlExport wb pdf _ _ _ _ =>
      exists stem, safe_stem stem
        /\ wb = abspath w (path_join w (xlsx_dir ctx) (stem ++ py ".xlsx"))
        /\ pdf = abspath w (path_join w (pdf_dir ctx) (stem ++ py ".pdf"))
  | _ => True
  end.

Lemma safe_filename_is_safe_stem raw :
  safe_stem (SafeFilename.safe_filename raw SafeFilename.default_max_len).
Proof.
  split; [apply SafeFilenameSpec.safe_filename_clean|].
  pose proof (@SafeFilenameSpec.safe_filename_length raw
                SafeFilename.default_max_len) as H.
  unfold SafeFilename.default_max_len in *. lia.
Qed.

Lemma process_employee_well_named w ctx ex se emp :
  only (well_named w ctx) (process_employee w ctx ex se emp).
Proof.
  unfold process_employee.
  destruct (is_empty (strip (or_str (dict_get emp "ref") []))).
  { only_steps. apply only_mark. exact I. }
  apply only_bind; [apply only_lift|]. intros raw. cbv zeta.
  apply only_bind.
  { apply only_call. intros r. eexists. split;
      [apply safe_filename_is_safe_stem | reflexivity]. }
  intros _. apply only_bind.
  { destruct (pdf_enabled ctx), ex as [exporter|]; try apply only_ret.
    apply only_bind; [|intros; apply only_ret].
    apply only_with; try (intros; exact I).
    - unfold PdfExporter.enter. only_steps;
        first [apply only_call | apply only_call_quietly]; intros; exact I.
    - unfold PdfExporter.exit. only_steps;
        first [apply only_call | apply only_call_quietly]; intros; exact I.
    - unfold PdfExporter.export. only_steps.
      apply only_call. intros r. eexists. split;
        [apply safe_filename_is_safe_stem | split; reflexivity]. }
  intros _. apply only_bind; [|intros; apply only_ret].
  destruct (email_enabled ctx), se as [sender|]; try apply only_ret.
  destruct (is_empty (strip (or_str (dict_get emp "email") []))).
  { apply only_mark. exact I. }
  apply only_bind; [apply only_lift|]. intros subject.
  apply only_bind; [apply only_lift|]. intros body. cbv zeta.
  apply only_with; try (intros; exact I).
  - unfold OutlookSender.enter. apply only_bind;
      [apply only_call; intros; exact I|].
    intros _ st. destruct (outcome w (trace st) OlDispatch) as [e|].
    + exists [(OlDispatch, Some e)]. split; [reflexivity|].
      constructor; [exact I | constructor].
    + exists [(OlDispatch, None)]. split; [reflexivity|].
      constructor; [exact I | constructor].
  - unfold OutlookSender.exit. only_steps. apply only_call. intros; exact I.
  - apply only_bind; [apply only_mark; exact I|]. intros _.
    unfold OutlookSender.send_email. only_steps; apply only_call; intros; exact I.
Qed.

(** On every path of a run, each workbook is written to the workbook
    directory under a sanitized stem followed by [.xlsx], and each
    export is asked to read that workbook and to write the same stem
    followed by [.pdf] in the fixed-layout directory. *)
Theorem files_are_named_after_one_safe_stem
    (w : World) (ctx : RunContext) (loaded : Py (list Employee)) (st : St) :
  exists added,
    trace (fst (main w ctx loaded st)) = trace st ++ added
    /\ Forall (well_named w ctx) added.
Proof.
  assert (Hloop : forall ex se emps n,
            only (well_named w ctx) (employee_loop w ctx ex se emps n)).
  { intros ex se emps. induction emps as [|emp rest IH]; intros n; simpl;
      [apply only_ret|].
    apply only_bind; [apply process_employee_well_named | intros; apply IH]. }
  assert (H : only (well_named w ctx) (main w ctx loaded)).
  { unfold main. apply only_bind; [apply only_lift|]. intros [|emp rest].
    - apply only_raise.
    - apply only_bind; [apply only_lift | intros; apply Hloop]. }
  exact (H st).
Qed.

End MainExtra.

(* ===================================================================== *)
(** ** Configuration lookup and the preflight checks *)
(* ===================================================================== *)

Module ConfigExtra.
Import Config Period.
Local Open Scope Z_scope.

Definition no_decimal (z : Z) : pystr := py "0".
Definition no_repr (v : yaml) : pystr := py "{}".

Definition settings_with (run : list (string * yaml)) : yaml :=
  YDict [("run"%string, YDict run)].

Definition period_config_of (config : yaml) : PeriodConfig :=
  {| period_mode := Some (py "auto_current_month");
     reference_date := Some (run_reference_date no_decimal no_repr config);
     manual_year := None; manual_month := None;
     id_format := None; display_format := None;
     payslip_date_format := None |}.

Lemma run_entry run key default :
  cfg_get (settings_with run) ["run"%string; key] default
  = match entry run key with Some v => v | None => default end.
Proof. reflexivity. Qed.

(** A [reference_date] key that is present with no value is not the same
    as a key that is absent. With the key absent from the [run] section,
    [resolve_period] takes today as the reference date; with the key
    present and null, the text read is the word None, which is no date,
    and [resolve_period] ends the run with the message for an invalid
    reference date. *)
Theorem empty_reference_date_is_not_absent
    (sl : StrLib) (dl : DateLib) (decimal : Z -> pystr) (repr : yaml -> pystr)
    (run : list (string * yaml)) (pc : PeriodConfig) :
  reference_date pc
  = Some (run_reference_date decimal repr (settings_with run)) ->
  strptime_ymd dl (py "None") = None ->
  (entry run "reference_date" = None ->
   main_ref_dt dl pc = Return (today dl))
  /\
  (entry run "reference_date" = Some YNull ->
   resolve_period sl dl pc
   = Raise (Exn SystemExit
       [Lit "Invalid run.reference_date. Expected YYYY-MM-DD (e.g. 2026-01-25)."])).
Proof.
  intros Hpc Hparse.
  unfold run_reference_date in Hpc.
  rewrite run_entry in Hpc.
  split; intros Hentry; rewrite Hentry in Hpc.
  - unfold main_ref_dt. rewrite Hpc. reflexivity.
  - unfold resolve_period, main_ref_dt. rewrite Hpc.
    cbn [py_str get_default].
    change (strip (py "None")) with (py "None").
    change (negb (is_empty (py "None"))) with true. cbv iota.
    rewrite Hparse. reflexivity.
Qed.

Lemma empty_reference_date_is_not_absent_witness :
  resolve_period PeriodSpec.demo_strlib PeriodSpec.demo_datelib
    (period_config_of (settings_with [("reference_date"%string, YNull)]))
  = Raise (Exn SystemExit
      [Lit "Invalid run.reference_date. Expected YYYY-MM-DD (e.g. 2026-01-25)."]).
Proof.
  apply (proj2 (@empty_reference_date_is_not_absent PeriodSpec.demo_strlib
                  PeriodSpec.demo_datelib no_decimal no_repr
                  [("reference_date"%string, YNull)]
                  (period_config_of
                     (settings_with [("reference_date"%string, YNull)]))
                  eq_refl eq_refl)).
  reflexivity.
Defined.

(** [cfg_get] follows a path of keys through nested dicts: the lookup
    along a path that is split in two is the lookup of the second part
    in what the first part finds, as long as the first part finds a
    dict entry at every key; where it does not, the default is the
    answer whatever the rest of the path is. *)
Fixpoint found (cur : yaml) (keys : list string) : option yaml :=
  match keys with
  | [] => Some cur
  | key :: rest =>
      match cur with
      | YDict entries =>
          match entry entries key with
          | Some v => found v rest
          | None => None
          end
      | _ => None
      end
  end.

Theorem cfg_get_follows_the_path
    (cfg : yaml) (first rest : list string) (default : yaml) :
  cfg_get cfg (first ++ rest) default
  = match found cfg first with
    | Some v => cfg_get v rest default
    | None => default
    end.
Proof.
  revert cfg. induction first as [|k first IH]; intros cfg; [reflexivity|].
  cbn [app cfg_get found].
  destruct cfg; try reflexivity.
  destruct (entry entries k); [apply IH | reflexivity].
Qed.

End ConfigExtra.

Module PreflightExtra.
Import Preflight.
Local Open Scope Z_scope.

(** Off Windows the run never gets a capability and the COM check never
    stops it: whatever the configuration intends, [main] goes on with
    pdf and email both off, and the notice about skipping is printed
    exactly when one of them was intended. *)
Theorem capabilities_are_off_elsewhere
    (sl : StrLib) (p : Platform) (intended_pdf intended_email : bool) :
  is_windows sl p = false ->
  effective_capabilities sl p intended_pdf intended_email
  = Return (false, false)
  /\ fst (resolve_capabilities sl p intended_pdf intended_email true)
     = (if (intended_pdf || intended_email)%bool then fallback_notice else []).
Proof.
  intros Hw. unfold effective_capabilities, resolve_capabilities,
    check_windows_com_deps.
  rewrite Hw. cbn. split; reflexivity.
Qed.

Definition linux (has_com : bool) : Platform :=
  {| system := py "linux"; version_info := (3, 12, 1);
     importable := fun name =>
       if String.eqb name "win32com.client" then has_com else true |}.

Definition windows (has_com : bool) : Platform :=
  {| system := py "windows"; version_info := (3, 12, 1);
     importable := fun name =>
       if String.eqb name "win32com.client" then has_com
       else negb (String.eqb name "pandas") |}.

Lemma capabilities_are_off_elsewhere_witness :
  effective_capabilities PeriodSpec.demo_strlib (linux false) true true
  = Return (false, false)
  /\ fst (resolve_capabilities PeriodSpec.demo_strlib (linux false) true true
            true)
     = (if (true || true)%bool then fallback_notice else []).
Proof.
  apply (@capabilities_are_off_elsewhere PeriodSpec.demo_strlib (linux false)
           true true).
  reflexivity.
Defined.

(** A capability [main] goes on with was intended by the configuration,
    and if one is on then the system is Windows and [win32com.client]
    can be imported. On Windows nothing is taken away: the capabilities
    are the intended ones, or the run has ended. *)
Theorem enabled_capability_has_com
    (sl : StrLib) (p : Platform) (intended_pdf intended_email : bool)
    (pdf_enabled email_enabled : bool) :
  effective_capabilities sl p intended_pdf intended_email
  = Return (pdf_enabled, email_enabled) ->
  (pdf_enabled = true -> intended_pdf = true)
  /\ (email_enabled = true -> intended_email = true)
  /\ ((pdf_enabled || email_enabled)%bool = true ->
      is_windows sl p = true /\ importable p "win32com.client" = true)
  /\ (is_windows sl p = true ->
      pdf_enabled = intended_pdf /\ email_enabled = intended_email).
Proof.
  unfold effective_capabilities, resolve_capabilities, check_windows_com_deps.
  destruct (is_windows sl p) eqn:Hw; cbn.
  - destruct intended_pdf, intended_email; cbn;
      destruct (importable p "win32com.client") eqn:Hi; cbn;
      intros E; inversion E; subst; repeat split; auto; discriminate.
  - intros E. inversion E; subst.
    repeat split; intros; discriminate.
Qed.

Lemma enabled_capability_has_com_witness :
  is_windows PeriodSpec.demo_strlib (windows true) = true
  /\ importable (windows true) "win32com.client" = true.
Proof.
  apply (@enabled_capability_has_com PeriodSpec.demo_strlib (windows true)
           true false true false eq_refl).
  reflexivity.
Defined.

Lemma flat_map_has {A B} (f : A -> list B) (x : A) (l : list A) :
  In x l -> exists before after, flat_map f l = before ++ f x ++ after.
Proof.
  intros H. destruct (in_split x l H) as [l1 [l2 E]]. subst l.
  exists (flat_map f l1), (flat_map f l2).
  rewrite flat_map_app. reflexivity.
Qed.

(** [check_required_modules] returns exactly when every listed module
    can be imported. Otherwise it ends the run, and the message has the
    line of every listed module that cannot be imported, not only of the
    first. *)
Theorem check_required_modules_names_every_missing
    (sl : StrLib) (p : Platform) (required : list (string * string)) :
  (check_required_modules sl p required = Return tt
   <-> forall m, In m required -> importable p (fst m) = true)
  /\
  (forall e, check_required_modules sl p required = Raise e ->
   exn_cls e = SystemExit
   /\ forall m, In m required -> importable p (fst m) = false ->
      exists before after,
        exn_msg e = before ++ missing_line m ++ after).
Proof.
  unfold check_required_modules.
  remember (filter (fun m => negb (importable p (fst m))) required) as missing
    eqn:Hm.
  assert (Hin : forall m, In m missing
                  <-> In m required /\ importable p (fst m) = false).
  { intros m. subst missing. rewrite filter_In.
    destruct (importable p (fst m)); cbn; intuition congruence. }
  destruct missing as [|m0 rest].
  - split.
    + split; [|reflexivity]. intros _ m Hr.
      destruct (importable p (fst m)) eqn:E; [reflexivity|].
      destruct (proj2 (Hin m) (conj Hr E)).
    + intros e E. discriminate E.
  - split.
    + split; [discriminate|]. intros Hall.
      destruct (proj1 (Hin m0) (or_introl eq_refl)) as [Hr Hf].
      rewrite (Hall m0 Hr) in Hf. discriminate Hf.
    + intros e E. injection E as E. subst e. split; [reflexivity|].
      intros m Hr Hf.
      destruct (flat_map_has missing_line m (m0 :: rest)
                  (proj2 (Hin m) (conj Hr Hf))) as [l1 [l2 Hsplit]].
      unfold exn_msg. eexists ([_; _; _; _; _; _] ++ l1), l2.
      cbn [app flat_map missing_line] in Hsplit |- *.
      rewrite Hsplit. reflexivity.
Qed.

Lemma check_required_modules_names_every_missing_witness :
  exn_cls (Exn SystemExit
    ([Lit "Missing Python dependencies."; Lit "";
      Lit "Install requirements and try again:";
      Lit "  py -m pip install -r requirements.txt";
      Lit ""; Lit "Missing modules:"]
     ++ missing_line ("pandas", "pandas")%string)) = SystemExit.
Proof.
  apply (proj2 (@check_required_modules_names_every_missing
                  PeriodSpec.demo_strlib (windows true)
                  [("pandas", "pandas"); ("openpyxl", "openpyxl")]%string)).
  reflexivity.
Defined.

(** [check_python] lets the run go on exactly when the version is the
    required one or a later one: a later major version passes whatever
    its minor version is, and the micro version never matters. *)
Theorem check_python_accepts_later_versions
    (p : Platform) (min_major min_minor : Z) :
  check_python p min_major min_minor = Return tt
  <-> (let '(major, minor, _) := version_info p in
       min_major < major \/ (major = min_major /\ min_minor <= minor)).
Proof.
  unfold check_python, pair_ltb.
  destruct (version_info p) as [[major minor] micro]. cbn [fst snd].
  destruct (Z.ltb_spec major min_major), (Z.eqb_spec major min_major),
    (Z.ltb_spec minor min_minor); cbn; split;
    try discriminate; try reflexivity; intros; try lia.
Qed.

End PreflightExtra.

(* ===================================================================== *)
(** ** [write_employee_to_template]: what is saved *)
(* ===================================================================== *)

Module TemplateWriterExtra.
Import TemplateWriter.

Lemma lookup_replace_sheet_same sheets title ws ws' :
  lookup sheets title = Some ws ->
  lookup (replace_sheet sheets title ws') title = Some ws'.
Proof.
  induction sheets as [|[k v] l IH]; cbn [lookup replace_sheet];
    [discriminate|].
  destruct (pystr_eqb k title) eqn:E; cbn [lookup]; rewrite E.
  - reflexivity.
  - exact IH.
Qed.

Lemma lookup_replace_sheet_other sheets title other ws' :
  other <> title ->
  lookup (replace_sheet sheets title ws') other = lookup sheets other.
Proof.
  intros Hne.
  induction sheets as [|[k v] l IH]; cbn [lookup replace_sheet];
    [reflexivity|].
  destruct (pystr_eqb k title) eqn:E; cbn [lookup].
  - apply PyBaseFacts.pystr_eqb_eq in E. subst k.
    destruct (pystr_eqb title other) eqn:E2; [|reflexivity].
    apply PyBaseFacts.pystr_eqb_eq in E2. congruence.
  - rewrite IH. reflexivity.
Qed.

Lemma titles_replace_sheet sheets title ws' :
  map fst (replace_sheet sheets title ws') = map fst sheets.
Proof.
  induction sheets as [|[k v] l IH]; cbn [replace_sheet map]; [reflexivity|].
  destruct (pystr_eqb k title); cbn [map fst]; [reflexivity|].
  rewrite IH. reflexivity.
Qed.

(** When [write_employee_to_template] returns, it has saved one
    workbook, under the output path. That workbook is the template with
    one cell assigned: the cell of the first destination of the named
    range, on the sheet of that destination, set to the employee
    reference. The defined names, the titles of the sheets and their
    order, and every other sheet are as they were loaded; further
    destinations of the name are not written. *)
Theorem saved_workbook_differs_in_one_cell
    (lib : Library)
    (template_path output_path employee_ref employee_ref_named_range : pystr)
    (saved : Saved) :
  write_employee_to_template lib template_path output_path employee_ref
    employee_ref_named_range = (saved, Return tt) ->
  exists wb sheet_name cell_ref others ws ws' wb',
    load_workbook lib template_path = Return wb
    /\ lookup (defined_names wb) employee_ref_named_range
       = Some ((sheet_name, cell_ref) :: others)
    /\ lookup (sheets wb) sheet_name = Some ws
    /\ set_cell lib ws cell_ref employee_ref = Return ws'
    /\ saved = [(output_path, wb')]
    /\ defined_names wb' = defined_names wb
    /\ map fst (sheets wb') = map fst (sheets wb)
    /\ lookup (sheets wb') sheet_name = Some ws'
    /\ forall other, other <> sheet_name ->
         lookup (sheets wb') other = lookup (sheets wb) other.
Proof.
  unfold write_employee_to_template. intros H.
  destruct (load_workbook lib template_path) as [wb|e] eqn:Hload;
    [|discriminate H].
  destruct (lookup (defined_names wb) employee_ref_named_range)
    as [[|[sheet_name cell_ref] others]|] eqn:Hname; try discriminate H.
  destruct (lookup (sheets wb) sheet_name) as [ws|] eqn:Hsheet;
    [|discriminate H].
  destruct (set_cell lib ws cell_ref employee_ref) as [ws'|e] eqn:Hset;
    [|discriminate H].
  destruct (save_fails lib output_path _) eqn:Hsave; [discriminate H|].
  injection H as H. subst saved.
  exists wb, sheet_name, cell_ref, others, ws, ws'.
  eexists. repeat split; try eassumption; try reflexivity.
  - apply titles_replace_sheet.
  - cbn [sheets]. eapply lookup_replace_sheet_same. eassumption.
  - intros other Hne. cbn [sheets]. apply lookup_replace_sheet_other.
    assumption.
Qed.

Definition payslip_template : Workbook :=
  {| defined_names :=
       [(py "EMP_REF", [(py "Payslip", py "B2"); (py "Summary", py "A1")])];
     sheets :=
       [(py "Payslip", [(py "B2", py "")]);
        (py "Summary", [(py "A1", py "")])] |}.

Definition demo_library : Library :=
  {| load_workbook := fun _ => Return payslip_template;
     set_cell := fun cells ref v => Return ((ref, v) :: cells);
     save_fails := fun _ _ => None |}.

Lemma saved_workbook_differs_in_one_cell_witness :
  exists wb sheet_name cell_ref others ws ws' wb',
    load_workbook demo_library (py "template.xlsx") = Return wb
    /\ lookup (defined_names wb) (py "EMP_REF")
       = Some ((sheet_name, cell_ref) :: others)
    /\ lookup (sheets wb) sheet_name = Some ws
    /\ set_cell demo_library ws cell_ref (py "E001") = Return ws'
    /\ [(py "out.xlsx",
         {| defined_names := defined_names payslip_template;
            sheets :=
              [(py "Payslip", [(py "B2", py "E001"); (py "B2", py "")]);
               (py "Summary", [(py "A1", py "")])] |})]
       = [(py "out.xlsx", wb')]
    /\ defined_names wb' = defined_names wb
    /\ map fst (sheets wb') = map fst (sheets wb)
    /\ lookup (sheets wb') sheet_name = Some ws'
    /\ forall other, other <> sheet_name ->
         lookup (sheets wb') other = lookup (sheets wb) other.
Proof.
  apply (@saved_workbook_differs_in_one_cell demo_library (py "template.xlsx")
           (py "out.xlsx") (py "E001") (py "EMP_REF")).
  reflexivity.
Defined.

(** [write_employee_to_template] saves at most once, and only under the
    output path. When the workbook cannot be loaded, the name is not
    defined or has no destination, the sheet of the destination does not
    exist, or the cell cannot be assigned, nothing is saved at all; in
    the two cases of the name the error is a [ValueError] that carries
    the name. *)
Theorem nothing_saved_before_the_cell_is_set
    (lib : Library)
    (template_path output_path employee_ref employee_ref_named_range : pystr) :
  let result :=
    write_employee_to_template lib template_path output_path employee_ref
      employee_ref_named_range in
  (fst result = [] \/ exists wb', fst result = [(output_path, wb')])
  /\ (fst result = [] -> is_Return (snd result) = false)
  /\ (forall wb,
        load_workbook lib template_path = Return wb ->
        match lookup (defined_names wb) employee_ref_named_range with
        | None =>
            result
            = ([], Raise (Exn ValueError
                     [Lit "Named range '"; Str employee_ref_named_range;
                      Lit "' not found in workbook"]))
        | Some [] =>
            result
            = ([], Raise (Exn ValueError
                     [Lit "Named range '"; Str employee_ref_named_range;
                      Lit "' has no destinations"]))
        | Some ((sheet_name, cell_ref) :: _) =>
            (lookup (sheets wb) sheet_name = None -> fst result = [])
            /\ (forall ws e,
                  lookup (sheets wb) sheet_name = Some ws ->
                  set_cell lib ws cell_ref employee_ref = Raise e ->
                  result = ([], Raise e))
        end).
Proof.
  unfold write_employee_to_template. cbv zeta.
  destruct (load_workbook lib template_path) as [wb|e] eqn:Hload.
  - destruct (lookup (defined_names wb) employee_ref_named_range)
      as [[|[sheet_name cell_ref] others]|] eqn:Hname.
    + repeat split; auto.
      intros wb0 E. injection E as E. subst wb0. rewrite Hname. reflexivity.
    + destruct (lookup (sheets wb) sheet_name) as [ws|] eqn:Hsheet.
      * destruct (set_cell lib ws cell_ref employee_ref) as [ws'|e] eqn:Hset.
        -- destruct (save_fails lib output_path _) eqn:Hsave; cbn [fst snd];
             (split; [right; eexists; reflexivity|]);
             (split; [discriminate|]);
             intros wb0 E; injection E as E; subst wb0; rewrite Hname;
             (split; [rewrite Hsheet; discriminate|]);
             intros ws0 e0 E1 E2; rewrite Hsheet in E1; injection E1 as E1;
             subst ws0; rewrite Hset in E2; discriminate E2.
        -- cbn [fst snd]. repeat split; auto.
           intros wb0 E. injection E as E. subst wb0. rewrite Hname.
           split; [reflexivity|].
           intros ws0 e0 E1 E2. rewrite Hsheet in E1. injection E1 as E1.
           subst ws0. rewrite Hset in E2. injection E2 as E2. subst e0.
           reflexivity.
      * cbn [fst snd]. repeat split; auto.
        intros wb0 E. injection E as E. subst wb0. rewrite Hname.
        split; [reflexivity|].
        intros ws0 e0 E1. rewrite Hsheet in E1. discriminate E1.
    + repeat split; auto.
      intros wb0 E. injection E as E. subst wb0. rewrite Hname. reflexivity.
  - cbn [fst snd]. repeat split; auto.
    intros wb0 E. discriminate E.
Qed.

End TemplateWriterExtra.

(* ===================================================================== *)
(** ** [ExcelPdfExporter.export], step by step: what every run does *)
(* ===================================================================== *)

Module ExportStepsExtra.
Import ExportSteps.
Local Open Scope Z_scope.

Lemma skipn_app_length {A} (t l : list A) :
  skipn (List.length t) (t ++ l) = l.
Proof. induction t as [|a t IH]; [reflexivity | exact IH]. Qed.

Lemma added_steps {A} (m : M A) (t : Trace) steps r :
  m t = (t ++ steps, r) -> added m t = steps.
Proof. intros E. unfold added. rewrite E. apply skipn_app_length. Qed.

Lemma removelast_snoc {A} (l : list A) (a : A) : removelast (l ++ [a]) = l.
Proof. apply removelast_last. Qed.

(** Where a workbook stands while the steps go by. *)
Inductive Phase := NotOpened | Opened | Closed.

(** The steps open at most one workbook; one that was opened is closed
    by the last step, and one that was not is never closed; the steps on
    the workbook come while it is open. *)
Fixpoint well_closed (phase : Phase) (steps : list Event) : bool :=
  match steps with
  | [] => match phase with Opened => false | _ => true end
  | (Makedirs _, _) :: rest =>
      match phase with NotOpened => well_closed phase rest | _ => false end
  | (WorkbooksOpen _, None) :: rest =>
      match phase with NotOpened => well_closed Opened rest | _ => false end
  | (WorkbooksOpen _, Some _) :: rest =>
      match phase with NotOpened => well_closed Closed rest | _ => false end
  | (WbClose, _) :: rest =>
      match phase, rest with Opened, [] => true | _, _ => false end
  | (_, _) :: rest =>
      match phase with Opened => well_closed phase rest | _ => false end
  end.

Definition is_export (ev : Event) : bool :=
  match fst ev with ExportAsFixedFormat _ _ _ _ _ => true | _ => false end.

Definition is_save (ev : Event) : bool :=
  match fst ev with WbSave => true | _ => false end.

Definition is_worksheets (ev : Event) : bool :=
  match fst ev with Worksheets _ => true | _ => false end.

Definition truthy_name (sheet_name : option pystr) : bool :=
  match sheet_name with Some (_ :: _) => true | _ => false end.

(** Every way [export] can run, as the trace it leaves and the result. *)
Ltac export_cases E :=
  unfold export, bind, step, exists_, save_quietly, finally_close, ret, raise
    in E;
  repeat
    (cbv beta iota zeta in E;
     match type of E with
     | context [negb ?b] =>
         lazymatch b with
         | negb _ => fail
         | _ => destruct b eqn:?; cbn [negb] in E
         end
     | context [is_empty ?s] => destruct (is_empty s) eqn:?
     | context [match outcome ?h ?t ?s with _ => _ end] =>
         destruct (outcome h t s) eqn:?
     | context [if is_Exception ?e then _ else _] =>
         destruct (is_Exception e) eqn:?
     | context [if ?b then _ else _] =>
         is_var b; destruct b
     | context [match ?n with Some _ => _ | None => _ end] =>
         is_var n; destruct n as [[|? ?]|]
     end);
  cbv beta iota zeta in E;
  rewrite <- ?app_assoc in E; cbn [app] in E.

Lemma added_none {A} (m : M A) (t : Trace) r :
  m t = (t, r) -> added m t = [].
Proof.
  intros E. apply added_steps with (r := r). rewrite app_nil_r. exact E.
Qed.

Lemma removelast_steps (t : Trace) (steps : list Event) :
  steps <> [] -> removelast (t ++ steps) = t ++ removelast steps.
Proof. apply removelast_app. Qed.

Lemma quality_of_minimum quality :
  quality_of quality
  = if pystr_eqb quality (py "minimum") then xlQualityMinimum
    else xlQualityStandard.
Proof.
  unfold quality_of.
  destruct (pystr_eqb quality (py "standard")) eqn:E; [|reflexivity].
  apply PyBaseFacts.pystr_eqb_eq in E. subst quality. reflexivity.
Qed.

(** After the cases: the run that was split, with its steps named. *)
Ltac settle E E0 :=
  injection E as E1 E2; subst;
  first [ rewrite (@added_steps _ _ _ _ _ E0) in *
        | rewrite (@added_none _ _ _ _ E0) in * ];
  rewrite ?E0 in *; cbn [fst snd] in *.

Ltac which_step H :=
  cbn [In] in H; try contradiction;
  repeat (destruct H as [H|H]; try discriminate H; try contradiction).

(** A host for the examples: every path exists, and a step fails as
    [failing] says. *)
Definition demo_host (failing : Step -> option exn) : Host :=
  {| abspath := fun p => p;
     dirname := fun _ => py "out";
     path_exists := fun _ _ => true;
     outcome := fun _ s => failing s |}.

Definition wait_timed_out : exn :=
  Exn TimeoutError
    [Lit "Excel calculation did not complete within "; Int 30; Lit "s"].

Definition recalculation_times_out (s : Step) : option exn :=
  match s with ForceRecalcAndWait => Some wait_timed_out | _ => None end.

Definition save_refused : exn := Exn ComError [Lit "Save"].

Definition save_is_refused (s : Step) : option exn :=
  match s with WbSave => Some save_refused | _ => None end.

Definition nothing_fails (s : Step) : option exn := None.

(** [export] closes the workbook it opened, on every path: if
    [Workbooks.Open] returned, then [Close] is the last step whatever
    happened in between, and the recalculation, the save and the export
    come between the two; if the workbook was not opened, no step is
    taken on it and nothing is closed. *)
Theorem export_closes_the_workbook_it_opened
    (h : Host) (excel save_before_export : bool)
    (workbook_path output_pdf_path : pystr) (sheet_name : option pystr)
    (quality : pystr) (open_after_publish ignore_print_areas : bool)
    (t : Trace) :
  well_closed NotOpened
    (added (export h excel save_before_export workbook_path output_pdf_path
              sheet_name quality open_after_publish ignore_print_areas) t)
  = true.
Proof.
  destruct (export h excel save_before_export workbook_path output_pdf_path
              sheet_name quality open_after_publish ignore_print_areas t)
    as [t' r] eqn:E.
  pose proof E as E0.
  export_cases E; settle E E0; reflexivity.
Qed.

(** [export] takes no step at all exactly when there is no Excel session
    or the workbook does not exist; the error then tells which. In every
    other case Excel is asked to open the workbook, unless the folder of
    the output had to be made and could not be. *)
Theorem export_stops_early_without_session_or_workbook
    (h : Host) (excel save_before_export : bool)
    (workbook_path output_pdf_path : pystr) (sheet_name : option pystr)
    (quality : pystr) (open_after_publish ignore_print_areas : bool)
    (t : Trace) :
  let run :=
    export h excel save_before_export workbook_path output_pdf_path
      sheet_name quality open_after_publish ignore_print_areas in
  (added run t = []
   <-> excel = false \/ path_exists h t (abspath h workbook_path) = false)
  /\ (excel = false ->
      snd (run t)
      = Raise (Exn RuntimeError
          [Lit "ExcelPdfExporter not initialized. Use within a 'with' block."]))
  /\ (excel = true ->
      path_exists h t (abspath h workbook_path) = false ->
      snd (run t)
      = Raise (Exn FileNotFoundError
          [Lit "Workbook not found: "; Str (abspath h workbook_path)]))
  /\ (added run t <> [] ->
      (exists c, In (WorkbooksOpen (abspath h workbook_path), c) (added run t))
      \/ (exists e,
            added run t
            = [(Makedirs (dirname h (abspath h output_pdf_path)), Some e)])).
Proof.
  cbv zeta.
  destruct (export h excel save_before_export workbook_path output_pdf_path
              sheet_name quality open_after_publish ignore_print_areas t)
    as [t' r] eqn:E.
  pose proof E as E0.
  export_cases E; settle E E0;
    (split; [split; [try discriminate; auto | intros [?|?]; congruence]|]);
    (split; [try discriminate; auto|]);
    (split; [intros; try congruence; auto|]);
    intros Hne; try congruence;
    first [ left; eexists; cbn [In]; solve [eauto]
          | right; eexists; reflexivity ].
Qed.

(** A recalculation that fails (the wait timing out, or Excel raising)
    ends the export: the workbook is neither saved nor exported, no
    sheet is looked up, and [export] raises the error of the wait, or
    what closing the workbook raised if that was no [Exception]. *)
Theorem no_export_after_failed_recalculation
    (h : Host) (excel save_before_export : bool)
    (workbook_path output_pdf_path : pystr) (sheet_name : option pystr)
    (quality : pystr) (open_after_publish ignore_print_areas : bool)
    (t : Trace) (e : exn) :
  let run :=
    export h excel save_before_export workbook_path output_pdf_path
      sheet_name quality open_after_publish ignore_print_areas in
  In (ForceRecalcAndWait, Some e) (added run t) ->
  forallb (fun ev => negb (is_export ev || is_save ev || is_worksheets ev))
    (added run t) = true
  /\ (snd (run t) = Raise e
      \/ exists e', is_Exception e' = false
           /\ In (WbClose, Some e') (added run t)
           /\ snd (run t) = Raise e').
Proof.
  cbv zeta.
  destruct (export h excel save_before_export workbook_path output_pdf_path
              sheet_name quality open_after_publish ignore_print_areas t)
    as [t' r] eqn:E.
  pose proof E as E0.
  export_cases E; settle E E0; intros H; which_step H;
    injection H as H; subst;
    (split; [reflexivity|]);
    first [ left; reflexivity
          | right; eexists; split; [eassumption|];
            split; [cbn [In]; eauto 10 | reflexivity] ].
Qed.

Lemma no_export_after_failed_recalculation_witness :
  let run :=
    export (demo_host recalculation_times_out) true true (py "out/a.xlsx")
      (py "out/a.pdf") None (py "standard") false false in
  forallb (fun ev => negb (is_export ev || is_save ev || is_worksheets ev))
    (added run []) = true
  /\ (snd (run []) = Raise wait_timed_out
      \/ exists e', is_Exception e' = false
           /\ In (WbClose, Some e') (added run [])
           /\ snd (run []) = Raise e').
Proof.
  apply (@no_export_after_failed_recalculation
           (demo_host recalculation_times_out) true true (py "out/a.xlsx")
           (py "out/a.pdf") None (py "standard") false false []
           wait_timed_out).
  vm_compute. auto.
Defined.

(** What [export] returns is the absolute output path, and then: there
    was a session and the workbook existed, the recalculation had
    finished, Excel exported without error to that path (the sheet if a
    sheet name was given, the whole workbook otherwise; at minimum
    quality for the quality named minimum and at standard quality for
    any other word), and the file was there when [export] looked, just
    before the workbook was closed. *)
Theorem returned_pdf_was_exported_and_found
    (h : Host) (excel save_before_export : bool)
    (workbook_path output_pdf_path : pystr) (sheet_name : option pystr)
    (quality : pystr) (open_after_publish ignore_print_areas : bool)
    (t : Trace) (p : pystr) :
  let run :=
    export h excel save_before_export workbook_path output_pdf_path
      sheet_name quality open_after_publish ignore_print_areas in
  snd (run t) = Return p ->
  p = abspath h output_pdf_path
  /\ excel = true
  /\ path_exists h t (abspath h workbook_path) = true
  /\ In (ForceRecalcAndWait, None) (added run t)
  /\ In (ExportAsFixedFormat (negb (truthy_name sheet_name)) p
           (if pystr_eqb quality (py "minimum") then 1 else 0)
           ignore_print_areas open_after_publish, None) (added run t)
  /\ path_exists h (removelast (fst (run t))) p = true.
Proof.
  cbv zeta.
  destruct (export h excel save_before_export workbook_path output_pdf_path
              sheet_name quality open_after_publish ignore_print_areas t)
    as [t' r] eqn:E.
  pose proof E as E0.
  export_cases E; settle E E0; intros H; try discriminate H;
    injection H as H; subst p;
    rewrite <- quality_of_minimum;
    (rewrite removelast_steps by discriminate);
    cbn [removelast truthy_name negb In];
    repeat split; auto 10;
    match goal with
    | Hx : path_exists _ _ _ = true |- path_exists _ _ _ = true =>
        rewrite <- ?app_assoc in Hx; exact Hx
    end.
Qed.

Lemma returned_pdf_was_exported_and_found_witness :
  let run :=
    export (demo_host nothing_fails) true true (py "out/a.xlsx")
      (py "out/a.pdf") (Some (py "Payslip")) (py "best") false false in
  py "out/a.pdf" = abspath (demo_host nothing_fails) (py "out/a.pdf")
  /\ true = true
  /\ path_exists (demo_host nothing_fails) []
       (abspath (demo_host nothing_fails) (py "out/a.xlsx")) = true
  /\ In (ForceRecalcAndWait, None) (added run [])
  /\ In (ExportAsFixedFormat (negb (truthy_name (Some (py "Payslip"))))
           (py "out/a.pdf")
           (if pystr_eqb (py "best") (py "minimum") then 1 else 0)
           false false, None) (added run [])
  /\ path_exists (demo_host nothing_fails) (removelast (fst (run [])))
       (py "out/a.pdf") = true.
Proof.
  apply (@returned_pdf_was_exported_and_found
           (demo_host nothing_fails) true true (py "out/a.xlsx")
           (py "out/a.pdf") (Some (py "Payslip")) (py "best") false false []
           (py "out/a.pdf")).
  reflexivity.
Defined.

(** A save that fails with an [Exception] does not stop the export: the
    failure is logged as a warning, and [export] goes on to the sheet
    or to the export proper. *)
Theorem failed_save_does_not_stop_the_export
    (h : Host) (excel save_before_export : bool)
    (workbook_path output_pdf_path : pystr) (sheet_name : option pystr)
    (quality : pystr) (open_after_publish ignore_print_areas : bool)
    (t : Trace) (e : exn) :
  let run :=
    export h excel save_before_export workbook_path output_pdf_path
      sheet_name quality open_after_publish ignore_print_areas in
  In (WbSave, Some e) (added run t) ->
  is_Exception e = true ->
  save_before_export = true
  /\ In (LogSaveWarning e, None) (added run t)
  /\ existsb (fun ev => is_export ev || is_worksheets ev) (added run t) = true.
Proof.
  cbv zeta.
  destruct (export h excel save_before_export workbook_path output_pdf_path
              sheet_name quality open_after_publish ignore_print_areas t)
    as [t' r] eqn:E.
  pose proof E as E0.
  export_cases E; settle E E0; intros H He; which_step H;
    injection H as H; subst;
    try congruence;
    (split; [reflexivity|]); (split; [cbn [In]; auto 10 | reflexivity]).
Qed.

Lemma failed_save_does_not_stop_the_export_witness :
  let run :=
    export (demo_host save_is_refused) true true (py "out/a.xlsx")
      (py "out/a.pdf") None (py "standard") false false in
  true = true
  /\ In (LogSaveWarning save_refused, None) (added run [])
  /\ existsb (fun ev => is_export ev || is_worksheets ev) (added run [])
     = true.
Proof.
  apply (@failed_save_does_not_stop_the_export
           (demo_host save_is_refused) true true (py "out/a.xlsx")
           (py "out/a.pdf") None (py "standard") false false []
           save_refused).
  - vm_compute. auto 10.
  - reflexivity.
Defined.

End ExportStepsExtra.
